(** * DevDestroyer: certificate-stream listener, fingerprint cascade and research mode

  A shallow embedding of the JavaScript sources
  - [realtime_certstream_listener.js] (class [CertStreamRealTimeListener]),
  - [cabal_scraper.js] (class [CabalScraper]),
  - [research_mode.js] (class [ResearchMode]),
  - [bot.js] (class [TargetedListenerBot]) and
    [python_certstream_bridge.js] (class [PythonCertStreamBridge]),
  together with the properties of the specification that concern them.

  Conventions of the embedding.
  - JS strings are [string]; JS arrays are [list]; the JS [Set] of seen
    domains is a [gset string]; [null]/[undefined] are [None].
  - Network and library calls (DNS, TLS probe, HTTP/browser extraction, the
    regular-expression engine, [JSON.parse]) are oracles collected in
    environment records; each function returns its result together with the
    effects it performed (DNS queries, alerts, tier invocations, timers).
  - Every handler runs to completion before the next event is delivered:
    the [await] points inside a handler are not interleaving points.
  - [emit], [saveAlert] and the file writes of research mode do not throw.
  - Wall-clock timestamps ([new Date().toISOString()]) are not modelled. *)

From stdpp Require Import base numbers list strings gmap.
From stdpp Require Import sorting.
From Stdlib Require Import Ascii.

Local Open Scope Z_scope.

(** ** JavaScript string primitives used by the sources *)

Module Js.

(** Truthiness of a possibly absent string: [undefined], [null] and the
    empty string are falsy. *)
Definition truthy (o : option string) : bool :=
  match o with
  | Some EmptyString => false
  | Some _ => true
  | None => false
  end.

(** [s.startsWith(p)]. *)
Fixpoint startsWith (p s : string) : bool :=
  match p, s with
  | EmptyString, _ => true
  | String a p', String b s' => if decide (a = b) then startsWith p' s' else false
  | String _ _, EmptyString => false
  end.

(** [s.includes(p)] on strings. *)
Fixpoint str_includes (p s : string) : bool :=
  startsWith p s ||
  match s with
  | EmptyString => false
  | String _ s' => str_includes p s'
  end.

(** [s.endsWith(p)], also the meaning of the pattern [/p$/] for a literal [p]. *)
Fixpoint endsWith (p s : string) : bool :=
  (if decide (s = p) then true else false) ||
  match s with
  | EmptyString => false
  | String _ s' => endsWith p s'
  end.

(** [arr.includes(x)] on arrays of strings. *)
Definition includes (x : string) (arr : list string) : bool :=
  bool_decide (x ∈ arr).

(** [s.split(sep)] for a one-character separator: [cur] holds the
    characters of the part being read. *)
Fixpoint split_go (sep : ascii) (cur : string) (s : string) : list string :=
  match s with
  | EmptyString => [cur]
  | String c s' =>
      if decide (c = sep) then cur :: split_go sep EmptyString s'
      else split_go sep (cur +:+ String c EmptyString) s'
  end.

Definition split (sep : ascii) (s : string) : list string :=
  split_go sep EmptyString s.

(** ASCII lower-casing, the effect of the [i] flag on a literal pattern. *)
Definition lower_ascii (c : ascii) : ascii :=
  let n := nat_of_ascii c in
  if (Nat.leb 65 n && Nat.leb n 90)%bool then ascii_of_nat (n + 32) else c.

Fixpoint toLowerCase (s : string) : string :=
  match s with
  | EmptyString => EmptyString
  | String c s' => String (lower_ascii c) (toLowerCase s')
  end.

(** [arr.push(x)] guarded by [!arr.includes(x)]. *)
Definition push_unique (x : string) (arr : list string) : list string :=
  if includes x arr then arr else arr ++ [x].

(** [s.slice(n)]: [s] without its first [n] characters. *)
Fixpoint slice (n : nat) (s : string) : string :=
  match n, s with
  | O, _ => s
  | S n', String _ s' => slice n' s'
  | S _, EmptyString => EmptyString
  end.

(** No character of [s] is [sep]. *)
Fixpoint free_of (sep : ascii) (s : string) : bool :=
  match s with
  | EmptyString => true
  | String c s' => (if decide (c = sep) then false else true) && free_of sep s'
  end.

(** [arr.join(sep)]. *)
Fixpoint join (sep : string) (arr : list string) : string :=
  match arr with
  | [] => EmptyString
  | [x] => x
  | x :: rest => x +:+ sep +:+ join sep rest
  end.

(** The line feed, the separator of the text files of the sources. *)
Definition LF : ascii := ascii_of_nat 10.

(** White space in the sense of [trim], among the code units below 256:
    tab, line feed, vertical tab, form feed, carriage return, space and the
    no-break space. *)
Definition is_space (c : ascii) : bool :=
  let n := nat_of_ascii c in
  (Nat.leb 9 n && Nat.leb n 13) || Nat.eqb n 32 || Nat.eqb n 160.

Fixpoint trimStart (s : string) : string :=
  match s with
  | EmptyString => EmptyString
  | String c s' => if is_space c then trimStart s' else s
  end.

Fixpoint trimEnd (s : string) : string :=
  match s with
  | EmptyString => EmptyString
  | String c s' =>
      match trimEnd s' with
      | EmptyString => if is_space c then EmptyString else String c EmptyString
      | t => String c t
      end
  end.

(** [s.trim()]. *)
Definition trim (s : string) : string := trimEnd (trimStart s).

(** A line as the ledger files expect it: not empty, no line feed inside,
    no white space at either end. *)
Definition clean_line (s : string) : bool :=
  negb (bool_decide (s = EmptyString)) && free_of LF s
  && bool_decide (trim s = s).


End Js.

(** ** The real-time listener: [CertStreamRealTimeListener] *)

Module Listener.

(** *** Wire data *)

(** [data.leaf_cert] of a [certificate_update] frame.  [issuer] is [None]
    when the [issuer] object is absent; otherwise it holds the (possibly
    absent) [O] field.  A [subjectAltName] entry that is not a string is
    [None]. *)
Record LeafCert := {
  subject_CN : option string;
  subjectAltName : option (list (option string));
  all_domains : option (list string);
  issuer : option (option string);
  not_before : option Z;
  not_after : option Z
}.

Record CertData := { leaf_cert : option LeafCert }.

(** The value of [JSON.parse(data)]: the call throws, it yields [null]
    (whose property access throws), or it yields an object with a
    [message_type] and a possibly absent [data]. *)
Inductive Decoded :=
| ParseError
| JNull
| JMessage (message_type : string) (data : option CertData).

(** *** Reference data, read-only while listening *)

Record Watchlist := {
  ips : option (list string);
  subnets : option (list string)
}.

Record DeepDNA := { ssl_issuers : option (list string) }.

Record Profile := { deep_dna : option DeepDNA }.

(** The fields of [this] that [processDomains] only reads, and the DNS
    oracle: [resolve4 d = None] when [dns.resolve4(d)] rejects. *)
Record Config := {
  domainPatterns : list (string → bool);
  watchlist : option Watchlist;
  profile : option Profile;
  resolve4 : string → option (list string)
}.

(** *** Alerts and listener state *)

Record Alert := {
  domain : string;
  ip : option string;
  alert_issuer : option string;
  notBefore : option Z;
  notAfter : option Z;
  matchType : string;
  confidence : string;
  deepDNADetails : option string;
  status : option string
}.

(** The mutable fields of [this], with two logs standing for the outside
    world: [alerts] receives every alert handed to [emit] and [saveAlert],
    [dnsQueries] every name passed to [dns.resolve4]. *)
Record State := {
  knownCabalDomains : gset string;
  messageCount : Z;
  detectedCount : Z;
  alerts : list Alert;
  dnsQueries : list string
}.

Definition initial (known : list string) : State :=
  {| knownCabalDomains := list_to_set known;
     messageCount := 0;
     detectedCount := 0;
     alerts := [];
     dnsQueries := [] |}.

(** The default [domainPatterns] of the constructor:
    [/\.fun$/], [/\.xyz$/], [/\.site$/], [/\.online$/] and the
    case-insensitive [/the(white|...)(cat|...)/i]. *)
Definition colours : list string :=
  ["white"; "black"; "red"; "golden"; "silver"; "prime"; "small"; "big";
   "giant"; "tiny"].

Definition animals : list string :=
  ["cat"; "dog"; "whale"; "trout"; "penguin"; "bear"; "fox"; "eagle";
   "panda"; "bull"; "cow"].

Definition themed (d : string) : bool :=
  existsb (λ c, existsb (λ a,
    Js.str_includes ("the" +:+ c +:+ a) (Js.toLowerCase d)) animals) colours.

Definition defaultPatterns : list (string → bool) :=
  [Js.endsWith ".fun"; Js.endsWith ".xyz"; Js.endsWith ".site";
   Js.endsWith ".online"; themed].

(** *** [isIPWatched] *)

Definition subnet_of_parts (parts : list string) : option string :=
  match parts with
  | [p0; p1; p2; _] => Some (p0 +:+ "." +:+ p1 +:+ "." +:+ p2 +:+ ".0/24")
  | _ => None
  end.

Definition isIPWatched (cfg : Config) (ip : string) : bool :=
  match watchlist cfg with
  | None => false
  | Some w =>
      if match ips w with Some l => Js.includes ip l | None => false end
      then true
      else
        match subnets w with
        | Some subs =>
            match subnet_of_parts (Js.split "." ip) with
            | Some subnet => Js.includes subnet subs
            | None => false
            end
        | None => false
        end
  end.

(** *** [performDeepDNAMatch] *)

Record DeepMatch := {
  dm_type : string;
  dm_confidence : string;
  dm_details : string
}.

Definition matchesAny (cfg : Config) (d : string) : bool :=
  existsb (λ pattern, pattern d) (domainPatterns cfg).

(** [certData?.leaf_cert?.issuer?.O || null]. *)
Definition issuerOrg (certData : CertData) : option string :=
  match leaf_cert certData with
  | Some lc =>
      match issuer lc with
      | Some o => if Js.truthy o then o else None
      | None => None
      end
  | None => None
  end.

Definition patternResult (cfg : Config) (d : string) : option DeepMatch :=
  if matchesAny cfg d
  then Some {| dm_type := "PATTERN_MATCH"; dm_confidence := "MEDIUM";
               dm_details := "Domain matches cabal heuristic pattern: " +:+ d |}
  else None.

(** A missing [ssl_issuers] array makes [.includes] throw inside the [try];
    the [catch] returns [null]. *)
Definition performDeepDNAMatch (cfg : Config) (d : string)
    (certData : CertData) : option DeepMatch :=
  match profile cfg with
  | None => None
  | Some p =>
      match deep_dna p with
      | None => None
      | Some dna =>
          match issuerOrg certData with
          | Some iss =>
              match ssl_issuers dna with
              | None => None
              | Some l =>
                  if Js.includes iss l
                  then Some {| dm_type := "SSL_ISSUER_MATCH";
                               dm_confidence := "MEDIUM";
                               dm_details :=
                                 "SSL Issuer matches known cabal: " +:+ iss |}
                  else patternResult cfg d
              end
          | None => patternResult cfg d
          end
      end
  end.

(** *** [extractDomainsFromCert] *)

(** [domains.add(x)] on the insertion-ordered [Set] that is finally turned
    into an array. *)
Definition set_add (x : string) (acc : list string) : list string :=
  Js.push_unique x acc.

Definition extractDomainsFromCert (lc : LeafCert) : list string :=
  let d0 := if Js.truthy (subject_CN lc)
            then set_add (default "" (subject_CN lc)) [] else [] in
  let d1 := match subjectAltName lc with
            | Some sanList =>
                foldl (λ acc san, match san with
                                  | Some s => set_add s acc
                                  | None => acc
                                  end) d0 sanList
            | None => d0
            end in
  match all_domains lc with
  | Some ds => foldl (λ acc d, set_add d acc) d1 ds
  | None => d1
  end.

(** *** [processDomains] *)

(** [addresses[0]] after [await dns.resolve4(domain)]; [null] when the
    call rejects. *)
Definition resolve (cfg : Config) (d : string) : option string :=
  match resolve4 cfg d with
  | Some addresses => head addresses
  | None => None
  end.

(** The three fields every alert copies from the certificate. *)
Definition certIssuer (certData : CertData) : option string :=
  match leaf_cert certData with
  | Some lc => match issuer lc with Some o => o | None => Some "Unknown" end
  | None => Some "Unknown"
  end.

Definition certNotBefore (certData : CertData) : option Z :=
  match leaf_cert certData with Some lc => not_before lc | None => None end.

Definition certNotAfter (certData : CertData) : option Z :=
  match leaf_cert certData with Some lc => not_after lc | None => None end.

Definition mkAlert (d : string) (resolvedIP : option string)
    (certData : CertData) (mt conf : string)
    (details st : option string) : Alert :=
  {| domain := d; ip := resolvedIP;
     alert_issuer := certIssuer certData;
     notBefore := certNotBefore certData;
     notAfter := certNotAfter certData;
     matchType := mt; confidence := conf;
     deepDNADetails := details; status := st |}.

(** [detectedCount++], [knownCabalDomains.add(domain)], [emit], [saveAlert]. *)
Definition raise (a : Alert) (s : State) : State :=
  {| knownCabalDomains := {[domain a]} ∪ knownCabalDomains s;
     messageCount := messageCount s;
     detectedCount := detectedCount s + 1;
     alerts := alerts s ++ [a];
     dnsQueries := dnsQueries s |}.

Definition queried (d : string) (s : State) : State :=
  {| knownCabalDomains := knownCabalDomains s;
     messageCount := messageCount s;
     detectedCount := detectedCount s;
     alerts := alerts s;
     dnsQueries := dnsQueries s ++ [d] |}.

Definition skipped (d : string) : bool :=
  Js.startsWith "*." d || bool_decide (d = "").

(** One iteration of the [for (const domain of domains)] loop. *)
Definition processDomain (cfg : Config) (certData : CertData)
    (s : State) (d : string) : State :=
  if skipped d then s
  else
    let matchesPattern := matchesAny cfg d in
    let s1 := queried d s in
    let resolvedIP := resolve cfg d in
    let isWatchedIP :=
      if Js.truthy resolvedIP
      then isIPWatched cfg (default "" resolvedIP) else false in
    if isWatchedIP then
      raise (mkAlert d resolvedIP certData "IP_MATCH" "CRITICAL" None None) s1
    else if matchesPattern && negb (bool_decide (d ∈ knownCabalDomains s1)) then
      match performDeepDNAMatch cfg d certData with
      | Some deepMatch =>
          raise (mkAlert d resolvedIP certData (dm_type deepMatch)
                   (dm_confidence deepMatch)
                   (Some (dm_details deepMatch)) None) s1
      | None =>
          if matchesPattern then
            raise (mkAlert d resolvedIP certData "PATTERN_MATCH" "MEDIUM"
                     None (Some "PENDING_MANUAL_REVIEW")) s1
          else s1
      end
    else s1.

Definition processDomains (cfg : Config) (domains : list string)
    (certData : CertData) (s : State) : State :=
  foldl (processDomain cfg certData) s domains.

(** *** [handleCertificateMessage] *)

Definition counted (s : State) : State :=
  {| knownCabalDomains := knownCabalDomains s;
     messageCount := messageCount s + 1;
     detectedCount := detectedCount s;
     alerts := alerts s;
     dnsQueries := dnsQueries s |}.

Definition handleCertificateMessage (cfg : Config) (msg : Decoded)
    (s : State) : State :=
  match msg with
  | ParseError => s
  | JNull => counted s
  | JMessage ty data =>
      let s1 := counted s in
      if bool_decide (ty = "certificate_update") then
        match data with
        | Some certData =>
            match leaf_cert certData with
            | Some lc =>
                processDomains cfg (extractDomainsFromCert lc) certData s1
            | None => s1
            end
        | None => s1
        end
      else s1
  end.

(** *** [connect(maxRetries)]: heartbeat and reconnection *)

(** [this.ws.readyState]; a new socket starts in [CONNECTING]. *)
Inductive ReadyState := CONNECTING | OPEN | CLOSING | CLOSED.

(** The variables captured by the closures of [connect], the connection
    fields of [this], and the armed reconnection timer ([pendingRetry] holds
    the delay passed to [setTimeout] until the callback runs). *)
Record Conn := {
  maxRetries : Z;
  retryCount : Z;
  retryDelay : Z;
  isAlive : bool;
  pingInterval : bool;
  stallCheckInterval : bool;
  isConnected : bool;
  readyState : ReadyState;
  pendingRetry : option Z;
  listener : State
}.

(** What a handler asks of the runtime. *)
Inductive Effect :=
| NewWebSocket
| SetTimeout (ms : Z)
| SetInterval (ms : Z)
| SendPing
| Terminate.

(** What the runtime delivers: the socket events [open], [message], [pong],
    [error], [close], and the expiry of the three timers. *)
Inductive Event :=
| Open
| Message (msg : Decoded)
| Pong
| Error
| Close
| RetryTimer
| PingTimer
| StallTimer.

Definition with_listener (l : State) (c : Conn) : Conn :=
  {| maxRetries := maxRetries c; retryCount := retryCount c;
     retryDelay := retryDelay c; isAlive := isAlive c;
     pingInterval := pingInterval c;
     stallCheckInterval := stallCheckInterval c;
     isConnected := isConnected c; readyState := readyState c;
     pendingRetry := pendingRetry c; listener := l |}.

(** [connect(maxRetries)]: the initial bindings followed by the first
    [attemptConnection()]. *)
Definition connect (maxR : Z) (l : State) : Conn * list Effect :=
  ({| maxRetries := maxR; retryCount := 0; retryDelay := 1000;
      isAlive := true; pingInterval := false; stallCheckInterval := false;
      isConnected := false; readyState := CONNECTING;
      pendingRetry := None; listener := l |},
   [NewWebSocket]).

Definition on_open (c : Conn) : Conn * list Effect :=
  ({| maxRetries := maxRetries c; retryCount := 0; retryDelay := 1000;
      isAlive := true; pingInterval := true; stallCheckInterval := true;
      isConnected := true; readyState := OPEN;
      pendingRetry := pendingRetry c; listener := listener c |},
   [SetInterval 30000; SetInterval 40000]).

Definition on_message (cfg : Config) (msg : Decoded) (c : Conn)
    : Conn * list Effect :=
  (with_listener (handleCertificateMessage cfg msg (listener c)) c, []).

Definition on_pong (c : Conn) : Conn * list Effect :=
  ({| maxRetries := maxRetries c; retryCount := retryCount c;
      retryDelay := retryDelay c; isAlive := true;
      pingInterval := pingInterval c;
      stallCheckInterval := stallCheckInterval c;
      isConnected := isConnected c; readyState := readyState c;
      pendingRetry := pendingRetry c; listener := listener c |},
   []).

Definition on_error (c : Conn) : Conn * list Effect :=
  ({| maxRetries := maxRetries c; retryCount := retryCount c;
      retryDelay := retryDelay c; isAlive := isAlive c;
      pingInterval := pingInterval c;
      stallCheckInterval := stallCheckInterval c;
      isConnected := false; readyState := readyState c;
      pendingRetry := pendingRetry c; listener := listener c |},
   []).

Definition on_close (c : Conn) : Conn * list Effect :=
  if retryCount c <? maxRetries c then
    ({| maxRetries := maxRetries c; retryCount := retryCount c + 1;
        retryDelay := retryDelay c; isAlive := false;
        pingInterval := false; stallCheckInterval := false;
        isConnected := false; readyState := CLOSED;
        pendingRetry := Some (retryDelay c); listener := listener c |},
     [SetTimeout (retryDelay c)])
  else
    ({| maxRetries := maxRetries c; retryCount := retryCount c;
        retryDelay := retryDelay c; isAlive := false;
        pingInterval := false; stallCheckInterval := false;
        isConnected := false; readyState := CLOSED;
        pendingRetry := pendingRetry c; listener := listener c |},
     []).

(** The [setTimeout] callback of the [close] handler. *)
Definition on_retry_timer (c : Conn) : Conn * list Effect :=
  ({| maxRetries := maxRetries c; retryCount := retryCount c;
      retryDelay := Z.min (retryDelay c * 2) 30000; isAlive := isAlive c;
      pingInterval := pingInterval c;
      stallCheckInterval := stallCheckInterval c;
      isConnected := isConnected c; readyState := CONNECTING;
      pendingRetry := None; listener := listener c |},
   [NewWebSocket]).

Definition on_ping_timer (c : Conn) : Conn * list Effect :=
  (c, match readyState c with OPEN => [SendPing] | _ => [] end).

Definition on_stall_timer (c : Conn) : Conn * list Effect :=
  ({| maxRetries := maxRetries c; retryCount := retryCount c;
      retryDelay := retryDelay c; isAlive := false;
      pingInterval := pingInterval c;
      stallCheckInterval := stallCheckInterval c;
      isConnected := isConnected c;
      readyState := if isAlive c then readyState c else CLOSING;
      pendingRetry := pendingRetry c; listener := listener c |},
   if isAlive c then [] else [Terminate]).

(** Which events the runtime can deliver in a state: a socket opens once,
    from [CONNECTING]; it delivers frames only while [OPEN]; it closes once;
    a timer fires only while armed. *)
Definition enabled (c : Conn) (ev : Event) : bool :=
  match ev with
  | Open => match readyState c with CONNECTING => true | _ => false end
  | Message _ | Pong => match readyState c with OPEN => true | _ => false end
  | Error | Close =>
      match readyState c with CLOSED => false | _ => true end
  | RetryTimer => match pendingRetry c with Some _ => true | None => false end
  | PingTimer => pingInterval c
  | StallTimer => stallCheckInterval c
  end.

Definition handle (cfg : Config) (c : Conn) (ev : Event) : Conn * list Effect :=
  match ev with
  | Open => on_open c
  | Message msg => on_message cfg msg c
  | Pong => on_pong c
  | Error => on_error c
  | Close => on_close c
  | RetryTimer => on_retry_timer c
  | PingTimer => on_ping_timer c
  | StallTimer => on_stall_timer c
  end.

Definition step (cfg : Config) (c : Conn) (ev : Event)
    : option (Conn * list Effect) :=
  if enabled c ev then Some (handle cfg c ev) else None.

(** A run from a state, with the effects in order. *)
Fixpoint run (cfg : Config) (c : Conn) (evs : list Event)
    : option (Conn * list Effect) :=
  match evs with
  | [] => Some (c, [])
  | ev :: evs' =>
      match step cfg c ev with
      | Some (c1, out1) =>
          match run cfg c1 evs' with
          | Some (c2, out2) => Some (c2, out1 ++ out2)
          | None => None
          end
      | None => None
      end
  end.

(** A session: [connect(maxRetries)] followed by delivered events. *)
Definition session (cfg : Config) (maxR : Z) (l : State) (evs : list Event)
    : option (Conn * list Effect) :=
  match run cfg (connect maxR l).1 evs with
  | Some (c, out) => Some (c, (connect maxR l).2 ++ out)
  | None => None
  end.

(** Closes seen since the last [open] (or since [connect]). *)
Definition countFailure (n : Z) (ev : Event) : Z :=
  match ev with
  | Open => 0
  | Close => n + 1
  | _ => n
  end.

Definition failuresSinceOpen (evs : list Event) : Z :=
  foldl countFailure 0 evs.

(** The backoff schedule of the documentation: 1s, 2s, 4s, ... capped at 30s. *)
Definition backoff (n : Z) : Z := Z.min (1000 * 2 ^ n) 30000.

(** What holds of the closure variables after [n] closes since the last
    [open]: while a socket is alive the counter is [n] and the delay is the
    [n]-th of the schedule; while a retry is armed its delay is the
    [(n-1)]-th; a closed socket with no armed retry has no timer left. *)
Definition connInv (maxR n : Z) (c : Conn) : Prop :=
  maxRetries c = maxR ∧ 0 ≤ n ∧
  match readyState c with
  | CLOSED =>
      pingInterval c = false ∧ stallCheckInterval c = false ∧
      match pendingRetry c with
      | Some d =>
          retryCount c = n ∧ 1 ≤ n ∧ d = retryDelay c
          ∧ retryDelay c = backoff (n - 1)
      | None => True
      end
  | _ => pendingRetry c = None ∧ retryCount c = n ∧ retryDelay c = backoff n
  end.

(** *** Vocabulary for the properties of the matching engine *)

(** The value of [isWatchedIP] in [processDomains]. *)
Definition watchedByIP (cfg : Config) (d : string) : bool :=
  if Js.truthy (resolve cfg d)
  then isIPWatched cfg (default "" (resolve cfg d)) else false.

(** The match types and confidences an alert may carry. *)
Definition classified (a : Alert) : Prop :=
  (matchType a = "IP_MATCH" ∧ confidence a = "CRITICAL")
  ∨ (matchType a = "SSL_ISSUER_MATCH" ∧ confidence a = "MEDIUM")
  ∨ (matchType a = "PATTERN_MATCH" ∧ confidence a = "MEDIUM").

(** The three ways an iteration of the loop can end. *)
Inductive Verdict (s : State) (d : string) : State → Prop :=
| Skipped : skipped d = true → Verdict s d s
| NoMatch : skipped d = false → Verdict s d (queried d s)
| Alerted a :
    skipped d = false → domain a = d → classified a →
    Verdict s d (raise a (queried d s)).

(** *** [loadKnownDomains], [disconnect], [getStats] *)

(** [loadKnownDomains(filename)]: [content] is the text of the file, [None]
    when the file does not exist. Lines whose [trim()] is empty are dropped;
    the others are added as they stand. *)
Definition loadKnownDomains (content : option string) (s : State) : State :=
  match content with
  | None => s
  | Some text =>
      let domains :=
        filter (λ d, Js.trim d ≠ EmptyString) (Js.split Js.LF text) in
      {| knownCabalDomains :=
           foldl (λ known d, {[d]} ∪ known) (knownCabalDomains s) domains;
         messageCount := messageCount s;
         detectedCount := detectedCount s;
         alerts := alerts s;
         dnsQueries := dnsQueries s |}
  end.

(** [disconnect()]: [this.ws.close()] starts the closing handshake of a
    socket that is not closed yet; the [close] event follows from the
    runtime. *)
Definition disconnect (c : Conn) : Conn :=
  {| maxRetries := maxRetries c; retryCount := retryCount c;
     retryDelay := retryDelay c; isAlive := isAlive c;
     pingInterval := pingInterval c;
     stallCheckInterval := stallCheckInterval c;
     isConnected := false;
     readyState := match readyState c with CLOSED => CLOSED | _ => CLOSING end;
     pendingRetry := pendingRetry c; listener := listener c |}.

Record Stats := {
  stats_isConnected : bool;
  messagesProcessed : Z;
  cabalDomainsDetected : Z;
  knownDomainsTracked : nat
}.

Definition getStats (c : Conn) : Stats :=
  {| stats_isConnected := isConnected c;
     messagesProcessed := messageCount (listener c);
     cabalDomainsDetected := detectedCount (listener c);
     knownDomainsTracked := size (knownCabalDomains (listener c)) |}.

(** *** Vocabulary for further properties of the listener *)

(** The alert built by the branches behind the pattern gate. *)
Definition gatedAlert (cfg : Config) (certData : CertData) (d : string) : Alert :=
  match performDeepDNAMatch cfg d certData with
  | Some deepMatch =>
      mkAlert d (resolve cfg d) certData (dm_type deepMatch)
        (dm_confidence deepMatch) (Some (dm_details deepMatch)) None
  | None =>
      mkAlert d (resolve cfg d) certData "PATTERN_MATCH" "MEDIUM"
        None (Some "PENDING_MANUAL_REVIEW")
  end.

(** Where an alert for a certificate comes from: its domain was not
    skipped, and it is the alert of the IP branch when the domain resolves
    to a watched address, the alert of the gated branches otherwise, in
    which case the domain matches a naming pattern. *)
Definition origin (cfg : Config) (certData : CertData) (a : Alert) : Prop :=
  skipped (domain a) = false
  ∧ if watchedByIP cfg (domain a)
    then a = mkAlert (domain a) (resolve cfg (domain a)) certData
               "IP_MATCH" "CRITICAL" None None
    else matchesAny cfg (domain a) = true
         ∧ a = gatedAlert cfg certData (domain a).

(** A frame that [JSON.parse] accepts. *)
Definition parseable (ev : Event) : bool :=
  match ev with
  | Message ParseError => false
  | Message _ => true
  | _ => false
  end.

(** Events that touch neither the socket state nor the liveness flag. *)
Definition quiet (ev : Event) : bool :=
  match ev with
  | Message _ | Error | PingTimer => true
  | _ => false
  end.

Definition is_open (ev : Event) : bool :=
  match ev with Open => true | _ => false end.

(** Connection attempts among the effects of a run. *)
Definition is_attempt (e : Effect) : bool :=
  match e with NewWebSocket => true | _ => false end.

Definition attempts (out : list Effect) : nat :=
  length (filter (λ e, is_attempt e = true) out).

Definition timeouts (out : list Effect) : list Z :=
  omap (λ e, match e with SetTimeout ms => Some ms | _ => None end) out.


(** 1 while a reconnection timer is armed, 0 otherwise. *)
Definition armed (c : Conn) : Z :=
  match pendingRetry c with Some _ => 1 | None => 0 end.


End Listener.

(** ** The fingerprint extractor: [CabalScraper] *)

Module Scraper.

(** A call that either returns or throws an error with a message. *)
Inductive Outcome (A : Type) :=
| Returns (a : A)
| Throws (message : string).
Arguments Returns {A} a.
Arguments Throws {A} message.

(** The object resolved by [extractSSLFingerprint], or the placeholder
    [{ error: 'Could not retrieve SSL info' }] stored in its place. *)
Record SslInfo := {
  organization : string;
  commonName : string;
  country : string;
  certFingerprint : string
}.

Inductive Ssl :=
| SslOk (info : SslInfo)
| SslError (message : string).

(** The structural fields every layer extracts. [css_vars] is the object of
    custom properties, as its list of entries. *)
Record Extraction := {
  dom_hash : option string;
  css_vars : list (string * string);
  elementor_data_ids : list string;
  common_class_names : list string;
  script_hashes : list string;
  uses_wp_uploads : bool;
  uses_tinybird : bool
}.

(** What a layer returns: [{ success: false }] or the extracted fields with
    [extracted_via] and [success: true]. *)
Inductive LayerResult :=
| Failure
| Success (e : Extraction) (extracted_via : string).

Definition success (r : LayerResult) : bool :=
  match r with Success _ _ => true | Failure => false end.

Inductive Tier := Tier1 | Tier2 | Tier3.

(** Calls that leave the process. *)
Inductive NetCall :=
| SslProbe (hostname : string)
| DnsResolve (hostname : string)
| Layer (t : Tier) (url : string).

(** The outside world of the scraper.  [hostnameOf] is [new URL(url).hostname];
    [htmlParser], [remoteBrowser] and [localBrowser] stand for the [try]
    bodies of the three layers: [None] when the body throws. *)
Record Env := {
  remoteBrowserEndpoint : option string;
  hostnameOf : string → Outcome string;
  extractSSLFingerprint : string → option SslInfo;
  resolve4 : string → Outcome (list string);
  htmlParser : string → option Extraction;
  remoteBrowser : string → string → option Extraction;
  localBrowser : string → option Extraction
}.

Definition extractUsingHTMLParser (env : Env) (url : string) : LayerResult :=
  match htmlParser env url with
  | Some e => Success e "AXIOS_CHEERIO"
  | None => Failure
  end.

Definition extractUsingRemoteBrowser (env : Env) (url : string) : LayerResult :=
  match remoteBrowserEndpoint env with
  | None => Failure
  | Some endpoint =>
      match remoteBrowser env endpoint url with
      | Some e => Success e "PLAYWRIGHT_REMOTE"
      | None => Failure
      end
  end.

Definition extractUsingLocalBrowser (env : Env) (url : string) : LayerResult :=
  match localBrowser env url with
  | Some e => Success e "PLAYWRIGHT_LOCAL"
  | None => Failure
  end.

Definition layers (env : Env) (url : string) : list (Tier * (unit → LayerResult)) :=
  [(Tier1, λ _, extractUsingHTMLParser env url);
   (Tier2, λ _, extractUsingRemoteBrowser env url);
   (Tier3, λ _, extractUsingLocalBrowser env url)].

(** The loop [for (const layer of layers) { extractionResult = await layer();
    if (extractionResult.success) break; }], with the tiers it invoked. *)
Fixpoint cascade (ls : list (Tier * (unit → LayerResult)))
    (extractionResult : option LayerResult) : option LayerResult * list Tier :=
  match ls with
  | [] => (extractionResult, [])
  | (t, layer) :: rest =>
      let r := layer () in
      if success r then (Some r, [t])
      else let '(final, invoked) := cascade rest (Some r) in
           (final, t :: invoked)
  end.

(** [this.fingerprints].  [fields] and [extracted_via] are absent until the
    cascade has finished; [error] is set by the [catch]. *)
Record Fingerprints := {
  fp_url : string;
  fp_ssl : option Ssl;
  fp_ip : option string;
  fp_domain : option string;
  fp_fields : option Extraction;
  fp_extracted_via : option string;
  fp_error : option string
}.

(** The values assigned when all layers failed. *)
Definition dnsSslOnly : Extraction :=
  {| dom_hash := None; css_vars := []; elementor_data_ids := [];
     common_class_names := []; script_hashes := [];
     uses_wp_uploads := false; uses_tinybird := false |}.

Definition fingerprintSite (env : Env) (url : string)
    : Fingerprints * list NetCall :=
  match hostnameOf env url with
  | Throws msg =>
      ({| fp_url := url; fp_ssl := None; fp_ip := None; fp_domain := None;
          fp_fields := None; fp_extracted_via := None;
          fp_error := Some msg |}, [])
  | Returns hostname =>
      let ssl := match extractSSLFingerprint env hostname with
                 | Some info => SslOk info
                 | None => SslError "Could not retrieve SSL info"
                 end in
      match resolve4 env hostname with
      | Throws msg =>
          ({| fp_url := url; fp_ssl := Some ssl; fp_ip := None;
              fp_domain := None; fp_fields := None;
              fp_extracted_via := None; fp_error := Some msg |},
           [SslProbe hostname; DnsResolve hostname])
      | Returns addresses =>
          let '(extractionResult, invoked) := cascade (layers env url) None in
          let calls := [SslProbe hostname; DnsResolve hostname]
                       ++ map (λ t, Layer t url) invoked in
          match extractionResult with
          | Some (Success e via) =>
              ({| fp_url := url; fp_ssl := Some ssl; fp_ip := head addresses;
                  fp_domain := Some hostname; fp_fields := Some e;
                  fp_extracted_via := Some via; fp_error := None |}, calls)
          | _ =>
              ({| fp_url := url; fp_ssl := Some ssl; fp_ip := head addresses;
                  fp_domain := Some hostname; fp_fields := Some dnsSslOnly;
                  fp_extracted_via := Some "DNS_SSL_ONLY";
                  fp_error := None |}, calls)
          end
      end
  end.

(** The tiers [fingerprintSite] invoked, in order. *)
Definition tiersInvoked (calls : list NetCall) : list Tier :=
  omap (λ c, match c with Layer t _ => Some t | _ => None end) calls.

End Scraper.

(** ** Research mode: [ResearchMode] *)

Module Research.

(** [extractSubnet(ip)]. *)
Definition extractSubnet (ip : string) : option string :=
  match Js.split "." ip with
  | [p0; p1; p2; _] => Some (p0 +:+ "." +:+ p1 +:+ "." +:+ p2 +:+ ".0/24")
  | _ => None
  end.

(** An entry of [watchlist.fingerprints]. *)
Record DnaEntry := {
  e_url : string;
  e_ip : option string;
  e_subnet : option string;
  e_dom_hash : option string;
  e_css_vars : list (string * string);
  e_elementor_data_ids : list string;
  e_common_class_names : list string;
  e_script_hashes : list string;
  e_uses_wordpress : bool;
  e_uses_tinybird : bool;
  e_ssl_info : option Scraper.Ssl
}.

Record Watchlist := {
  ips : list string;
  subnets : list string;
  fingerprints : list DnaEntry
}.

Record Infrastructure := {
  infra_ips : list string;
  infra_subnets : list string
}.

Record DeepDna := {
  ssl_issuers : list string;
  css_variables : list string;
  script_hashes : list string;
  dom_hashes : list string;
  elementor_data_ids : list string;
  common_class_names : list string;
  tracking_scripts : list string
}.

(** [seed_urls] may be missing from a profile file written by an earlier
    version; [profileSeedURLs] checks for it. *)
Record Profile := {
  seed_urls : option (list string);
  infrastructure : Infrastructure;
  deep_dna : DeepDna
}.

(** The fields of [this], the three files it writes (their last written
    content, [None] before the first write) and the network calls made. *)
Record State := {
  watchlist : Watchlist;
  profile : Profile;
  researchedURLs : list string;
  researchedFile : option (list string);
  watchlistFile : option Watchlist;
  profileFile : option Profile;
  network : list Scraper.NetCall
}.

Definition set_deep_dna (d : DeepDna) (s : State) : State :=
  {| watchlist := watchlist s;
     profile := {| seed_urls := seed_urls (profile s);
                   infrastructure := infrastructure (profile s);
                   deep_dna := d |};
     researchedURLs := researchedURLs s;
     researchedFile := researchedFile s;
     watchlistFile := watchlistFile s;
     profileFile := profileFile s;
     network := network s |}.

Definition add_network (calls : list Scraper.NetCall) (s : State) : State :=
  {| watchlist := watchlist s; profile := profile s;
     researchedURLs := researchedURLs s;
     researchedFile := researchedFile s;
     watchlistFile := watchlistFile s;
     profileFile := profileFile s;
     network := network s ++ calls |}.

(** [dnaEntry.ssl_info?.issuer] followed by [`${issuer.organization}`]. *)
Definition issuerKey (ssl : option Scraper.Ssl) : option string :=
  match ssl with
  | Some (Scraper.SslOk info) => Some (Scraper.organization info)
  | _ => None
  end.

(** The merge of one entry into [profile.deep_dna]. *)
Definition mergeDna (entry : DnaEntry) (tinybird : bool) (d : DeepDna) : DeepDna :=
  {| ssl_issuers :=
       match issuerKey (e_ssl_info entry) with
       | Some k => Js.push_unique k (ssl_issuers d)
       | None => ssl_issuers d
       end;
     css_variables :=
       foldl (λ acc varName, Js.push_unique varName acc)
         (css_variables d) (map fst (e_css_vars entry));
     script_hashes :=
       foldl (λ acc h, Js.push_unique h acc)
         (script_hashes d) (e_script_hashes entry);
     dom_hashes :=
       if Js.truthy (e_dom_hash entry)
       then Js.push_unique (default "" (e_dom_hash entry)) (dom_hashes d)
       else dom_hashes d;
     elementor_data_ids :=
       foldl (λ acc i, Js.push_unique i acc)
         (elementor_data_ids d) (e_elementor_data_ids entry);
     common_class_names :=
       foldl (λ acc cn, Js.push_unique cn acc)
         (common_class_names d) (e_common_class_names entry);
     tracking_scripts :=
       if tinybird then Js.push_unique "flock.js" (tracking_scripts d)
       else tracking_scripts d |}.

(** [profileURL(url)]: [None] when fingerprinting reported an error. *)
Definition profileURL (env : Scraper.Env) (url : string) (s : State)
    : option DnaEntry * State :=
  let '(fp, calls) := Scraper.fingerprintSite env url in
  let s1 := add_network calls s in
  if Js.truthy (Scraper.fp_error fp) then (None, s1)
  else
    let ip := Scraper.fp_ip fp in
    let subnet := if Js.truthy ip then extractSubnet (default "" ip) else None in
    let f := default Scraper.dnsSslOnly (Scraper.fp_fields fp) in
    let dnaEntry :=
      {| e_url := url; e_ip := ip; e_subnet := subnet;
         e_dom_hash := if Js.truthy (Scraper.dom_hash f)
                       then Scraper.dom_hash f else None;
         e_css_vars := Scraper.css_vars f;
         e_elementor_data_ids := Scraper.elementor_data_ids f;
         e_common_class_names := Scraper.common_class_names f;
         e_script_hashes := Scraper.script_hashes f;
         e_uses_wordpress := Scraper.uses_wp_uploads f;
         e_uses_tinybird := Scraper.uses_tinybird f;
         e_ssl_info := Scraper.fp_ssl fp |} in
    (Some dnaEntry,
     set_deep_dna (mergeDna dnaEntry (Scraper.uses_tinybird f)
                     (deep_dna (profile s1))) s1).

(** [saveResearchedURL(url)]. *)
Definition saveResearchedURL (url : string) (s : State) : State :=
  if Js.includes url (researchedURLs s) then s
  else
    {| watchlist := watchlist s; profile := profile s;
       researchedURLs := researchedURLs s ++ [url];
       researchedFile := Some (researchedURLs s ++ [url]);
       watchlistFile := watchlistFile s;
       profileFile := profileFile s;
       network := network s |}.

Definition push_truthy (x : option string) (arr : list string) : list string :=
  if Js.truthy x then Js.push_unique (default "" x) arr else arr.

(** The body of the loop of [profileSeedURLs] after a successful
    [profileURL]. *)
Definition track (url : string) (dnaEntry : DnaEntry) (s : State) : State :=
  saveResearchedURL url
    {| watchlist :=
         {| ips := push_truthy (e_ip dnaEntry) (ips (watchlist s));
            subnets := push_truthy (e_subnet dnaEntry) (subnets (watchlist s));
            fingerprints := fingerprints (watchlist s) ++ [dnaEntry] |};
       profile :=
         {| seed_urls :=
              Some (Js.push_unique url (default [] (seed_urls (profile s))));
            infrastructure :=
              {| infra_ips := push_truthy (e_ip dnaEntry)
                                (infra_ips (infrastructure (profile s)));
                 infra_subnets := push_truthy (e_subnet dnaEntry)
                                    (infra_subnets (infrastructure (profile s))) |};
            deep_dna := deep_dna (profile s) |};
       researchedURLs := researchedURLs s;
       researchedFile := researchedFile s;
       watchlistFile := watchlistFile s;
       profileFile := profileFile s;
       network := network s |}.

Definition seedOne (env : Scraper.Env) (s : State) (url : string) : State :=
  match profileURL env url s with
  | (Some dnaEntry, s1) => track url dnaEntry s1
  | (None, s1) => s1
  end.

(** [if (!this.profile.seed_urls) this.profile.seed_urls = []]. *)
Definition ensureSeedUrls (s : State) : State :=
  {| watchlist := watchlist s;
     profile := {| seed_urls := Some (default [] (seed_urls (profile s)));
                   infrastructure := infrastructure (profile s);
                   deep_dna := deep_dna (profile s) |};
     researchedURLs := researchedURLs s;
     researchedFile := researchedFile s;
     watchlistFile := watchlistFile s;
     profileFile := profileFile s;
     network := network s |}.

(** [saveWatchlist()] then [saveProfile()]. *)
Definition saveAll (s : State) : State :=
  {| watchlist := watchlist s; profile := profile s;
     researchedURLs := researchedURLs s;
     researchedFile := researchedFile s;
     watchlistFile := Some (watchlist s);
     profileFile := Some (profile s);
     network := network s |}.

Definition profileSeedURLs (env : Scraper.Env) (urls : list string)
    (s : State) : State :=
  let s0 := ensureSeedUrls s in
  let newURLs :=
    filter (λ url, Js.includes url (researchedURLs s0) = false) urls in
  match newURLs with
  | [] => s0
  | _ => saveAll (foldl (seedOne env) s0 newURLs)
  end.

(** *** [isIPWatched], [matchFingerprints], the ledger file *)

(** [isIPWatched(ip)] of research mode. *)
Definition isIPWatched (w : Watchlist) (ip : string) : bool :=
  if Js.includes ip (ips w) then true
  else
    match Js.split "." ip with
    | [p0; p1; p2; _] =>
        Js.includes (p0 +:+ "." +:+ p1 +:+ "." +:+ p2 +:+ ".0/24") (subnets w)
    | _ => false
    end.

Record MatchResult := {
  m_type : string;
  knownURL : string;
  sharedVars : list string;
  m_confidence : string
}.

(** [obj[k]] on an object given by its entries. *)
Fixpoint property (k : string) (entries : list (string * string)) : option string :=
  match entries with
  | [] => None
  | (k', v) :: rest => if decide (k' = k) then Some v else property k rest
  end.

(** One round of the loop of [matchFingerprints]: the verdict against one
    known entry, [None] to go on with the next. *)
Definition matchKnown (newHash : option string)
    (newVars : list (string * string)) (known : DnaEntry) : option MatchResult :=
  if decide (e_dom_hash known = newHash) then
    Some {| m_type := "dom_match"; knownURL := e_url known;
            sharedVars := []; m_confidence := "high" |}
  else
    match filter (λ v, Js.truthy (property v (e_css_vars known)) = true)
            (map fst newVars) with
    | [] => None
    | shared =>
        Some {| m_type := "css_match"; knownURL := e_url known;
                sharedVars := shared; m_confidence := "medium" |}
    end.

Fixpoint firstMatch (newHash : option string)
    (newVars : list (string * string)) (knowns : list DnaEntry)
    : option MatchResult :=
  match knowns with
  | [] => None
  | known :: rest =>
      match matchKnown newHash newVars known with
      | Some r => Some r
      | None => firstMatch newHash newVars rest
      end
  end.

(** [matchFingerprints(newDomain)], with the network calls it makes. *)
Definition matchFingerprints (env : Scraper.Env) (newDomain : string)
    (w : Watchlist) : option MatchResult * list Scraper.NetCall :=
  let '(fp, calls) := Scraper.fingerprintSite env ("https://" +:+ newDomain) in
  if Js.truthy (Scraper.fp_error fp) then (None, calls)
  else
    let f := default Scraper.dnsSslOnly (Scraper.fp_fields fp) in
    (firstMatch (Scraper.dom_hash f) (Scraper.css_vars f) (fingerprints w),
     calls).

(** The text [saveResearchedURL] writes: [researchedURLs.join('\n')]. *)
Definition ledgerText (urls : list string) : string :=
  Js.join (String Js.LF EmptyString) urls.

(** [loadResearchedURLs()]: [content] is the text of the ledger file,
    [None] when there is no file. *)
Definition loadResearchedURLs (content : option string) : list string :=
  match content with
  | None => []
  | Some text =>
      filter (λ line, Js.truthy (Some line) = true
                      ∧ Js.startsWith "#" line = false)
        (map Js.trim (Js.split Js.LF text))
  end.

(** [loadWatchlist()] and [loadProfile()] on files this class wrote. *)
Definition loadWatchlist (s : State) : Watchlist :=
  default {| ips := []; subnets := []; fingerprints := [] |} (watchlistFile s).

Definition loadProfile (s : State) : Profile :=
  default {| seed_urls := Some [];
             infrastructure := {| infra_ips := []; infra_subnets := [] |};
             deep_dna := {| ssl_issuers := []; css_variables := [];
                            script_hashes := []; dom_hashes := [];
                            elementor_data_ids := [];
                            common_class_names := [];
                            tracking_scripts := [] |} |}
    (profileFile s).

(** *** Vocabulary for the properties of research mode *)

(** [profileURL] returns an entry for [url]. *)
Definition profiled (env : Scraper.Env) (url : string) : bool :=
  negb (Js.truthy (Scraper.fp_error (Scraper.fingerprintSite env url).1)).

(** The arrays that are kept as sets hold no value twice. *)
Definition setLike (s : State) : Prop :=
  NoDup (ips (watchlist s)) ∧ NoDup (subnets (watchlist s))
  ∧ NoDup (researchedURLs s)
  ∧ NoDup (default [] (seed_urls (profile s)))
  ∧ NoDup (infra_ips (infrastructure (profile s)))
  ∧ NoDup (infra_subnets (infrastructure (profile s)))
  ∧ NoDup (ssl_issuers (deep_dna (profile s)))
  ∧ NoDup (css_variables (deep_dna (profile s)))
  ∧ NoDup (script_hashes (deep_dna (profile s)))
  ∧ NoDup (dom_hashes (deep_dna (profile s)))
  ∧ NoDup (elementor_data_ids (deep_dna (profile s)))
  ∧ NoDup (common_class_names (deep_dna (profile s)))
  ∧ NoDup (tracking_scripts (deep_dna (profile s))).

(** Every fingerprint of the watchlist has its address and its subnet in
    the watchlist. *)
Definition covered (w : Watchlist) : Prop :=
  ∀ e, e ∈ fingerprints w →
    (∀ a, e_ip e = Some a → a ≠ "" → a ∈ ips w)
    ∧ (∀ sn, e_subnet e = Some sn → sn ≠ "" → sn ∈ subnets w).


(** The entry [profileURL] builds from the fingerprints of [url]. *)
Definition dnaEntryOf (env : Scraper.Env) (url : string) : DnaEntry :=
  let fp := (Scraper.fingerprintSite env url).1 in
  let f := default Scraper.dnsSslOnly (Scraper.fp_fields fp) in
  {| e_url := url; e_ip := Scraper.fp_ip fp;
     e_subnet := if Js.truthy (Scraper.fp_ip fp)
                 then extractSubnet (default "" (Scraper.fp_ip fp)) else None;
     e_dom_hash := if Js.truthy (Scraper.dom_hash f)
                   then Scraper.dom_hash f else None;
     e_css_vars := Scraper.css_vars f;
     e_elementor_data_ids := Scraper.elementor_data_ids f;
     e_common_class_names := Scraper.common_class_names f;
     e_script_hashes := Scraper.script_hashes f;
     e_uses_wordpress := Scraper.uses_wp_uploads f;
     e_uses_tinybird := Scraper.uses_tinybird f;
     e_ssl_info := Scraper.fp_ssl fp |}.


End Research.

(** ** Scenarios of the specification, used to exercise the definitions *)

Module Scenario.

Import Listener.

(** One watched address and its /24; Let's Encrypt as a profiled issuer;
    [whitecat.fun] resolves into the watched /24, no other name resolves. *)
Definition cfg : Config :=
  {| domainPatterns := defaultPatterns;
     watchlist := Some {| ips := Some ["159.198.65.253"];
                          subnets := Some ["159.198.65.0/24"] |};
     profile := Some {| deep_dna :=
                          Some {| ssl_issuers := Some ["Let's Encrypt"] |} |};
     resolve4 := λ d, if bool_decide (d = "whitecat.fun")
                      then Some ["159.198.65.100"] else None |}.

Definition cert (cn issuerO : string) (nb na : Z) : CertData :=
  {| leaf_cert :=
       Some {| subject_CN := Some cn; subjectAltName := None;
               all_domains := Some [cn]; issuer := Some (Some issuerO);
               not_before := Some nb; not_after := Some na |} |}.

Definition heartbeat : Decoded := JMessage "heartbeat" None.

Definition update (cd : CertData) : Decoded :=
  JMessage "certificate_update" (Some cd).

(** A listener as the constructor leaves it: default patterns, no watchlist,
    no profile; no name resolves. *)
Definition bare : Config :=
  {| domainPatterns := defaultPatterns;
     watchlist := None;
     profile := None;
     resolve4 := λ _, None |}.


End Scenario.

(** ** Scenarios of the scraper and of research mode *)

Module ScraperScenario.

Import Scraper.

Definition page : Extraction :=
  {| dom_hash := Some "9f2c"; css_vars := [("--brand", "#fff")];
     elementor_data_ids := ["12"]; common_class_names := ["hero"];
     script_hashes := ["/flock.js"]; uses_wp_uploads := true;
     uses_tinybird := true |}.

(** [new URL(url).hostname] for the URLs of the scenarios: [https://]
    followed by a bare host name. *)
Definition hostname (url : string) : Outcome string :=
  if Js.startsWith "https://" url then Returns (Js.slice 8 url)
  else Throws "Invalid URL".

(** Every host resolves to one address and answers the TLS probe; the three
    layers succeed or throw as the three flags say. *)
Definition env (t1 t2 t3 : bool) : Env :=
  {| remoteBrowserEndpoint := Some "ws://browser:3000";
     hostnameOf := hostname;
     extractSSLFingerprint := λ _,
       Some {| organization := "Let's Encrypt"; commonName := "R3";
               country := "US"; certFingerprint := "AA:BB" |};
     resolve4 := λ _, Returns ["159.198.65.253"];
     htmlParser := λ _, if t1 then Some page else None;
     remoteBrowser := λ _ _, if t2 then Some page else None;
     localBrowser := λ _, if t3 then Some page else None |}.

(** The same world with a resolver that rejects. *)
Definition offline : Env :=
  {| remoteBrowserEndpoint := None;
     hostnameOf := hostname;
     extractSSLFingerprint := λ _, None;
     resolve4 := λ _, Throws "queryA ENOTFOUND thewhitecat.fun";
     htmlParser := λ _, Some page;
     remoteBrowser := λ _ _, Some page;
     localBrowser := λ _, Some page |}.

Definition emptyWatchlist : Research.Watchlist :=
  {| Research.ips := []; Research.subnets := []; Research.fingerprints := [] |}.

Definition emptyProfile : Research.Profile :=
  {| Research.seed_urls := Some [];
     Research.infrastructure :=
       {| Research.infra_ips := []; Research.infra_subnets := [] |};
     Research.deep_dna :=
       {| Research.ssl_issuers := []; Research.css_variables := [];
          Research.script_hashes := []; Research.dom_hashes := [];
          Research.elementor_data_ids := [];
          Research.common_class_names := [];
          Research.tracking_scripts := [] |} |}.

(** A fresh [ResearchMode] with no file on disk. *)
Definition fresh : Research.State :=
  {| Research.watchlist := emptyWatchlist;
     Research.profile := emptyProfile;
     Research.researchedURLs := [];
     Research.researchedFile := None;
     Research.watchlistFile := None;
     Research.profileFile := None;
     Research.network := [] |}.

Definition seeds : list string :=
  ["https://thewhitecat.fun"; "https://thebigdog.xyz"].

(** The state after one run over [seeds]. *)
Definition seeded : Research.State :=
  Research.profileSeedURLs (env true false false) seeds fresh.

End ScraperScenario.

(** ** The bot: [TargetedListenerBot] *)

Module Bot.

(** [listener.setWatchlist(watchlist)] and [listener.setProfile(profile)]:
    the objects of research mode as the listener reads them. *)
Definition listenerWatchlist (w : Research.Watchlist) : Listener.Watchlist :=
  {| Listener.ips := Some (Research.ips w);
     Listener.subnets := Some (Research.subnets w) |}.

Definition listenerProfile (p : Research.Profile) : Listener.Profile :=
  {| Listener.deep_dna :=
       Some {| Listener.ssl_issuers :=
                 Some (Research.ssl_issuers (Research.deep_dna p)) |} |}.

(** [runResearchPhase()] on the seed URLs read from the seed file: [false]
    without seeds. *)
Definition runResearchPhase (env : Scraper.Env) (seedURLs : list string)
    (s : Research.State) : bool * Research.State :=
  match seedURLs with
  | [] => (false, s)
  | _ => (true, Research.profileSeedURLs env seedURLs s)
  end.

(** [runDNALockPhase()]: the watchlist and the profile are read back from
    their files; [None] stands for the result [false]. *)
Definition runDNALockPhase (s : Research.State) (cfg : Listener.Config)
    : option Listener.Config :=
  let watchlist := Research.loadWatchlist s in
  let profile := Research.loadProfile s in
  match Research.ips watchlist with
  | [] => None
  | _ =>
      Some {| Listener.domainPatterns := Listener.domainPatterns cfg;
              Listener.watchlist := Some (listenerWatchlist watchlist);
              Listener.profile := Some (listenerProfile profile);
              Listener.resolve4 := Listener.resolve4 cfg |}
  end.

(** A line of the detection log. *)
Record Detection := {
  det_domain : string;
  det_ip : option string;
  det_matchType : string;
  det_confidence : string;
  det_fingerprintMatch : option Research.MatchResult;
  det_dom_hash : option string;
  det_status : option string
}.

(** A message handed to the Telegram API. *)
Record Telegram := {
  tg_domain : string;
  tg_matchType : string;
  tg_result : option string
}.

(** The bot around its research mode: the detection log, the messages sent
    and the network calls made by the bot's own scraper and by
    [research.matchFingerprints]. *)
Record State := {
  research : Research.State;
  detections : list Detection;
  telegrams : list Telegram;
  network : list Scraper.NetCall
}.

(** [sendTelegramAlert(alert, matchResult)]; [configured] says whether the
    token and the chat id are set. *)
Definition sendTelegramAlert (configured : bool) (alert : Listener.Alert)
    (matchResult : option Research.MatchResult) (sent : list Telegram)
    : list Telegram :=
  if configured then
    sent ++ [{| tg_domain := Listener.domain alert;
                tg_matchType := Listener.matchType alert;
                tg_result := Research.m_type <$> matchResult |}]
  else sent.

(** [handleCabalDetection(alert)]. *)
Definition handleCabalDetection (env : Scraper.Env) (configured : bool)
    (alert : Listener.Alert) (st : State) : State :=
  if bool_decide (Listener.matchType alert = "IP_MATCH") then
    let url := if Js.startsWith "http" (Listener.domain alert)
               then Listener.domain alert
               else "https://" +:+ Listener.domain alert in
    let '(newFingerprints, calls1) := Scraper.fingerprintSite env url in
    let '(matchResult, calls2) :=
      Research.matchFingerprints env (Listener.domain alert)
        (Research.watchlist (research st)) in
    {| research := research st;
       detections :=
         detections st
         ++ [{| det_domain := Listener.domain alert;
                det_ip := Listener.ip alert;
                det_matchType := Listener.matchType alert;
                det_confidence := Listener.confidence alert;
                det_fingerprintMatch := matchResult;
                det_dom_hash :=
                  Scraper.fp_fields newFingerprints ≫= Scraper.dom_hash;
                det_status := None |}];
       telegrams := sendTelegramAlert configured alert matchResult (telegrams st);
       network := network st ++ calls1 ++ calls2 |}
  else if bool_decide (Listener.matchType alert = "PATTERN_MATCH") then
    {| research := research st;
       detections :=
         detections st
         ++ [{| det_domain := Listener.domain alert;
                det_ip := Listener.ip alert;
                det_matchType := "PATTERN_MATCH";
                det_confidence := Listener.confidence alert;
                det_fingerprintMatch := None;
                det_dom_hash := None;
                det_status := Some "PENDING_MANUAL_REVIEW" |}];
       telegrams := sendTelegramAlert configured alert None (telegrams st);
       network := network st |}
  else st.

End Bot.

(** ** The store bridge: [PythonCertStreamBridge] *)

Module Bridge.

(** A row of the table [certificates]. [domains] is the value of
    [JSON.parse(cert.domains)], an array of names, or [None] when the text
    does not parse. *)
Record Row := {
  cert_index : Z;
  domains : option (list string);
  serialnumber : string;
  row_issuer : option string;
  seen_timestamp : option Z;
  matched_pattern : option string;
  processed : bool
}.

(** The bridge, its table, its state file ([lastCertIndex], [None] when the
    file is missing) and the listener fed through [onCertificate]. *)
Record State := {
  db : list Row;
  lastProcessedCertIndex : Z;
  stateFile : option Z;
  listener : Listener.State
}.

(** [ORDER BY cert_index ASC]. *)
Definition byIndex (r1 r2 : Row) : Prop := cert_index r1 ≤ cert_index r2.

Global Instance byIndex_dec : RelDecision byIndex.
Proof. intros r1 r2. unfold byIndex. apply _. Defined.

Definition selected (last : Z) (r : Row) : bool :=
  (last <? cert_index r) && negb (processed r).

(** [getUnprocessedCertificates()]: [WHERE cert_index > ? AND processed = 0
    ORDER BY cert_index ASC LIMIT 100]. *)
Definition getUnprocessedCertificates (st : State) : list Row :=
  take 100
    (merge_sort byIndex
       (filter (λ r, selected (lastProcessedCertIndex st) r = true) (db st))).

(** [UPDATE certificates SET processed = 1 WHERE cert_index = ?]. *)
Definition markCertificateProcessed (certIndex : Z) (rows : list Row)
    : list Row :=
  map (λ r, if decide (cert_index r = certIndex)
            then {| cert_index := cert_index r; domains := domains r;
                    serialnumber := serialnumber r; row_issuer := row_issuer r;
                    seen_timestamp := seen_timestamp r;
                    matched_pattern := matched_pattern r;
                    processed := true |}
            else r) rows.

(** The message built for a row, as the listener decodes it after
    [JSON.stringify]: the leaf certificate has [all_domains] and an issuer
    object with a [CN] only. *)
Definition bridgeMessage (ds : list string) : Listener.Decoded :=
  Listener.JMessage "certificate_update"
    (Some {| Listener.leaf_cert :=
               Some {| Listener.subject_CN := None;
                       Listener.subjectAltName := None;
                       Listener.all_domains := Some ds;
                       Listener.issuer := Some None;
                       Listener.not_before := None;
                       Listener.not_after := None |} |}).

(** The body of the loop of [poll] for one row; [onCertificate] is the
    bot's [processCertificateFromBridge]. A row whose [domains] do not
    parse is logged and left as it is. The statements sent to the database
    are taken to succeed. *)
Definition deliver (cfg : Listener.Config) (st : State) (r : Row) : State :=
  match domains r with
  | None => st
  | Some ds =>
      {| db := markCertificateProcessed (cert_index r) (db st);
         lastProcessedCertIndex := cert_index r;
         stateFile := Some (cert_index r);
         listener :=
           Listener.handleCertificateMessage cfg (bridgeMessage ds)
             (listener st) |}
  end.

(** One round of [poll]. *)
Definition poll (cfg : Listener.Config) (st : State) : State :=
  foldl (deliver cfg) st (getUnprocessedCertificates st).

(** [saveProcessedState()] and [loadProcessedState()]; the latter reads
    [state.lastCertIndex || -1]. *)
Definition saveProcessedState (st : State) : State :=
  {| db := db st; lastProcessedCertIndex := lastProcessedCertIndex st;
     stateFile := Some (lastProcessedCertIndex st);
     listener := listener st |}.

Definition loadProcessedState (file : option Z) : Z :=
  match file with
  | Some lastCertIndex => if lastCertIndex =? 0 then -1 else lastCertIndex
  | None => -1
  end.

End Bridge.

(** ** A scenario of the store bridge *)

Module BridgeScenario.

Import Bridge.

Definition row (i : Z) (ds : option (list string)) (done : bool) : Row :=
  {| cert_index := i; domains := ds; serialnumber := "00";
     row_issuer := Some "R3"; seen_timestamp := None;
     matched_pattern := None; processed := done |}.

(** Five rows, stored out of order: row 1 was processed earlier, the text
    of rows 3 and 9 does not parse. *)
Definition start : State :=
  {| db := [row 7 (Some ["thebigdog.xyz"]) false; row 3 None false;
            row 5 (Some ["whitecat.fun"]) false; row 1 (Some ["x.fun"]) true;
            row 9 None false];
     lastProcessedCertIndex := 1;
     stateFile := None;
     listener := Listener.initial [] |}.

End BridgeScenario.

(** * Properties *)

(** ** Strings *)

Section StringFacts.

Lemma append_nil_l (s : string) : "" +:+ s = s.
Proof. reflexivity. Qed.

Lemma append_cons (c : ascii) (s t : string) :
  String c s +:+ t = String c (s +:+ t).
Proof. reflexivity. Qed.

Lemma append_nil_r (s : string) : s +:+ "" = s.
Proof. induction s as [|c s IH]; [done|]. by rewrite append_cons, IH. Qed.

Lemma append_snoc (cur : string) (c : ascii) (s : string) :
  (cur +:+ String c "") +:+ s = cur +:+ String c s.
Proof.
  induction cur as [|a cur IH]; [done|].
  by rewrite !append_cons, IH.
Qed.

(** Reading a part that holds no separator, up to the next separator. *)
Lemma split_go_part (sep : ascii) (x cur rest : string) :
  Js.free_of sep x = true →
  Js.split_go sep cur (x +:+ String sep rest)
  = (cur +:+ x) :: Js.split_go sep "" rest.
Proof.
  revert cur. induction x as [|c x IH]; intros cur Hx.
  - rewrite append_nil_l, append_nil_r. simpl. by rewrite decide_True.
  - simpl in Hx. apply andb_true_iff in Hx as [Hc Hx].
    rewrite append_cons. simpl. destruct (decide (c = sep)); [done|].
    rewrite IH by done. by rewrite append_snoc.
Qed.

(** Reading the last part. *)
Lemma split_go_last (sep : ascii) (x cur : string) :
  Js.free_of sep x = true → Js.split_go sep cur x = [cur +:+ x].
Proof.
  revert cur. induction x as [|c x IH]; intros cur Hx.
  - by rewrite append_nil_r.
  - simpl in Hx. apply andb_true_iff in Hx as [Hc Hx].
    simpl. destruct (decide (c = sep)); [done|].
    rewrite IH by done. by rewrite append_snoc.
Qed.

Lemma split_dotted_quad (x y z w : string) :
  Js.free_of "." x = true → Js.free_of "." y = true →
  Js.free_of "." z = true → Js.free_of "." w = true →
  Js.split "." (x +:+ "." +:+ y +:+ "." +:+ z +:+ "." +:+ w) = [x; y; z; w].
Proof.
  intros Hx Hy Hz Hw. unfold Js.split.
  rewrite !append_cons, !append_nil_l.
  rewrite (split_go_part _ x), (split_go_part _ y), (split_go_part _ z),
    (split_go_last _ w) by done.
  by rewrite !append_nil_l.
Qed.

Lemma includes_true (x : string) (l : list string) :
  Js.includes x l = true ↔ x ∈ l.
Proof. unfold Js.includes. by rewrite bool_decide_eq_true. Qed.

Lemma includes_false (x : string) (l : list string) :
  Js.includes x l = false ↔ x ∉ l.
Proof. unfold Js.includes. by rewrite bool_decide_eq_false. Qed.

End StringFacts.

Example split_address :
  Js.split "." "159.198.65.253" = ["159"; "198"; "65"; "253"].
Proof. reflexivity. Qed.

Example split_keeps_empty_parts : Js.split "." "a..b." = ["a"; ""; "b"; ""].
Proof. reflexivity. Qed.

Example default_patterns :
  map (λ d, existsb (λ p, p d) Listener.defaultPatterns)
    ["whitecat.fun"; "TheGoldenWhale.io"; "example.com"; "shop.online.net"]
  = [true; true; false; false].
Proof. reflexivity. Qed.

Example domains_of_certificate :
  Listener.extractDomainsFromCert
    {| Listener.subject_CN := Some "a.fun";
       Listener.subjectAltName := Some [Some "b.fun"; None; Some "a.fun"];
       Listener.all_domains := Some ["*.a.fun"; "b.fun"];
       Listener.issuer := None;
       Listener.not_before := None; Listener.not_after := None |}
  = ["a.fun"; "b.fun"; "*.a.fun"].
Proof. reflexivity. Qed.

(** ** C8: subnet derivation *)

(** C8. For every address [x.y.z.w] made of four dot-separated parts,
    [extractSubnet] returns exactly ["x.y.z.0/24"]; the result therefore
    does not depend on the fourth part, and the listener's [isIPWatched]
    derives the same string. *)
Theorem extractSubnet_dotted_quad (x y z w : string) :
  Js.free_of "." x = true → Js.free_of "." y = true →
  Js.free_of "." z = true → Js.free_of "." w = true →
  let ip := x +:+ "." +:+ y +:+ "." +:+ z +:+ "." +:+ w in
  let subnet := x +:+ "." +:+ y +:+ "." +:+ z +:+ ".0/24" in
  Research.extractSubnet ip = Some subnet
  ∧ Listener.subnet_of_parts (Js.split "." ip) = Some subnet
  ∧ ∀ w', Js.free_of "." w' = true →
      Research.extractSubnet (x +:+ "." +:+ y +:+ "." +:+ z +:+ "." +:+ w')
      = Research.extractSubnet ip.
Proof.
  intros Hx Hy Hz Hw ip subnet. subst ip subnet.
  unfold Research.extractSubnet.
  rewrite split_dotted_quad by done.
  split; [done|]. split; [done|].
  intros w' Hw'. by rewrite split_dotted_quad.
Qed.

Lemma extractSubnet_dotted_quad_witness :
  Research.extractSubnet "159.198.65.253" = Some "159.198.65.0/24"
  ∧ Listener.subnet_of_parts (Js.split "." "159.198.65.253")
    = Some "159.198.65.0/24".
Proof.
  pose proof (extractSubnet_dotted_quad "159" "198" "65" "253"
                eq_refl eq_refl eq_refl eq_refl) as H.
  simpl in H. destruct H as (H1 & H2 & _). exact (conj H1 H2).
Defined.

(** ** The matching engine *)

Section Matching.

Import Listener.

Variable cfg : Config.

Lemma patternResult_medium (d : string) (dm : DeepMatch) :
  patternResult cfg d = Some dm →
  dm_type dm = "PATTERN_MATCH" ∧ dm_confidence dm = "MEDIUM".
Proof.
  unfold patternResult. destruct (matchesAny cfg d); [|done].
  by intros [= <-].
Qed.

Lemma performDeepDNAMatch_medium (d : string) (cd : CertData) (dm : DeepMatch) :
  performDeepDNAMatch cfg d cd = Some dm →
  (dm_type dm = "SSL_ISSUER_MATCH" ∨ dm_type dm = "PATTERN_MATCH")
  ∧ dm_confidence dm = "MEDIUM".
Proof.
  unfold performDeepDNAMatch.
  destruct (profile cfg) as [p|]; [|done].
  destruct (deep_dna p) as [dna|]; [|done].
  destruct (issuerOrg cd) as [iss|].
  - destruct (ssl_issuers dna) as [l|]; [|done].
    destruct (Js.includes iss l).
    + intros [= <-]. simpl. auto.
    + intros H. apply patternResult_medium in H as [-> ->]. auto.
  - intros H. apply patternResult_medium in H as [-> ->]. auto.
Qed.

Lemma processDomain_verdict (cd : CertData) (s : State) (d : string) :
  Verdict s d (processDomain cfg cd s d).
Proof.
  unfold processDomain.
  destruct (skipped d) eqn:Hskip; [by constructor|].
  cbv zeta.
  destruct (if Js.truthy (resolve cfg d) then _ else false).
  { apply Alerted; [done..|]. left. done. }
  destruct (matchesAny cfg d && _) eqn:Hgate; [|by constructor].
  destruct (performDeepDNAMatch cfg d cd) as [dm|] eqn:Hdeep.
  - apply performDeepDNAMatch_medium in Hdeep as [[Ht|Ht] Hc];
      (apply Alerted; [done..|]); unfold classified; simpl; auto.
  - destruct (matchesAny cfg d); [|by constructor].
    apply Alerted; [done..|]. right. right. done.
Qed.

Lemma processDomains_snoc (cd : CertData) (s : State) (ds : list string) (d : string) :
  processDomains cfg (ds ++ [d]) cd s
  = processDomain cfg cd (processDomains cfg ds cd s) d.
Proof. unfold processDomains. by rewrite foldl_app. Qed.

Lemma processDomains_app (cd : CertData) (s : State) (ds1 ds2 : list string) :
  processDomains cfg (ds1 ++ ds2) cd s
  = processDomains cfg ds2 cd (processDomains cfg ds1 cd s).
Proof. unfold processDomains. by rewrite foldl_app. Qed.

(** Alerts are only ever appended, and every appended alert is classified. *)
Lemma processDomains_alerts (cd : CertData) (ds : list string) (s : State) :
  ∃ new, alerts (processDomains cfg ds cd s) = alerts s ++ new
         ∧ Forall classified new
         ∧ Forall (λ a, domain a ∈ ds) new.
Proof.
  induction ds as [|d ds IH] using rev_ind.
  - exists []. by rewrite app_nil_r.
  - destruct IH as (new & Hnew & Hcl & Hdom).
    rewrite processDomains_snoc.
    assert (Forall (λ a, domain a ∈ ds ++ [d]) new) as Hdom'.
    { eapply Forall_impl; [exact Hdom|]. intros a Ha. set_solver. }
    destruct (processDomain_verdict cd (processDomains cfg ds cd s) d)
      as [Hs|Hs|a Hs Hd Ha].
    + by exists new.
    + by exists new.
    + exists (new ++ [a]). simpl. rewrite Hnew, <- (assoc_L (++)).
      split; [done|]. split; apply Forall_app; split; try done.
      * by constructor.
      * constructor; [|done]. rewrite Hd. set_solver.
Qed.

(** Without an IP match, a domain of the seen-set raises nothing. *)
Lemma seen_blocks_without_ip_match (cd : CertData) (s : State) (d : string) :
  skipped d = false → watchedByIP cfg d = false →
  d ∈ knownCabalDomains s →
  processDomain cfg cd s d = queried d s.
Proof.
  intros Hskip Hip Hseen. unfold processDomain, watchedByIP in *.
  rewrite Hskip. cbv zeta. rewrite Hip. simpl.
  rewrite (bool_decide_eq_true_2 _ Hseen). simpl.
  by rewrite andb_false_r.
Qed.

End Matching.

Example stream_delivers_whitecat :
  Listener.alerts
    (Listener.handleCertificateMessage Scenario.cfg
       (Scenario.update (Scenario.cert "whitecat.fun" "Sectigo" 10 20))
       (Listener.initial []))
  = [Listener.mkAlert "whitecat.fun" (Some "159.198.65.100")
       (Scenario.cert "whitecat.fun" "Sectigo" 10 20)
       "IP_MATCH" "CRITICAL" None None].
Proof. reflexivity. Qed.

(** ** C10: every alert is classified *)

(** C10. Every alert that [processDomains] emits carries one of the match
    types [IP_MATCH], [SSL_ISSUER_MATCH], [PATTERN_MATCH]; its confidence is
    [CRITICAL] exactly when the match type is [IP_MATCH], and [MEDIUM] in
    the two other cases. *)
Theorem processDomains_alerts_classified
    (cfg : Listener.Config) (domains : list string)
    (certData : Listener.CertData) (s : Listener.State) :
  ∃ new,
    Listener.alerts (Listener.processDomains cfg domains certData s)
    = Listener.alerts s ++ new
    ∧ Forall (λ a,
        Listener.matchType a ∈ ["IP_MATCH"; "SSL_ISSUER_MATCH"; "PATTERN_MATCH"]
        ∧ (Listener.confidence a = "CRITICAL"
           ↔ Listener.matchType a = "IP_MATCH")
        ∧ (Listener.matchType a ≠ "IP_MATCH"
           → Listener.confidence a = "MEDIUM")) new.
Proof.
  destruct (processDomains_alerts cfg certData domains s)
    as (new & Hnew & Hcl & _).
  exists new. split; [done|].
  eapply Forall_impl; [exact Hcl|].
  intros a [[-> ->]|[[-> ->]|[-> ->]]]; split_and!;
    first [set_solver | done | split; done].
Qed.

(** ** C9: wildcard and empty names are skipped *)

(** C9. A domain that is the empty string or begins with ["*."] leaves the
    whole listener state as it was: no DNS query is logged, no alert is
    emitted, the seen-set does not change; a list of domains is processed
    as if such a domain were not in it. *)
Theorem processDomains_skips_filtered
    (cfg : Listener.Config) (certData : Listener.CertData) (d : string) :
  d = "" ∨ Js.startsWith "*." d = true →
  (∀ s, Listener.processDomain cfg certData s d = s)
  ∧ (∀ s pre post,
       Listener.processDomains cfg (pre ++ d :: post) certData s
       = Listener.processDomains cfg (pre ++ post) certData s).
Proof.
  intros Hd.
  assert (∀ s, Listener.processDomain cfg certData s d = s) as Hone.
  { intros s. unfold Listener.processDomain, Listener.skipped.
    destruct Hd as [->| ->]; [done|done]. }
  split; [done|].
  intros s pre post.
  rewrite !processDomains_app.
  change (Listener.processDomains cfg (d :: post) certData ?x)
    with (Listener.processDomains cfg post certData
            (Listener.processDomain cfg certData x d)).
  by rewrite Hone.
Qed.

Lemma processDomains_skips_filtered_witness :
  Listener.processDomains Scenario.cfg ["*.whitecat.fun"; ""]
    (Scenario.cert "whitecat.fun" "Let's Encrypt" 0 1) (Listener.initial [])
  = Listener.initial [].
Proof.
  pose proof (processDomains_skips_filtered Scenario.cfg
                (Scenario.cert "whitecat.fun" "Let's Encrypt" 0 1)
                "*.whitecat.fun" (or_intror eq_refl)) as [_ H1].
  pose proof (processDomains_skips_filtered Scenario.cfg
                (Scenario.cert "whitecat.fun" "Let's Encrypt" 0 1)
                "" (or_introl eq_refl)) as [_ H2].
  rewrite (H1 _ [] [""]). simpl app. rewrite (H2 _ [] []). reflexivity.
Defined.

(** ** C4: a subnet match suffices *)

Lemma truthy_dotted (x rest : string) :
  Js.truthy (Some (x +:+ "." +:+ rest)) = true.
Proof. by destruct x. Qed.

Lemma isIPWatched_subnet (cfg : Listener.Config) (w : Listener.Watchlist)
    (subs : list string) (x y z o4 : string) :
  Js.free_of "." x = true → Js.free_of "." y = true →
  Js.free_of "." z = true → Js.free_of "." o4 = true →
  Listener.watchlist cfg = Some w →
  Listener.subnets w = Some subs →
  x +:+ "." +:+ y +:+ "." +:+ z +:+ ".0/24" ∈ subs →
  Listener.isIPWatched cfg (x +:+ "." +:+ y +:+ "." +:+ z +:+ "." +:+ o4) = true.
Proof.
  intros Hx Hy Hz Ho Hw Hsubs Hin.
  unfold Listener.isIPWatched. rewrite Hw.
  destruct (match Listener.ips w with Some l => _ | None => false end); [done|].
  rewrite Hsubs, split_dotted_quad by done. simpl.
  by apply includes_true.
Qed.

(** C4. When a domain that is not filtered out resolves to an address
    [x.y.z.w] whose /24, ["x.y.z.0/24"], is an entry of the watchlist's
    subnets, classification emits one alert for it with match type
    [IP_MATCH] and confidence [CRITICAL]; nothing is asked of the
    watchlist's exact addresses. *)
Theorem subnet_match_is_ip_match
    (cfg : Listener.Config) (certData : Listener.CertData) (s : Listener.State)
    (d : string) (w : Listener.Watchlist) (subs : list string)
    (x y z o4 : string) :
  Listener.skipped d = false →
  Js.free_of "." x = true → Js.free_of "." y = true →
  Js.free_of "." z = true → Js.free_of "." o4 = true →
  Listener.resolve cfg d = Some (x +:+ "." +:+ y +:+ "." +:+ z +:+ "." +:+ o4) →
  Listener.watchlist cfg = Some w →
  Listener.subnets w = Some subs →
  x +:+ "." +:+ y +:+ "." +:+ z +:+ ".0/24" ∈ subs →
  ∃ a,
    Listener.alerts (Listener.processDomains cfg [d] certData s)
    = Listener.alerts s ++ [a]
    ∧ Listener.domain a = d
    ∧ Listener.ip a = Some (x +:+ "." +:+ y +:+ "." +:+ z +:+ "." +:+ o4)
    ∧ Listener.matchType a = "IP_MATCH"
    ∧ Listener.confidence a = "CRITICAL".
Proof.
  intros Hskip Hx Hy Hz Ho Hres Hw Hsubs Hin.
  unfold Listener.processDomains. simpl foldl.
  unfold Listener.processDomain. rewrite Hskip. cbv zeta.
  rewrite Hres, truthy_dotted. simpl default.
  rewrite (isIPWatched_subnet cfg w subs) by done.
  eexists. split; [reflexivity|]. done.
Qed.

Lemma subnet_match_is_ip_match_witness :
  Js.includes "159.198.65.100" ["159.198.65.253"] = false
  ∧ ∃ a,
      Listener.alerts
        (Listener.processDomains Scenario.cfg ["whitecat.fun"]
           (Scenario.cert "whitecat.fun" "Sectigo" 0 1) (Listener.initial []))
      = [a]
      ∧ Listener.domain a = "whitecat.fun"
      ∧ Listener.ip a = Some "159.198.65.100"
      ∧ Listener.matchType a = "IP_MATCH"
      ∧ Listener.confidence a = "CRITICAL".
Proof.
  split.
  - reflexivity.
  - exact (subnet_match_is_ip_match Scenario.cfg
             (Scenario.cert "whitecat.fun" "Sectigo" 0 1) (Listener.initial [])
             "whitecat.fun"
             {| Listener.ips := Some ["159.198.65.253"];
                Listener.subnets := Some ["159.198.65.0/24"] |}
             ["159.198.65.0/24"] "159" "198" "65" "100"
             eq_refl eq_refl eq_refl eq_refl eq_refl eq_refl eq_refl eq_refl
             (list_elem_of_here _ _)).
Defined.

(** ** C2: the order of the match rules *)

(** C2, as the code has it. For a domain that is not filtered out, with a
    loaded profile whose [ssl_issuers] hold the certificate's issuer:
    an IP/subnet match wins and yields [IP_MATCH]; without one, the issuer
    is looked at only when the domain matches a naming pattern and has not
    been seen, and then yields [SSL_ISSUER_MATCH] with confidence [MEDIUM]
    (ahead of [PATTERN_MATCH]); a domain that matches no naming pattern, or
    that has been seen, yields no alert. *)
Theorem issuer_match_behind_pattern_gate
    (cfg : Listener.Config) (certData : Listener.CertData) (s : Listener.State)
    (d : string) (p : Listener.Profile) (dna : Listener.DeepDNA)
    (l : list string) (iss : string) :
  Listener.skipped d = false →
  Listener.profile cfg = Some p →
  Listener.deep_dna p = Some dna →
  Listener.ssl_issuers dna = Some l →
  Listener.issuerOrg certData = Some iss →
  iss ∈ l →
  let s' := Listener.processDomain cfg certData s d in
  let alert mt conf details :=
    Listener.raise
      (Listener.mkAlert d (Listener.resolve cfg d) certData mt conf details None)
      (Listener.queried d s) in
  (Listener.watchedByIP cfg d = true →
     s' = alert "IP_MATCH" "CRITICAL" None)
  ∧ (Listener.watchedByIP cfg d = false →
     Listener.matchesAny cfg d = true →
     d ∉ Listener.knownCabalDomains s →
     s' = alert "SSL_ISSUER_MATCH" "MEDIUM"
            (Some ("SSL Issuer matches known cabal: " +:+ iss)))
  ∧ (Listener.watchedByIP cfg d = false →
     Listener.matchesAny cfg d = false →
     s' = Listener.queried d s)
  ∧ (Listener.watchedByIP cfg d = false →
     d ∈ Listener.knownCabalDomains s →
     s' = Listener.queried d s).
Proof.
  intros Hskip Hp Hdna Hl Hiss Hin s' alert. subst s' alert.
  unfold Listener.processDomain, Listener.watchedByIP.
  rewrite Hskip. cbv zeta.
  split_and!.
  - by intros ->.
  - intros -> Hm Hseen. rewrite Hm. simpl.
    rewrite bool_decide_eq_false_2 by done. simpl.
    unfold Listener.performDeepDNAMatch. rewrite Hp, Hdna, Hiss, Hl.
    by rewrite (proj2 (includes_true iss l) Hin).
  - by intros -> ->.
  - intros -> Hseen. simpl.
    rewrite (bool_decide_eq_true_2 _ Hseen). simpl.
    by rewrite andb_false_r.
Qed.

Lemma issuer_match_behind_pattern_gate_witness :
  Listener.alerts
    (Listener.processDomain Scenario.cfg
       (Scenario.cert "thewhitecat.xyz" "Let's Encrypt" 0 1)
       (Listener.initial []) "thewhitecat.xyz")
  = [Listener.mkAlert "thewhitecat.xyz" None
       (Scenario.cert "thewhitecat.xyz" "Let's Encrypt" 0 1)
       "SSL_ISSUER_MATCH" "MEDIUM"
       (Some "SSL Issuer matches known cabal: Let's Encrypt") None].
Proof.
  pose proof (issuer_match_behind_pattern_gate Scenario.cfg
                (Scenario.cert "thewhitecat.xyz" "Let's Encrypt" 0 1)
                (Listener.initial []) "thewhitecat.xyz"
                _ _ ["Let's Encrypt"] "Let's Encrypt"
                eq_refl eq_refl eq_refl eq_refl eq_refl
                (list_elem_of_here _ _)) as (_ & H & _).
  rewrite H; [reflexivity | reflexivity | reflexivity |].
  apply not_elem_of_empty.
Defined.

(** C2 as stated fails: [example.com] is not filtered out, does not match by
    IP, and its certificate's issuer is in the profile's [ssl_issuers]; it
    matches no naming pattern, and no alert is emitted. *)
Lemma issuer_match_without_pattern_silent :
  let certData := Scenario.cert "example.com" "Let's Encrypt" 0 1 in
  Listener.skipped "example.com" = false
  ∧ Listener.watchedByIP Scenario.cfg "example.com" = false
  ∧ Listener.issuerOrg certData = Some "Let's Encrypt"
  ∧ Listener.profile Scenario.cfg
    = Some {| Listener.deep_dna :=
                Some {| Listener.ssl_issuers := Some ["Let's Encrypt"] |} |}
  ∧ Listener.alerts
      (Listener.processDomains Scenario.cfg ["example.com"] certData
         (Listener.initial []))
    = [].
Proof. vm_compute. repeat split. Qed.

(** ** C1: re-observation of an alerted domain *)

(** C1 at a failing input: [whitecat.fun] resolves into a watched /24. Its
    first observation raises an [IP_MATCH] alert and records the domain in
    the seen-set; a second observation, with another certificate, raises a
    second [IP_MATCH] alert for the same domain. *)
Lemma ip_match_alerts_twice :
  let s1 := Listener.processDomains Scenario.cfg ["whitecat.fun"]
              (Scenario.cert "whitecat.fun" "Let's Encrypt" 0 1)
              (Listener.initial []) in
  let s2 := Listener.processDomains Scenario.cfg ["whitecat.fun"]
              (Scenario.cert "whitecat.fun" "Sectigo" 5 9) s1 in
  bool_decide ("whitecat.fun" ∈ Listener.knownCabalDomains s1) = true
  ∧ map (λ a, (Listener.domain a, Listener.matchType a)) (Listener.alerts s1)
    = [("whitecat.fun", "IP_MATCH")]
  ∧ map (λ a, (Listener.domain a, Listener.matchType a)) (Listener.alerts s2)
    = [("whitecat.fun", "IP_MATCH"); ("whitecat.fun", "IP_MATCH")].
Proof. vm_compute. repeat split. Qed.

(** ** The connection life cycle *)

Section Connection.

Import Listener.

Variable cfg : Config.

Lemma backoff_0 : backoff 0 = 1000.
Proof. reflexivity. Qed.

Lemma backoff_double (k : Z) :
  0 ≤ k → Z.min (backoff k * 2) 30000 = backoff (k + 1).
Proof.
  intros Hk. unfold backoff.
  rewrite (Z.pow_add_r 2 k 1) by lia.
  change (2 ^ 1) with 2. lia.
Qed.

Lemma connect_inv (maxR : Z) (l : State) :
  connInv maxR 0 (connect maxR l).1.
Proof. unfold connInv. simpl. done. Qed.

Lemma step_inv (maxR n : Z) (c c' : Conn) (ev : Event) (out : list Effect) :
  connInv maxR n c →
  step cfg c ev = Some (c', out) →
  connInv maxR (countFailure n ev) c'.
Proof.
  unfold step, connInv.
  intros (Hmax & Hn & Hc) Hstep.
  destruct (enabled c ev) eqn:Hen; [|done].
  injection Hstep as Hh. apply (f_equal fst) in Hh. simpl in Hh. subst c'.
  clear out.
  destruct ev; simpl in *.
  - (* open *)
    destruct (readyState c); try done. destruct Hc as (-> & _ & _). done.
  - (* message *)
    destruct (readyState c); done.
  - (* pong *)
    destruct (readyState c); done.
  - (* error *)
    destruct (readyState c); done.
  - (* close *)
    assert (pendingRetry c = None ∧ retryCount c = n ∧ retryDelay c = backoff n)
      as (Hp & Hcount & Hdelay) by (destruct (readyState c); done).
    unfold on_close. destruct (retryCount c <? maxRetries c); simpl.
    + split_and!; try done; try lia.
      by replace (n + 1 - 1) with n by lia.
    + rewrite Hp. split_and!; try done; lia.
  - (* retry timer *)
    destruct (pendingRetry c) as [d|] eqn:Hp; [|done].
    destruct (readyState c); try (by destruct Hc as (? & _)).
    destruct Hc as (_ & _ & Hcount & Hn1 & _ & Hdelay).
    split_and!; try done.
    rewrite Hdelay, backoff_double by lia. f_equal. lia.
  - (* ping timer *)
    unfold on_ping_timer. simpl. done.
  - (* stall timer *)
    destruct (readyState c) eqn:Hrs; simpl; rewrite ?Hrs;
      try (destruct (isAlive c); done).
    destruct Hc as (_ & Hstall & _). congruence.
Qed.

Lemma run_inv (maxR : Z) (evs : list Event) (n : Z) (c c' : Conn)
    (out : list Effect) :
  connInv maxR n c →
  run cfg c evs = Some (c', out) →
  connInv maxR (foldl countFailure n evs) c'.
Proof.
  revert n c out. induction evs as [|ev evs IH]; intros n c out Hinv Hrun.
  - simpl in Hrun. by injection Hrun as <- _.
  - simpl in Hrun.
    destruct (step cfg c ev) as [[c1 out1]|] eqn:Hstep; [|done].
    destruct (run cfg c1 evs) as [[c2 out2]|] eqn:Hrest; [|done].
    injection Hrun as <- _.
    simpl. eapply IH; [|exact Hrest]. by eapply step_inv.
Qed.

Lemma session_inv (maxR : Z) (l : State) (evs : list Event) (c : Conn)
    (out : list Effect) :
  session cfg maxR l evs = Some (c, out) →
  connInv maxR (failuresSinceOpen evs) c.
Proof.
  unfold session. intros H.
  destruct (run cfg (connect maxR l).1 evs) as [[c1 out1]|] eqn:Hrun; [|done].
  injection H as <- _.
  eapply run_inv; [apply connect_inv | exact Hrun].
Qed.

(** A closed socket with no armed retry receives no event any more. *)
Lemma exhausted_terminal (maxR n : Z) (c : Conn) (ev : Event) :
  connInv maxR n c →
  readyState c = CLOSED → pendingRetry c = None →
  step cfg c ev = None.
Proof.
  unfold connInv, step. intros (_ & _ & Hc) Hrs Hp.
  rewrite Hrs, Hp in Hc. destruct Hc as (Hping & Hstall & _).
  destruct ev; simpl; rewrite ?Hrs, ?Hp, ?Hping, ?Hstall; done.
Qed.

End Connection.

(** ** C3: the reconnection schedule *)

(** C3. In every session started by [connect(maxRetries)], let [N] be the
    number of closes since the last successful open (the consecutive
    failures so far, counted from 0, as [retryCount] counts them).  A
    further close then arms one retry after [min (1000 * 2^N) 30000]
    milliseconds (1s, 2s, 4s, ... capped at 30s) as long as
    [N < maxRetries], and that retry is a new connection attempt; once
    [maxRetries] consecutive failures have been counted, the close arms
    nothing and the connection accepts no further event: no attempt is ever
    made again, while the listener state is kept.  Every open resets the
    counter to 0 and the delay to 1s. *)
Theorem connect_backoff_schedule
    (cfg : Listener.Config) (maxR : Z) (l : Listener.State)
    (evs : list Listener.Event) (c : Listener.Conn)
    (out : list Listener.Effect) :
  Listener.session cfg maxR l evs = Some (c, out) →
  let N := Listener.failuresSinceOpen evs in
  (∀ c' out', Listener.step cfg c Listener.Close = Some (c', out') →
     (N < maxR →
        out' = [Listener.SetTimeout (Z.min (1000 * 2 ^ N) 30000)]
        ∧ Listener.step cfg c' Listener.RetryTimer
          = Some (Listener.on_retry_timer c')
        ∧ (Listener.on_retry_timer c').2 = [Listener.NewWebSocket])
     ∧ (maxR ≤ N →
        out' = []
        ∧ Listener.listener c' = Listener.listener c
        ∧ ∀ evs', Listener.run cfg c' evs' = Some (c', [])
                  ∨ Listener.run cfg c' evs' = None))
  ∧ (∀ c' out', Listener.step cfg c Listener.Open = Some (c', out') →
       Listener.retryCount c' = 0
       ∧ Listener.retryDelay c' = 1000
       ∧ Listener.isConnected c' = true
       ∧ Listener.failuresSinceOpen (evs ++ [Listener.Open]) = 0).
Proof.
  intros Hs N.
  pose proof (session_inv cfg maxR l evs c out Hs) as Hinv.
  fold N in Hinv.
  split.
  - intros c' out' Hstep.
    pose proof (step_inv cfg maxR N c c' _ out' Hinv Hstep) as Hinv'.
    unfold Listener.step in Hstep.
    destruct (Listener.enabled c Listener.Close) eqn:Hen; [|done].
    destruct Hinv as (Hmax & HN & Hc).
    assert (Listener.pendingRetry c = None ∧ Listener.retryCount c = N
            ∧ Listener.retryDelay c = Listener.backoff N)
      as (Hp & Hcount & Hdelay).
    { simpl in Hen. destruct (Listener.readyState c); done. }
    simpl in Hstep. unfold Listener.on_close in Hstep.
    rewrite Hcount, Hmax in Hstep.
    split; intros HNm.
    + rewrite (proj2 (Z.ltb_lt N maxR) HNm) in Hstep.
      injection Hstep as <- <-. rewrite Hdelay. done.
    + rewrite (proj2 (Z.ltb_ge N maxR) HNm) in Hstep.
      injection Hstep as Hc' <-. split; [done|].
      split; [by subst c'|].
      assert (∀ ev, Listener.step cfg c' ev = None) as Hterm.
      { intros ev. eapply exhausted_terminal; [exact Hinv'| |];
          subst c'; simpl; done. }
      intros [|ev evs']; [by left|right].
      simpl. by rewrite Hterm.
  - intros c' out' Hstep. unfold Listener.step in Hstep.
    destruct (Listener.enabled c Listener.Open); [|done].
    injection Hstep as <- _.
    unfold Listener.failuresSinceOpen. rewrite foldl_app. done.
Qed.

Lemma connect_backoff_schedule_witness :
  match Listener.session Scenario.cfg 5 (Listener.initial [])
          [Listener.Close; Listener.RetryTimer; Listener.Close;
           Listener.RetryTimer; Listener.Close; Listener.RetryTimer] with
  | Some (c, _) => (Listener.on_close c).2 = [Listener.SetTimeout 8000]
  | None => False
  end.
Proof.
  destruct (Listener.session Scenario.cfg 5 (Listener.initial []) _)
    as [[c out]|] eqn:Hs; [|vm_compute in Hs; discriminate Hs].
  pose proof (connect_backoff_schedule _ _ _ _ _ _ Hs) as [H _].
  vm_compute in Hs. injection Hs as <- _.
  destruct (H _ _ eq_refl) as [Hlt _].
  destruct Hlt as [Hout _]; [vm_compute; reflexivity|].
  exact Hout.
Defined.

(** ** C6: heartbeat messages *)

(** C6, as the code has it. A message whose type is ["heartbeat"] emits no
    alert, asks no DNS question, leaves the seen-set and the detection
    counter alone and asks nothing of the runtime; it increments the message
    counter and nothing else. In particular it leaves the liveness flag
    [isAlive] as it was: that flag is set by a [pong] frame. *)
Theorem heartbeat_only_counts
    (cfg : Listener.Config) (data : option Listener.CertData)
    (c : Listener.Conn) :
  let c' := (Listener.handle cfg c
               (Listener.Message (Listener.JMessage "heartbeat" data))).1 in
  Listener.handle cfg c (Listener.Message (Listener.JMessage "heartbeat" data))
  = (Listener.with_listener (Listener.counted (Listener.listener c)) c, [])
  ∧ Listener.alerts (Listener.listener c')
    = Listener.alerts (Listener.listener c)
  ∧ Listener.dnsQueries (Listener.listener c')
    = Listener.dnsQueries (Listener.listener c)
  ∧ Listener.knownCabalDomains (Listener.listener c')
    = Listener.knownCabalDomains (Listener.listener c)
  ∧ Listener.messageCount (Listener.listener c')
    = Listener.messageCount (Listener.listener c) + 1
  ∧ Listener.isAlive c' = Listener.isAlive c
  ∧ Listener.isAlive (Listener.handle cfg c Listener.Pong).1 = true.
Proof. by destruct data. Qed.

(** C6 as stated fails: after one stall check has cleared the liveness
    flag, a heartbeat message leaves it cleared, and the next stall check
    terminates the socket. *)
Lemma heartbeat_leaves_liveness_cleared :
  match Listener.session Scenario.cfg 5 (Listener.initial [])
          [Listener.Open; Listener.StallTimer;
           Listener.Message Scenario.heartbeat] with
  | Some (c, _) =>
      Listener.isAlive c = false
      ∧ Listener.step Scenario.cfg c Listener.StallTimer
        = Some (Listener.on_stall_timer c)
      ∧ (Listener.on_stall_timer c).2 = [Listener.Terminate]
  | None => False
  end.
Proof. vm_compute. repeat split. Qed.

(** ** C5: the extraction cascade *)


Example cascade_stops_at_tier1 :
  Scraper.tiersInvoked
    (Scraper.fingerprintSite (ScraperScenario.env true true true)
       "https://thewhitecat.fun").2
  = [Scraper.Tier1].
Proof. reflexivity. Qed.

Example cascade_reaches_tier3 :
  let r := Scraper.fingerprintSite (ScraperScenario.env false false true)
             "https://thewhitecat.fun" in
  Scraper.tiersInvoked r.2 = [Scraper.Tier1; Scraper.Tier2; Scraper.Tier3]
  ∧ Scraper.fp_extracted_via r.1 = Some "PLAYWRIGHT_LOCAL".
Proof. split; reflexivity. Qed.

Example cascade_all_fail :
  let r := Scraper.fingerprintSite (ScraperScenario.env false false false)
             "https://thewhitecat.fun" in
  Scraper.fp_fields r.1 = Some Scraper.dnsSslOnly
  ∧ Scraper.fp_extracted_via r.1 = Some "DNS_SSL_ONLY"
  ∧ Scraper.fp_ip r.1 = Some "159.198.65.253".
Proof. repeat split. Qed.

Example cascade_not_reached :
  let r := Scraper.fingerprintSite ScraperScenario.offline
             "https://thewhitecat.fun" in
  Scraper.tiersInvoked r.2 = []
  ∧ Scraper.fp_error r.1 = Some "queryA ENOTFOUND thewhitecat.fun".
Proof. split; reflexivity. Qed.

(** ** C7: re-running research on processed URLs *)

Lemma filter_researched_nil (researched urls : list string) :
  (∀ u, u ∈ urls → u ∈ researched) →
  filter (λ url, Js.includes url researched = false) urls = [].
Proof.
  induction urls as [|u urls IH]; intros Hall; [done|].
  rewrite filter_cons_False.
  - apply IH. intros v Hv. apply Hall. by right.
  - rewrite (proj2 (includes_true u researched)); [done|].
    apply Hall. by left.
Qed.

(** C7. When every URL handed to [profileSeedURLs] is already in the
    ledger of researched URLs, the run changes nothing: the watchlist (ips,
    subnets, fingerprints), the profile's deep DNA and infrastructure, the
    ledger and the three files are as before, and no network call is made.
    The state is the one before the call (a profile loaded without
    [seed_urls] gets the empty list). *)
Theorem profileSeedURLs_researched_noop
    (env : Scraper.Env) (urls : list string) (s : Research.State) :
  (∀ u, u ∈ urls → u ∈ Research.researchedURLs s) →
  let s' := Research.profileSeedURLs env urls s in
  Research.watchlist s' = Research.watchlist s
  ∧ Research.deep_dna (Research.profile s')
    = Research.deep_dna (Research.profile s)
  ∧ Research.infrastructure (Research.profile s')
    = Research.infrastructure (Research.profile s)
  ∧ Research.seed_urls (Research.profile s')
    = Some (default [] (Research.seed_urls (Research.profile s)))
  ∧ Research.researchedURLs s' = Research.researchedURLs s
  ∧ Research.researchedFile s' = Research.researchedFile s
  ∧ Research.watchlistFile s' = Research.watchlistFile s
  ∧ Research.profileFile s' = Research.profileFile s
  ∧ Research.network s' = Research.network s
  ∧ (is_Some (Research.seed_urls (Research.profile s)) → s' = s).
Proof.
  intros Hall s'. subst s'. unfold Research.profileSeedURLs.
  rewrite (filter_researched_nil _ urls) by exact Hall.
  split_and!; try done.
  intros [l Hl]. destruct s as [w [su infra dna] r rf wf pf net].
  simpl in *. by subst su.
Qed.

Lemma profileSeedURLs_researched_noop_witness :
  Research.profileSeedURLs (ScraperScenario.env true true true)
    ScraperScenario.seeds ScraperScenario.seeded
  = ScraperScenario.seeded.
Proof.
  apply (profileSeedURLs_researched_noop (ScraperScenario.env true true true)
           ScraperScenario.seeds ScraperScenario.seeded).
  - intros u Hu.
    replace (Research.researchedURLs ScraperScenario.seeded)
      with ScraperScenario.seeds by (vm_compute; reflexivity).
    exact Hu.
  - vm_compute. eauto.
Defined.

(** * Further properties of the sources *)

(** ** The matching engine, continued *)

Section MatchingEffects.

Import Listener.

Variable cfg : Config.

(** [processDomain] with its local bindings read as the vocabulary above. *)
Lemma processDomain_eq (cd : CertData) (s : State) (d : string) :
  processDomain cfg cd s d
  = if skipped d then s
    else if watchedByIP cfg d
    then raise (mkAlert d (resolve cfg d) cd "IP_MATCH" "CRITICAL" None None)
           (queried d s)
    else if matchesAny cfg d && negb (bool_decide (d ∈ knownCabalDomains s))
    then raise (gatedAlert cfg cd d) (queried d s)
    else queried d s.
Proof.
  unfold processDomain, watchedByIP, gatedAlert.
  destruct (skipped d); [done|]. cbv zeta.
  destruct (if Js.truthy (resolve cfg d) then _ else false); [done|].
  destruct (matchesAny cfg d); simpl; [|done].
  destruct (bool_decide (d ∈ knownCabalDomains s)); simpl; [done|].
  by destruct (performDeepDNAMatch cfg d cd).
Qed.

Lemma gatedAlert_domain (cd : CertData) (d : string) :
  domain (gatedAlert cfg cd d) = d.
Proof. unfold gatedAlert. by destruct (performDeepDNAMatch cfg d cd). Qed.

Lemma gatedAlert_medium (cd : CertData) (d : string) :
  (matchType (gatedAlert cfg cd d) = "SSL_ISSUER_MATCH"
   ∨ matchType (gatedAlert cfg cd d) = "PATTERN_MATCH")
  ∧ confidence (gatedAlert cfg cd d) = "MEDIUM"
  ∧ ip (gatedAlert cfg cd d) = resolve cfg d.
Proof.
  unfold gatedAlert.
  destruct (performDeepDNAMatch cfg d cd) as [dm|] eqn:Hdm; simpl.
  - apply performDeepDNAMatch_medium in Hdm as [Ht Hc]. done.
  - auto.
Qed.

(** Everything one call of [processDomains] does to the listener. *)
Lemma processDomains_effects (cd : CertData) (ds : list string) (s : State) :
  ∃ new,
    alerts (processDomains cfg ds cd s) = alerts s ++ new
    ∧ Forall (origin cfg cd) new
    ∧ Forall (λ a, domain a ∈ ds) new
    ∧ knownCabalDomains (processDomains cfg ds cd s)
      = list_to_set (domain <$> new) ∪ knownCabalDomains s
    ∧ detectedCount (processDomains cfg ds cd s)
      = detectedCount s + Z.of_nat (length new)
    ∧ messageCount (processDomains cfg ds cd s) = messageCount s
    ∧ dnsQueries (processDomains cfg ds cd s)
      = dnsQueries s ++ filter (λ d, skipped d = false) ds.
Proof.
  induction ds as [|d ds IH] using rev_ind.
  - exists []. simpl. rewrite !app_nil_r. split_and!; try done.
    + by rewrite (left_id_L ∅ (∪)).
    + lia.
  - destruct IH as (new & Ha & Ho & Hd & Hk & Hc & Hm & Hq).
    rewrite processDomains_snoc, processDomain_eq, filter_app.
    assert (Forall (λ a, domain a ∈ ds ++ [d]) new) as Hd'.
    { eapply Forall_impl; [exact Hd|]. intros a Hin.
      apply elem_of_app. by left. }
    destruct (skipped d) eqn:Hskip.
    { exists new. rewrite filter_cons_False, filter_nil, app_nil_r by congruence.
      done. }
    rewrite filter_cons_True, filter_nil by done.
    assert (∀ a, domain a = d → origin cfg cd a →
              ∃ new',
                alerts (raise a (queried d (processDomains cfg ds cd s)))
                = alerts s ++ new'
                ∧ Forall (origin cfg cd) new'
                ∧ Forall (λ a, domain a ∈ ds ++ [d]) new'
                ∧ knownCabalDomains
                    (raise a (queried d (processDomains cfg ds cd s)))
                  = list_to_set (domain <$> new') ∪ knownCabalDomains s
                ∧ detectedCount
                    (raise a (queried d (processDomains cfg ds cd s)))
                  = detectedCount s + Z.of_nat (length new')
                ∧ messageCount
                    (raise a (queried d (processDomains cfg ds cd s)))
                  = messageCount s
                ∧ dnsQueries
                    (raise a (queried d (processDomains cfg ds cd s)))
                  = dnsQueries s ++ filter (λ d, skipped d = false) ds ++ [d])
      as Hraise.
    { intros a Hdom Horig. exists (new ++ [a]). simpl.
      rewrite Ha, Hk, Hc, Hm, Hq, fmap_app, length_app, Hdom. simpl.
      split_and!.
      - by rewrite <- (assoc_L (++)).
      - apply Forall_app. split; [done|]. by constructor.
      - apply Forall_app. split; [done|]. constructor; [|done].
        rewrite Hdom. apply elem_of_app. right. by left.
      - rewrite list_to_set_app_L. simpl.
        rewrite (right_id_L ∅ (∪)), Hdom, (assoc_L (∪)).
        by rewrite (comm_L (∪) {[d]}).
      - lia.
      - done.
      - by rewrite <- (assoc_L (++)). }
    destruct (watchedByIP cfg d) eqn:Hip.
    { apply Hraise; [done|]. unfold origin. simpl. by rewrite Hskip, Hip. }
    destruct (matchesAny cfg d && _) eqn:Hgate.
    { apply andb_true_iff in Hgate as [Hm' _].
      apply Hraise; [apply gatedAlert_domain|]. unfold origin.
      by rewrite gatedAlert_domain, Hskip, Hip. }
    exists new. simpl. rewrite Ha, Hk, Hc, Hm, Hq.
    split_and!; try done. by rewrite <- (assoc_L (++)).
Qed.

(** What a watched address is. *)
Lemma isIPWatched_true (addr : string) :
  isIPWatched cfg addr = true →
  ∃ w, watchlist cfg = Some w
       ∧ ((∃ l, ips w = Some l ∧ addr ∈ l)
          ∨ (∃ subs p0 p1 p2 p3,
               subnets w = Some subs
               ∧ Js.split "." addr = [p0; p1; p2; p3]
               ∧ p0 +:+ "." +:+ p1 +:+ "." +:+ p2 +:+ ".0/24" ∈ subs)).
Proof.
  unfold isIPWatched.
  destruct (watchlist cfg) as [w|]; [|done].
  intros H. exists w. split; [done|].
  destruct (ips w) as [l|] eqn:Hl.
  - destruct (Js.includes addr l) eqn:Hin.
    + left. exists l. split; [done|]. by apply includes_true.
    + right. destruct (subnets w) as [subs|]; [|done].
      destruct (Js.split "." addr) as [|p0 [|p1 [|p2 [|p3 [|? ?]]]]]; try done.
      exists subs, p0, p1, p2, p3. split_and!; try done.
      by apply includes_true.
  - right. destruct (subnets w) as [subs|]; [|done].
    destruct (Js.split "." addr) as [|p0 [|p1 [|p2 [|p3 [|? ?]]]]]; try done.
    exists subs, p0, p1, p2, p3. split_and!; try done.
    by apply includes_true.
Qed.

Lemma watchedByIP_true (d : string) :
  watchedByIP cfg d = true →
  ∃ addr, resolve cfg d = Some addr ∧ addr ≠ "" ∧ isIPWatched cfg addr = true.
Proof.
  unfold watchedByIP.
  destruct (resolve cfg d) as [addr|]; [|done].
  destruct addr as [|c addr]; [done|]. simpl. intros H.
  by exists (String c addr).
Qed.

(** With a complete profile, the deep-DNA match answers every domain that
    matches a naming pattern. *)
Lemma performDeepDNAMatch_answers (cd : CertData) (d : string)
    (p : Profile) (dna : DeepDNA) (l : list string) :
  profile cfg = Some p → deep_dna p = Some dna → ssl_issuers dna = Some l →
  matchesAny cfg d = true →
  is_Some (performDeepDNAMatch cfg d cd).
Proof.
  intros Hp Hdna Hl Hm. unfold performDeepDNAMatch, patternResult.
  rewrite Hp, Hdna, Hl, Hm.
  destruct (issuerOrg cd) as [iss|]; [|done].
  by destruct (Js.includes iss l).
Qed.

End MatchingEffects.

(** X1. [processDomains] asks the resolver once for every domain that is
    not filtered out, in the order of the list, whether or not the domain
    matches a pattern or has been seen; it asks nothing else. *)
Theorem processDomains_dns_queries
    (cfg : Listener.Config) (domains : list string)
    (certData : Listener.CertData) (s : Listener.State) :
  Listener.dnsQueries (Listener.processDomains cfg domains certData s)
  = Listener.dnsQueries s
    ++ filter (λ d, Listener.skipped d = false) domains.
Proof.
  destruct (processDomains_effects cfg certData domains s)
    as (new & _ & _ & _ & _ & _ & _ & Hq).
  exact Hq.
Qed.

(** X2. The bookkeeping of [processDomains]: the seen-set only grows, by
    exactly the domains of the alerts emitted by the call; the detection
    counter grows by the number of those alerts; the message counter is not
    touched. *)
Theorem processDomains_bookkeeping
    (cfg : Listener.Config) (domains : list string)
    (certData : Listener.CertData) (s : Listener.State) :
  ∃ new,
    Listener.alerts (Listener.processDomains cfg domains certData s)
    = Listener.alerts s ++ new
    ∧ Listener.knownCabalDomains (Listener.processDomains cfg domains certData s)
      = list_to_set (Listener.domain <$> new) ∪ Listener.knownCabalDomains s
    ∧ Listener.knownCabalDomains s
      ⊆ Listener.knownCabalDomains (Listener.processDomains cfg domains certData s)
    ∧ Listener.detectedCount (Listener.processDomains cfg domains certData s)
      = Listener.detectedCount s + Z.of_nat (length new)
    ∧ Listener.messageCount (Listener.processDomains cfg domains certData s)
      = Listener.messageCount s.
Proof.
  destruct (processDomains_effects cfg certData domains s)
    as (new & Ha & _ & _ & Hk & Hc & Hm & _).
  exists new. split_and!; try done.
  rewrite Hk. apply union_subseteq_r.
Qed.

(** X3. An [IP_MATCH] alert is only ever raised for a domain that resolved
    to a non-empty first address which is an entry of the watchlist's [ips]
    or whose four dot-separated parts give a /24 that is an entry of the
    watchlist's [subnets]; the alert carries that address. *)
Theorem ip_match_only_for_watched
    (cfg : Listener.Config) (domains : list string)
    (certData : Listener.CertData) (s : Listener.State) :
  ∃ new,
    Listener.alerts (Listener.processDomains cfg domains certData s)
    = Listener.alerts s ++ new
    ∧ Forall (λ a,
        Listener.matchType a = "IP_MATCH" →
        ∃ addr w,
          Listener.resolve cfg (Listener.domain a) = Some addr
          ∧ addr ≠ ""
          ∧ Listener.ip a = Some addr
          ∧ Listener.watchlist cfg = Some w
          ∧ ((∃ l, Listener.ips w = Some l ∧ addr ∈ l)
             ∨ (∃ subs p0 p1 p2 p3,
                  Listener.subnets w = Some subs
                  ∧ Js.split "." addr = [p0; p1; p2; p3]
                  ∧ p0 +:+ "." +:+ p1 +:+ "." +:+ p2 +:+ ".0/24" ∈ subs))) new.
Proof.
  destruct (processDomains_effects cfg certData domains s)
    as (new & Ha & Ho & _).
  exists new. split; [done|].
  eapply Forall_impl; [exact Ho|].
  intros a [_ Horig] Hip.
  destruct (Listener.watchedByIP cfg (Listener.domain a)) eqn:Hw.
  - apply watchedByIP_true in Hw as (addr & Hres & Hne & Hwatched).
    apply isIPWatched_true in Hwatched as (w & Hwl & Hcase).
    exists addr, w. split_and!; try done.
    rewrite Horig. simpl. done.
  - destruct Horig as [_ Horig].
    destruct (gatedAlert_medium cfg certData (Listener.domain a))
      as ([Ht|Ht] & _ & _); rewrite <- Horig in Ht; congruence.
Qed.

(** X4. A resolution failure is not fatal to classification: when
    [dns.resolve4] rejects for a domain that is not filtered out, the domain
    cannot match by IP, but a domain that matches a naming pattern and has
    not been seen still raises one alert, with a null [ip], confidence
    [MEDIUM] and match type [SSL_ISSUER_MATCH] or [PATTERN_MATCH]; a domain
    that matches no pattern raises nothing. *)
Theorem dns_failure_keeps_pattern_rules
    (cfg : Listener.Config) (certData : Listener.CertData)
    (s : Listener.State) (d : string) :
  Listener.skipped d = false →
  Listener.resolve4 cfg d = None →
  (Listener.matchesAny cfg d = true → d ∉ Listener.knownCabalDomains s →
     ∃ a, Listener.alerts (Listener.processDomains cfg [d] certData s)
          = Listener.alerts s ++ [a]
          ∧ Listener.domain a = d
          ∧ Listener.ip a = None
          ∧ Listener.confidence a = "MEDIUM"
          ∧ (Listener.matchType a = "SSL_ISSUER_MATCH"
             ∨ Listener.matchType a = "PATTERN_MATCH"))
  ∧ (Listener.matchesAny cfg d = false →
     Listener.alerts (Listener.processDomains cfg [d] certData s)
     = Listener.alerts s).
Proof.
  intros Hskip Hres.
  assert (Listener.resolve cfg d = None) as Hr.
  { unfold Listener.resolve. by rewrite Hres. }
  assert (Listener.watchedByIP cfg d = false) as Hw.
  { unfold Listener.watchedByIP. by rewrite Hr. }
  unfold Listener.processDomains. simpl foldl.
  rewrite processDomain_eq, Hskip, Hw.
  split.
  - intros Hm Hseen. rewrite Hm, bool_decide_eq_false_2 by done. simpl.
    exists (Listener.gatedAlert cfg certData d).
    destruct (gatedAlert_medium cfg certData d) as (Ht & Hc & Hip).
    split_and!; try done.
    + apply gatedAlert_domain.
    + by rewrite Hip.
  - by intros ->.
Qed.

Lemma dns_failure_keeps_pattern_rules_witness :
  ∃ a, Listener.alerts
         (Listener.processDomains Scenario.bare ["thebigdog.xyz"]
            (Scenario.cert "thebigdog.xyz" "Sectigo" 0 1) (Listener.initial []))
       = [] ++ [a]
       ∧ Listener.domain a = "thebigdog.xyz"
       ∧ Listener.ip a = None
       ∧ Listener.confidence a = "MEDIUM"
       ∧ (Listener.matchType a = "SSL_ISSUER_MATCH"
          ∨ Listener.matchType a = "PATTERN_MATCH").
Proof.
  apply (dns_failure_keeps_pattern_rules Scenario.bare
           (Scenario.cert "thebigdog.xyz" "Sectigo" 0 1) (Listener.initial [])
           "thebigdog.xyz" eq_refl eq_refl).
  - reflexivity.
  - apply not_elem_of_empty.
Defined.

(** X5. With a profile that carries [deep_dna.ssl_issuers], no alert is
    flagged [PENDING_MANUAL_REVIEW]: every alert has no [status], and every
    alert other than an [IP_MATCH] carries [deepDNADetails]. *)
Theorem no_pending_review_with_profile
    (cfg : Listener.Config) (domains : list string)
    (certData : Listener.CertData) (s : Listener.State)
    (p : Listener.Profile) (dna : Listener.DeepDNA) (l : list string) :
  Listener.profile cfg = Some p →
  Listener.deep_dna p = Some dna →
  Listener.ssl_issuers dna = Some l →
  ∃ new,
    Listener.alerts (Listener.processDomains cfg domains certData s)
    = Listener.alerts s ++ new
    ∧ Forall (λ a,
        Listener.status a = None
        ∧ (Listener.matchType a ≠ "IP_MATCH"
           → is_Some (Listener.deepDNADetails a))) new.
Proof.
  intros Hp Hdna Hl.
  destruct (processDomains_effects cfg certData domains s)
    as (new & Ha & Ho & _).
  exists new. split; [done|].
  eapply Forall_impl; [exact Ho|].
  intros a [_ Horig].
  destruct (Listener.watchedByIP cfg (Listener.domain a)).
  - rewrite Horig. simpl. split; [done|]. by intros [].
  - destruct Horig as [Hm Horig].
    destruct (performDeepDNAMatch_answers cfg certData (Listener.domain a)
                p dna l Hp Hdna Hl Hm) as [dm Hdm].
    rewrite Horig. unfold Listener.gatedAlert. rewrite Hdm. simpl.
    split; [done|]. by eexists.
Qed.

Lemma no_pending_review_with_profile_witness :
  ∃ new,
    Listener.alerts
      (Listener.processDomains Scenario.cfg ["thebigdog.xyz"; "whitecat.fun"]
         (Scenario.cert "thebigdog.xyz" "Sectigo" 0 1) (Listener.initial []))
    = [] ++ new
    ∧ Forall (λ a,
        Listener.status a = None
        ∧ (Listener.matchType a ≠ "IP_MATCH"
           → is_Some (Listener.deepDNADetails a))) new.
Proof.
  exact (no_pending_review_with_profile Scenario.cfg
           ["thebigdog.xyz"; "whitecat.fun"]
           (Scenario.cert "thebigdog.xyz" "Sectigo" 0 1) (Listener.initial [])
           _ _ _ eq_refl eq_refl eq_refl).
Defined.

(** X6. Without a profile the certificate's issuer is never consulted:
    every alert is an [IP_MATCH] or a [PATTERN_MATCH] flagged
    [PENDING_MANUAL_REVIEW] without [deepDNADetails]. *)
Theorem without_profile_pattern_pending
    (cfg : Listener.Config) (domains : list string)
    (certData : Listener.CertData) (s : Listener.State) :
  Listener.profile cfg = None →
  ∃ new,
    Listener.alerts (Listener.processDomains cfg domains certData s)
    = Listener.alerts s ++ new
    ∧ Forall (λ a,
        Listener.matchType a = "IP_MATCH"
        ∨ (Listener.matchType a = "PATTERN_MATCH"
           ∧ Listener.status a = Some "PENDING_MANUAL_REVIEW"
           ∧ Listener.deepDNADetails a = None)) new.
Proof.
  intros Hp.
  destruct (processDomains_effects cfg certData domains s)
    as (new & Ha & Ho & _).
  exists new. split; [done|].
  eapply Forall_impl; [exact Ho|].
  intros a [_ Horig].
  destruct (Listener.watchedByIP cfg (Listener.domain a)).
  - left. by rewrite Horig.
  - right. destruct Horig as [_ Horig]. rewrite Horig.
    unfold Listener.gatedAlert, Listener.performDeepDNAMatch. by rewrite Hp.
Qed.

Lemma without_profile_pattern_pending_witness :
  ∃ new,
    Listener.alerts
      (Listener.processDomains Scenario.bare ["thebigdog.xyz"]
         (Scenario.cert "thebigdog.xyz" "Let's Encrypt" 0 1)
         (Listener.initial []))
    = [] ++ new
    ∧ Forall (λ a,
        Listener.matchType a = "IP_MATCH"
        ∨ (Listener.matchType a = "PATTERN_MATCH"
           ∧ Listener.status a = Some "PENDING_MANUAL_REVIEW"
           ∧ Listener.deepDNADetails a = None)) new.
Proof.
  exact (without_profile_pattern_pending Scenario.bare ["thebigdog.xyz"]
           (Scenario.cert "thebigdog.xyz" "Let's Encrypt" 0 1)
           (Listener.initial []) eq_refl).
Defined.

(** ** Arrays used as sets *)

Section PushUnique.

Lemma elem_of_push_unique (y x : string) (l : list string) :
  y ∈ Js.push_unique x l ↔ y = x ∨ y ∈ l.
Proof.
  unfold Js.push_unique. destruct (Js.includes x l) eqn:Hin.
  - apply includes_true in Hin. split; [by right|].
    intros [->|H]; done.
  - rewrite elem_of_app, list_elem_of_singleton. tauto.
Qed.

Lemma NoDup_push_unique (x : string) (l : list string) :
  NoDup l → NoDup (Js.push_unique x l).
Proof.
  intros Hl. unfold Js.push_unique. destruct (Js.includes x l) eqn:Hin; [done|].
  apply includes_false in Hin.
  apply NoDup_app. split_and!; [done| |apply NoDup_singleton].
  intros y Hy Hyx. apply list_elem_of_singleton in Hyx. by subst.
Qed.

Lemma elem_of_foldl_push_unique (y : string) (xs l : list string) :
  y ∈ foldl (λ acc x, Js.push_unique x acc) l xs ↔ y ∈ l ∨ y ∈ xs.
Proof.
  revert l. induction xs as [|x xs IH]; intros l; simpl.
  - rewrite elem_of_nil. tauto.
  - rewrite IH, elem_of_push_unique, elem_of_cons. tauto.
Qed.

Lemma NoDup_foldl_push_unique (xs l : list string) :
  NoDup l → NoDup (foldl (λ acc x, Js.push_unique x acc) l xs).
Proof.
  revert l. induction xs as [|x xs IH]; intros l Hl; simpl; [done|].
  apply IH. by apply NoDup_push_unique.
Qed.

(** Something already in the array is a prefix of what the pushes leave. *)
Lemma push_unique_prefix (x : string) (l : list string) :
  l `prefix_of` Js.push_unique x l.
Proof.
  unfold Js.push_unique. destruct (Js.includes x l); [done|].
  by apply prefix_app_r.
Qed.

Lemma foldl_push_unique_prefix (xs l : list string) :
  l `prefix_of` foldl (λ acc x, Js.push_unique x acc) l xs.
Proof.
  revert l. induction xs as [|x xs IH]; intros l; simpl; [done|].
  etrans; [apply push_unique_prefix|apply IH].
Qed.

(** The loop over [subjectAltName] adds the entries that are strings. *)
Lemma foldl_san (sans : list (option string)) (l : list string) :
  foldl (λ acc san, match san with
                    | Some s => Listener.set_add s acc
                    | None => acc
                    end) l sans
  = foldl (λ acc x, Js.push_unique x acc) l (omap id sans).
Proof.
  revert l. induction sans as [|[x|] sans IH]; intros l; simpl; [done|..].
  - apply IH.
  - apply IH.
Qed.

End PushUnique.

(** X7. [extractDomainsFromCert] returns each name once, and returns
    exactly the names of the certificate: a non-empty [subject.CN], the
    [subjectAltName] entries that are strings, and the [all_domains]. *)
Theorem extractDomainsFromCert_names (lc : Listener.LeafCert) :
  NoDup (Listener.extractDomainsFromCert lc)
  ∧ ∀ d, d ∈ Listener.extractDomainsFromCert lc
         ↔ (Listener.subject_CN lc = Some d ∧ d ≠ "")
           ∨ (∃ sans, Listener.subjectAltName lc = Some sans ∧ Some d ∈ sans)
           ∨ (∃ ds, Listener.all_domains lc = Some ds ∧ d ∈ ds).
Proof.
  unfold Listener.extractDomainsFromCert.
  set (d0 := if Js.truthy (Listener.subject_CN lc) then _ else []).
  assert (NoDup d0 ∧ ∀ d, d ∈ d0 ↔ Listener.subject_CN lc = Some d ∧ d ≠ "")
    as [Hnd0 Hin0].
  { subst d0. destruct (Listener.subject_CN lc) as [[|c cn]|]; simpl.
    - split; [constructor|]. intros d. rewrite elem_of_nil.
      split; [done|]. by intros [[= <-] ?].
    - split; [apply NoDup_singleton|]. intros d.
      unfold Listener.set_add, Js.push_unique. simpl.
      rewrite list_elem_of_singleton. split.
      + by intros ->.
      + by intros [[= <-] _].
    - split; [constructor|]. intros d. rewrite elem_of_nil.
      split; [done|]. by intros [? ?]. }
  set (d1 := match Listener.subjectAltName lc with Some _ => _ | None => d0 end).
  assert (NoDup d1 ∧ ∀ d, d ∈ d1 ↔ d ∈ d0
            ∨ ∃ sans, Listener.subjectAltName lc = Some sans ∧ Some d ∈ sans)
    as [Hnd1 Hin1].
  { subst d1. destruct (Listener.subjectAltName lc) as [sans|].
    - rewrite foldl_san. split; [by apply NoDup_foldl_push_unique|].
      intros d. rewrite elem_of_foldl_push_unique, list_elem_of_omap.
      split.
      + intros [H|(x & Hx & Hid)]; [by left|right].
        exists sans. split; [done|]. simpl in Hid. by subst x.
      + intros [H|(sans' & [= <-] & Hx)]; [by left|right].
        by exists (Some d).
    - split; [done|]. intros d. split; [by left|].
      by intros [H|(sans & ? & _)]. }
  destruct (Listener.all_domains lc) as [ds|].
  - split; [by apply NoDup_foldl_push_unique|].
    intros d. unfold Listener.set_add.
    rewrite elem_of_foldl_push_unique, Hin1, Hin0.
    split.
    + intros [[H|H]|H]; [by left|by right; left|right; right].
      by exists ds.
    + intros [H|[H|(ds' & [= <-] & H)]]; [by left; left|by left; right|by right].
  - split; [done|]. intros d. rewrite Hin1, Hin0.
    split.
    + intros [H|H]; [by left|by right; left].
    + intros [H|[H|(ds' & ? & _)]]; [by left|by right|done].
Qed.

(** ** The connection life cycle, continued *)

Section ConnectionEffects.

Import Listener.

Variable cfg : Config.

Lemma backoff_bounds (n : Z) : 0 ≤ n → 1000 ≤ backoff n ≤ 30000.
Proof.
  intros Hn. unfold backoff.
  assert (0 < 2 ^ n) by (apply Z.pow_pos_nonneg; lia). lia.
Qed.

Lemma timeouts_app (a b : list Effect) :
  timeouts (a ++ b) = timeouts a ++ timeouts b.
Proof. unfold timeouts. apply omap_app. Qed.

Lemma attempts_app (a b : list Effect) :
  attempts (a ++ b) = (attempts a + attempts b)%nat.
Proof. unfold attempts. by rewrite filter_app, length_app. Qed.

(** The delay a handler passes to [setTimeout] is the one of the schedule. *)
Lemma step_timeouts (maxR n : Z) (c c' : Conn) (ev : Event) (out : list Effect) :
  connInv maxR n c →
  step cfg c ev = Some (c', out) →
  timeouts out = [] ∨ timeouts out = [backoff n].
Proof.
  unfold step, connInv. intros (_ & _ & Hc) Hstep.
  destruct (enabled c ev) eqn:Hen; [|done].
  injection Hstep as Hh. apply (f_equal snd) in Hh. simpl in Hh. subst out.
  destruct ev; simpl in *; try (by left).
  - unfold on_close. destruct (retryCount c <? maxRetries c); [|by left].
    right. simpl.
    destruct (readyState c); try done; by destruct Hc as (_ & _ & ->).
  - left. by destruct (readyState c).
  - left. by destruct (isAlive c).
Qed.

Lemma run_timeouts (maxR : Z) (evs : list Event) (n : Z) (c c' : Conn)
    (out : list Effect) :
  connInv maxR n c →
  run cfg c evs = Some (c', out) →
  Forall (λ ms, 1000 ≤ ms ≤ 30000) (timeouts out).
Proof.
  revert n c out. induction evs as [|ev evs IH]; intros n c out Hinv Hrun.
  - simpl in Hrun. injection Hrun as _ <-. constructor.
  - simpl in Hrun.
    destruct (step cfg c ev) as [[c1 out1]|] eqn:Hstep; [|done].
    destruct (run cfg c1 evs) as [[c2 out2]|] eqn:Hrest; [|done].
    injection Hrun as <- <-.
    rewrite timeouts_app. apply Forall_app. split.
    + destruct (step_timeouts maxR n c c1 ev out1 Hinv Hstep) as [-> | ->].
      * constructor.
      * constructor; [|constructor]. apply backoff_bounds.
        by destruct Hinv as (_ & ? & _).
    + eapply IH; [|exact Hrest]. by eapply step_inv.
Qed.

(** Connection attempts against the retry counter, between two opens. *)
Lemma step_attempts (maxR n : Z) (c c' : Conn) (ev : Event)
    (out : list Effect) (k : nat) :
  0 ≤ maxR →
  connInv maxR n c →
  retryCount c ≤ maxR →
  Z.of_nat k + armed c = retryCount c + 1 →
  is_open ev = false →
  step cfg c ev = Some (c', out) →
  retryCount c' ≤ maxR
  ∧ Z.of_nat (k + attempts out) + armed c'
    = retryCount c' + 1.
Proof.
  unfold step. intros HmaxR (Hmax & Hn & Hc) Hle Hk Hno Hstep.
  destruct (enabled c ev) eqn:Hen; [|done].
  injection Hstep as Hh.
  assert (c' = (handle cfg c ev).1) as -> by by rewrite Hh.
  assert (out = (handle cfg c ev).2) as -> by by rewrite Hh.
  clear Hh.
  destruct ev; simpl in *; try done;
    try (split; [done|]; rewrite Nat.add_0_r; exact Hk).
  - (* close *)
    assert (pendingRetry c = None) as Hp.
    { destruct (readyState c); try done; by destruct Hc as (? & _). }
    unfold armed in *. rewrite Hp in Hk. unfold on_close.
    destruct (retryCount c <? maxRetries c) eqn:Hlt; simpl.
    + apply Z.ltb_lt in Hlt. split; [lia|]. unfold attempts. simpl. lia.
    + rewrite Hp. split; [done|]. unfold attempts. simpl. lia.
  - (* retry timer *)
    unfold armed in *. destruct (pendingRetry c); [|done]. split; [done|].
    unfold attempts. simpl. lia.
  - (* ping timer *)
    split; [done|]. unfold on_ping_timer. simpl.
    destruct (readyState c); unfold attempts; simpl; rewrite Nat.add_0_r; done.
  - (* stall timer *)
    split; [done|].
    destruct (isAlive c); unfold attempts; simpl; rewrite Nat.add_0_r; done.
Qed.

Lemma run_attempts (maxR : Z) (evs : list Event) (n : Z) (c c' : Conn)
    (out : list Effect) (k : nat) :
  0 ≤ maxR →
  connInv maxR n c →
  retryCount c ≤ maxR →
  Z.of_nat k + armed c = retryCount c + 1 →
  Forall (λ ev, is_open ev = false) evs →
  run cfg c evs = Some (c', out) →
  retryCount c' ≤ maxR
  ∧ Z.of_nat (k + attempts out) + armed c'
    = retryCount c' + 1.
Proof.
  intros HmaxR. revert n c out k.
  induction evs as [|ev evs IH]; intros n c out k Hinv Hle Hk Hno Hrun.
  - simpl in Hrun. injection Hrun as <- <-.
    unfold attempts. simpl. by rewrite Nat.add_0_r.
  - simpl in Hrun.
    destruct (step cfg c ev) as [[c1 out1]|] eqn:Hstep; [|done].
    destruct (run cfg c1 evs) as [[c2 out2]|] eqn:Hrest; [|done].
    injection Hrun as <- <-.
    apply Forall_cons in Hno as [Hev Hno].
    destruct (step_attempts maxR n c c1 ev out1 k HmaxR Hinv Hle Hk Hev Hstep)
      as [Hle1 Hk1].
    rewrite attempts_app, Nat.add_assoc.
    eapply IH; [by eapply step_inv|done|done|done|exact Hrest].
Qed.

(** Quiet events leave the liveness flag and the stall timer alone. *)
Lemma step_quiet (ev : Event) (c c' : Conn) (out : list Effect) :
  quiet ev = true →
  step cfg c ev = Some (c', out) →
  isAlive c' = isAlive c
  ∧ stallCheckInterval c' = stallCheckInterval c
  ∧ Terminate ∉ out.
Proof.
  unfold step. intros Hq Hstep.
  destruct (enabled c ev); [|done].
  injection Hstep as Hh.
  assert (c' = (handle cfg c ev).1) as -> by by rewrite Hh.
  assert (out = (handle cfg c ev).2) as -> by by rewrite Hh.
  clear Hh.
  destruct ev; try done; simpl; split_and!; try done;
    try apply not_elem_of_nil.
  destruct (readyState c); try apply not_elem_of_nil.
  intros Hin. apply list_elem_of_singleton in Hin. done.
Qed.

Lemma run_quiet (evs : list Event) (c c' : Conn) (out : list Effect) :
  Forall (λ ev, quiet ev = true) evs →
  run cfg c evs = Some (c', out) →
  isAlive c' = isAlive c
  ∧ stallCheckInterval c' = stallCheckInterval c
  ∧ Terminate ∉ out.
Proof.
  revert c out. induction evs as [|ev evs IH]; intros c out Hq Hrun.
  - simpl in Hrun. injection Hrun as <- <-. split_and!; try done.
    apply not_elem_of_nil.
  - simpl in Hrun.
    destruct (step cfg c ev) as [[c1 out1]|] eqn:Hstep; [|done].
    destruct (run cfg c1 evs) as [[c2 out2]|] eqn:Hrest; [|done].
    injection Hrun as <- <-.
    apply Forall_cons in Hq as [Hev Hq].
    destruct (step_quiet ev c c1 out1 Hev Hstep) as (Ha1 & Hs1 & Ht1).
    destruct (IH _ _ Hq Hrest) as (Ha & Hs & Ht).
    split_and!; [congruence|congruence|].
    intros Hin. apply elem_of_app in Hin as [?|?]; done.
Qed.

End ConnectionEffects.

Section ListenerStats.

Import Listener.

Variable cfg : Config.

Lemma size_add_le (x : string) (K : gset string) :
  (size ({[x]} ∪ K) ≤ S (size K))%nat.
Proof.
  rewrite size_union_alt, size_singleton.
  apply le_n_S, subseteq_size, subseteq_difference_l. done.
Qed.

Lemma size_list_to_set_union (l : list string) (K : gset string) :
  (size (list_to_set l ∪ K) ≤ length l + size K)%nat.
Proof.
  induction l as [|x l IH]; simpl.
  - by rewrite (left_id_L ∅ (∪)).
  - rewrite <- (assoc_L (∪)). etrans; [apply size_add_le|]. lia.
Qed.

Lemma handleCertificateMessage_stats (msg : Decoded) (s : State) :
  ∃ new,
    alerts (handleCertificateMessage cfg msg s) = alerts s ++ new
    ∧ detectedCount (handleCertificateMessage cfg msg s)
      = detectedCount s + Z.of_nat (length new)
    ∧ (size (knownCabalDomains (handleCertificateMessage cfg msg s))
       ≤ size (knownCabalDomains s) + length new)%nat
    ∧ messageCount (handleCertificateMessage cfg msg s)
      = messageCount s + (if parseable (Message msg) then 1 else 0).
Proof.
  assert (∃ new, alerts s = alerts s ++ new
                 ∧ detectedCount s = detectedCount s + Z.of_nat (length new)
                 ∧ (size (knownCabalDomains s)
                    ≤ size (knownCabalDomains s) + length new)%nat) as Hsame.
  { exists []. rewrite app_nil_r. simpl. split_and!; [done|lia|lia]. }
  destruct msg as [| |ty data]; simpl.
  - destruct Hsame as (new & ? & ? & ?). exists new. split_and!; try done. lia.
  - destruct Hsame as (new & ? & ? & ?). by exists new.
  - destruct (bool_decide (ty = "certificate_update"));
      [|destruct Hsame as (new & ? & ? & ?); by exists new].
    destruct data as [cd|];
      [|destruct Hsame as (new & ? & ? & ?); by exists new].
    destruct (leaf_cert cd) as [lc|];
      [|destruct Hsame as (new & ? & ? & ?); by exists new].
    destruct (processDomains_effects cfg cd (extractDomainsFromCert lc)
                (counted s)) as (new & Ha & _ & _ & Hk & Hc & Hm & _).
    exists new. rewrite Ha, Hk, Hc, Hm. simpl. split_and!; try done.
    etrans; [apply size_list_to_set_union|]. rewrite length_fmap. lia.
Qed.

Lemma step_listener (c c' : Conn) (ev : Event) (out : list Effect) :
  step cfg c ev = Some (c', out) →
  listener c'
  = match ev with
    | Message msg => handleCertificateMessage cfg msg (listener c)
    | _ => listener c
    end.
Proof.
  unfold step. destruct (enabled c ev); [|done].
  intros Hh. injection Hh as Hh.
  assert (c' = (handle cfg c ev).1) as -> by by rewrite Hh.
  destruct ev; try done. simpl. unfold on_close.
  by destruct (retryCount c <? maxRetries c).
Qed.

Lemma run_stats (evs : list Event) (c c' : Conn) (out : list Effect) :
  run cfg c evs = Some (c', out) →
  ∃ new,
    alerts (listener c') = alerts (listener c) ++ new
    ∧ detectedCount (listener c')
      = detectedCount (listener c) + Z.of_nat (length new)
    ∧ (size (knownCabalDomains (listener c'))
       ≤ size (knownCabalDomains (listener c)) + length new)%nat
    ∧ messageCount (listener c')
      = messageCount (listener c)
        + Z.of_nat (length (filter (λ ev, parseable ev = true) evs)).
Proof.
  revert c out. induction evs as [|ev evs IH]; intros c out Hrun.
  - simpl in Hrun. injection Hrun as <- <-. exists [].
    rewrite app_nil_r. simpl. split_and!; [done|lia|lia|lia].
  - simpl in Hrun.
    destruct (step cfg c ev) as [[c1 out1]|] eqn:Hstep; [|done].
    destruct (run cfg c1 evs) as [[c2 out2]|] eqn:Hrest; [|done].
    injection Hrun as <- <-.
    destruct (IH _ _ Hrest) as (new2 & Ha2 & Hc2 & Hk2 & Hm2).
    apply step_listener in Hstep.
    assert (∃ new1,
              alerts (listener c1) = alerts (listener c) ++ new1
              ∧ detectedCount (listener c1)
                = detectedCount (listener c) + Z.of_nat (length new1)
              ∧ (size (knownCabalDomains (listener c1))
                 ≤ size (knownCabalDomains (listener c)) + length new1)%nat
              ∧ messageCount (listener c1)
                = messageCount (listener c)
                  + (if parseable ev then 1 else 0))
      as (new1 & Ha1 & Hc1 & Hk1 & Hm1).
    { destruct ev; try (rewrite Hstep; exists []; rewrite app_nil_r; simpl;
                         split_and!; [done|lia|lia|lia]).
      rewrite Hstep. apply handleCertificateMessage_stats. }
    exists (new1 ++ new2).
    rewrite Ha2, Ha1, Hc2, Hc1, Hm2, Hm1, length_app, <- (assoc_L (++)).
    split_and!; [done|lia|lia|].
    destruct (parseable ev) eqn:Hp.
    + rewrite filter_cons_True by done. simpl length. lia.
    + rewrite filter_cons_False by congruence. lia.
Qed.

(** [isConnected] is only set while the socket is open or closing. *)
Lemma run_connected (maxR : Z) (evs : list Event) (n : Z) (c c' : Conn)
    (out : list Effect) :
  connInv maxR n c →
  (isConnected c = true → readyState c = OPEN ∨ readyState c = CLOSING) →
  run cfg c evs = Some (c', out) →
  isConnected c' = true → readyState c' = OPEN ∨ readyState c' = CLOSING.
Proof.
  revert n c out. induction evs as [|ev evs IH]; intros n c out Hinv Hc Hrun.
  - simpl in Hrun. by injection Hrun as <- <-.
  - simpl in Hrun.
    destruct (step cfg c ev) as [[c1 out1]|] eqn:Hstep; [|done].
    destruct (run cfg c1 evs) as [[c2 out2]|] eqn:Hrest; [|done].
    injection Hrun as <- <-.
    eapply IH; [by eapply step_inv| |exact Hrest].
    clear IH Hrest. unfold step in Hstep.
    destruct (enabled c ev) eqn:Hen; [|done].
    injection Hstep as Hh.
    assert (c1 = (handle cfg c ev).1) as -> by by rewrite Hh.
    clear Hh. destruct Hinv as (_ & _ & Hinv).
    destruct ev; simpl in *; try done.
    + by left.
    + unfold on_close. by destruct (retryCount c <? maxRetries c).
    + intros Hconn. destruct (Hc Hconn) as [Hrs|Hrs]; rewrite Hrs in *;
        destruct (pendingRetry c); try done; by destruct Hinv.
    + intros Hconn. destruct (Hc Hconn) as [Hrs|Hrs]; rewrite Hrs;
        destruct (isAlive c); auto.
Qed.

End ListenerStats.

(** X8. Whatever the runtime delivers, every reconnection delay that
    [connect] passes to [setTimeout] lies between 1 second and 30
    seconds. *)
Theorem retry_delays_bounded
    (cfg : Listener.Config) (maxR : Z) (l : Listener.State)
    (evs : list Listener.Event) (c : Listener.Conn)
    (out : list Listener.Effect) :
  Listener.session cfg maxR l evs = Some (c, out) →
  Forall (λ ms, 1000 ≤ ms ≤ 30000) (Listener.timeouts out).
Proof.
  unfold Listener.session. intros Hs.
  destruct (Listener.run cfg (Listener.connect maxR l).1 evs)
    as [[c1 out1]|] eqn:Hrun; [|done].
  injection Hs as <- <-.
  apply (run_timeouts cfg maxR evs 0 _ c1 out1 (connect_inv maxR l) Hrun).
Qed.

Lemma retry_delays_bounded_witness :
  match Listener.session Scenario.cfg 9 (Listener.initial [])
          [Listener.Close; Listener.RetryTimer; Listener.Open;
           Listener.Close; Listener.RetryTimer; Listener.Close] with
  | Some (_, out) => Forall (λ ms, 1000 ≤ ms ≤ 30000) (Listener.timeouts out)
  | None => False
  end.
Proof.
  destruct (Listener.session Scenario.cfg 9 (Listener.initial []) _)
    as [[c out]|] eqn:Hs; [|vm_compute in Hs; discriminate Hs].
  exact (retry_delays_bounded _ _ _ _ _ _ Hs).
Defined.

(** X9. As long as no attempt succeeds, [connect(maxRetries)] opens at most
    [maxRetries + 1] sockets: the first attempt and [maxRetries] retries. *)
Theorem attempts_bounded_by_maxRetries
    (cfg : Listener.Config) (maxR : Z) (l : Listener.State)
    (evs : list Listener.Event) (c : Listener.Conn)
    (out : list Listener.Effect) :
  0 ≤ maxR →
  Forall (λ ev, Listener.is_open ev = false) evs →
  Listener.session cfg maxR l evs = Some (c, out) →
  Z.of_nat (Listener.attempts out) ≤ maxR + 1.
Proof.
  unfold Listener.session. intros HmaxR Hno Hs.
  destruct (Listener.run cfg (Listener.connect maxR l).1 evs)
    as [[c1 out1]|] eqn:Hrun; [|done].
  injection Hs as <- <-.
  destruct (run_attempts cfg maxR evs 0 _ c1 out1 1 HmaxR
              (connect_inv maxR l)) as [Hle Hk]; try done.
  assert (Listener.attempts (Listener.NewWebSocket :: out1)
          = (1 + Listener.attempts out1)%nat) as -> by reflexivity.
  unfold Listener.armed in Hk. destruct (Listener.pendingRetry c1); lia.
Qed.

Lemma attempts_bounded_by_maxRetries_witness :
  match Listener.session Scenario.cfg 2 (Listener.initial [])
          [Listener.Close; Listener.RetryTimer; Listener.Close;
           Listener.RetryTimer; Listener.Close] with
  | Some (_, out) => Z.of_nat (Listener.attempts out) ≤ 2 + 1
  | None => False
  end.
Proof.
  destruct (Listener.session Scenario.cfg 2 (Listener.initial []) _)
    as [[c out]|] eqn:Hs; [|vm_compute in Hs; discriminate Hs].
  refine (attempts_bounded_by_maxRetries _ _ _ _ _ _ _ _ Hs).
  - lia.
  - repeat constructor.
Defined.

(** X10. The stall check: after one stall check, if only messages, errors
    and ping timers follow (no pong), the next stall check terminates the
    socket, and nothing terminates it before; if a pong arrives and only
    such events follow, the next stall check terminates nothing. *)
Theorem stall_check_needs_pong
    (cfg : Listener.Config) (c c1 c2 : Listener.Conn)
    (first : Listener.Event) (out1 out2 : list Listener.Effect)
    (evs : list Listener.Event) :
  Listener.stallCheckInterval c = true →
  first = Listener.StallTimer ∨ first = Listener.Pong →
  Listener.step cfg c first = Some (c1, out1) →
  Forall (λ ev, Listener.quiet ev = true) evs →
  Listener.run cfg c1 evs = Some (c2, out2) →
  (Listener.Terminate ∉ out2)
  ∧ Listener.step cfg c2 Listener.StallTimer
    = Some (Listener.on_stall_timer c2)
  ∧ (Listener.on_stall_timer c2).2
    = match first with
      | Listener.Pong => []
      | _ => [Listener.Terminate]
      end.
Proof.
  intros Hstall Hfirst Hstep Hq Hrun.
  destruct (run_quiet cfg evs c1 c2 out2 Hq Hrun) as (Ha & Hs & Ht).
  split; [done|].
  unfold Listener.step in *.
  destruct (Listener.enabled c first); [|done].
  injection Hstep as Hh.
  assert (c1 = (Listener.handle cfg c first).1) as -> by by rewrite Hh.
  clear Hh.
  destruct Hfirst as [-> | ->]; simpl in *;
    rewrite Hs, Hstall; (split; [done|]); by rewrite Ha.
Qed.

Lemma stall_check_needs_pong_witness :
  match Listener.session Scenario.cfg 5 (Listener.initial [])
          [Listener.Open; Listener.StallTimer;
           Listener.Message Scenario.heartbeat; Listener.PingTimer] with
  | Some (c, _) =>
      (Listener.on_stall_timer c).2 = [Listener.Terminate]
  | None => False
  end.
Proof.
  pose (c := (Listener.on_open
                (Listener.connect 5 (Listener.initial [])).1).1).
  pose (c1 := (Listener.on_stall_timer c).1).
  destruct (Listener.run Scenario.cfg c1
              [Listener.Message Scenario.heartbeat; Listener.PingTimer])
    as [[c2 out2]|] eqn:Hrun; [|vm_compute in Hrun; discriminate Hrun].
  pose proof (stall_check_needs_pong Scenario.cfg c c1 c2 Listener.StallTimer
                [] out2
                [Listener.Message Scenario.heartbeat; Listener.PingTimer]
                eq_refl (or_introl eq_refl) eq_refl
                ltac:(repeat constructor) Hrun) as (_ & _ & H).
  vm_compute in Hrun. injection Hrun as <- _.
  exact H.
Defined.

(** X11. [disconnect()] does not stop the reconnection: it closes the
    socket and clears [isConnected], but when the [close] event follows and
    fewer than [maxRetries] consecutive failures have been counted, the
    [close] handler arms a retry as for any other close, and the retry
    opens a new socket. *)
Theorem disconnect_still_reconnects
    (cfg : Listener.Config) (maxR : Z) (l : Listener.State)
    (evs : list Listener.Event) (c : Listener.Conn)
    (out : list Listener.Effect) :
  Listener.session cfg maxR l evs = Some (c, out) →
  Listener.readyState c ≠ Listener.CLOSED →
  Listener.failuresSinceOpen evs < maxR →
  let c1 := Listener.disconnect c in
  Listener.isConnected c1 = false
  ∧ ∃ c2,
      Listener.step cfg c1 Listener.Close
      = Some (c2, [Listener.SetTimeout
                     (Listener.backoff (Listener.failuresSinceOpen evs))])
      ∧ ∃ c3, Listener.step cfg c2 Listener.RetryTimer
              = Some (c3, [Listener.NewWebSocket])
              ∧ Listener.readyState c3 = Listener.CONNECTING.
Proof.
  intros Hs Hlive Hlt c1. subst c1. split; [done|].
  destruct (session_inv cfg maxR l evs c out Hs) as (Hmax & Hn & Hc).
  assert (Listener.retryCount c = Listener.failuresSinceOpen evs
          ∧ Listener.retryDelay c
            = Listener.backoff (Listener.failuresSinceOpen evs))
    as [Hcount Hdelay].
  { destruct (Listener.readyState c); try done; by destruct Hc as (_ & ? & ?). }
  unfold Listener.step, Listener.disconnect. simpl.
  assert (match Listener.readyState c with
          | Listener.CLOSED => Listener.CLOSED
          | _ => Listener.CLOSING
          end = Listener.CLOSING) as -> by by destruct (Listener.readyState c).
  unfold Listener.on_close. simpl.
  rewrite Hcount, Hmax, (proj2 (Z.ltb_lt _ _) Hlt), Hdelay.
  eexists. split; [reflexivity|]. simpl.
  eexists. split; reflexivity.
Qed.

Lemma disconnect_still_reconnects_witness :
  match Listener.session Scenario.cfg 5 (Listener.initial [])
          [Listener.Open] with
  | Some (c, _) =>
      ∃ c2, Listener.step Scenario.cfg (Listener.disconnect c) Listener.Close
            = Some (c2, [Listener.SetTimeout 1000])
  | None => False
  end.
Proof.
  destruct (Listener.session Scenario.cfg 5 (Listener.initial []) _)
    as [[c out]|] eqn:Hs; [|vm_compute in Hs; discriminate Hs].
  pose proof (disconnect_still_reconnects _ _ _ _ _ _ Hs) as H.
  vm_compute in Hs. injection Hs as <- _.
  destruct H as [_ (c2 & H2 & _)]; [done|reflexivity|].
  exists c2. exact H2.
Defined.

(** X12. After any session of a listener created with a list of known
    domains, [getStats()] is consistent with what happened:
    [cabalDomainsDetected] is the number of alerts emitted,
    [knownDomainsTracked] exceeds the initial set by at most that number,
    [messagesProcessed] is the number of frames that parsed, and
    [isConnected] is only reported while the socket is open or closing. *)
Theorem getStats_consistent
    (cfg : Listener.Config) (maxR : Z) (known : list string)
    (evs : list Listener.Event) (c : Listener.Conn)
    (out : list Listener.Effect) :
  Listener.session cfg maxR (Listener.initial known) evs = Some (c, out) →
  let stats := Listener.getStats c in
  Listener.cabalDomainsDetected stats
  = Z.of_nat (length (Listener.alerts (Listener.listener c)))
  ∧ (Listener.knownDomainsTracked stats
     ≤ size (list_to_set known : gset string)
       + length (Listener.alerts (Listener.listener c)))%nat
  ∧ Listener.messagesProcessed stats
    = Z.of_nat (length (filter (λ ev, Listener.parseable ev = true) evs))
  ∧ (Listener.stats_isConnected stats = true →
     Listener.readyState c = Listener.OPEN
     ∨ Listener.readyState c = Listener.CLOSING).
Proof.
  intros Hs. cbv zeta. unfold Listener.session in Hs.
  destruct (Listener.run cfg (Listener.connect maxR (Listener.initial known)).1 evs)
    as [[c1 out1]|] eqn:Hrun; [|done].
  injection Hs as <- <-.
  destruct (run_stats cfg evs _ c1 out1 Hrun) as (new & Ha & Hc & Hk & Hm).
  simpl in *. rewrite Ha, Hc, Hm. simpl.
  split_and!; [done|done|lia|].
  eapply run_connected; [apply connect_inv| |exact Hrun]. done.
Qed.

Lemma getStats_consistent_witness :
  match Listener.session Scenario.cfg 5 (Listener.initial ["whitecat.fun"])
          [Listener.Open;
           Listener.Message
             (Scenario.update (Scenario.cert "whitecat.fun" "Sectigo" 0 1));
           Listener.Message Listener.ParseError;
           Listener.Message Scenario.heartbeat] with
  | Some (c, _) =>
      Listener.cabalDomainsDetected (Listener.getStats c) = 1
      ∧ Listener.messagesProcessed (Listener.getStats c) = 2
  | None => False
  end.
Proof.
  destruct (Listener.session Scenario.cfg 5 (Listener.initial ["whitecat.fun"]) _)
    as [[c out]|] eqn:Hs; [|vm_compute in Hs; discriminate Hs].
  pose proof (getStats_consistent _ _ _ _ _ _ Hs) as (H1 & _ & H3 & _).
  rewrite H1, H3. vm_compute in Hs. injection Hs as <- _.
  split; reflexivity.
Defined.

(** ** Research mode, continued *)

Section ResearchFacts.

Import Research.

Variable env : Scraper.Env.

Lemma profileURL_eq (url : string) (s : State) :
  profileURL env url s
  = let s1 := add_network (Scraper.fingerprintSite env url).2 s in
    if profiled env url
    then (Some (dnaEntryOf env url),
          set_deep_dna
            (mergeDna (dnaEntryOf env url)
               (e_uses_tinybird (dnaEntryOf env url))
               (deep_dna (profile s1))) s1)
    else (None, s1).
Proof.
  unfold profileURL, profiled, dnaEntryOf.
  destruct (Scraper.fingerprintSite env url) as [fp calls]. simpl.
  by destruct (Js.truthy (Scraper.fp_error fp)).
Qed.

Lemma seedOne_eq (s : State) (url : string) :
  seedOne env s url
  = let s1 := add_network (Scraper.fingerprintSite env url).2 s in
    if profiled env url
    then track url (dnaEntryOf env url)
           (set_deep_dna
              (mergeDna (dnaEntryOf env url)
                 (e_uses_tinybird (dnaEntryOf env url))
                 (deep_dna (profile s1))) s1)
    else s1.
Proof.
  unfold seedOne. rewrite profileURL_eq. cbv zeta.
  by destruct (profiled env url).
Qed.

Lemma NoDup_push_truthy (x : option string) (l : list string) :
  NoDup l → NoDup (push_truthy x l).
Proof.
  intros Hl. unfold push_truthy. destruct (Js.truthy x); [|done].
  by apply NoDup_push_unique.
Qed.

Lemma elem_of_push_truthy (y : string) (x : option string) (l : list string) :
  y ∈ push_truthy x l ↔ y ∈ l ∨ (x = Some y ∧ y ≠ "").
Proof.
  unfold push_truthy. destruct x as [[|c x]|]; simpl.
  - split; [by left|]. by intros [?|[[= <-] ?]].
  - rewrite elem_of_push_unique. split.
    + intros [->|?]; [by right|by left].
    + intros [?|[[= <-] _]]; [by right|by left].
  - split; [by left|]. by intros [?|[? _]].
Qed.

Lemma saveResearchedURL_ledger (url : string) (s : State) :
  researchedURLs (saveResearchedURL url s)
  = Js.push_unique url (researchedURLs s).
Proof.
  unfold saveResearchedURL, Js.push_unique.
  by destruct (Js.includes url (researchedURLs s)).
Qed.

Lemma seedOne_ledger (s : State) (url : string) :
  researchedURLs (seedOne env s url)
  = if profiled env url then Js.push_unique url (researchedURLs s)
    else researchedURLs s.
Proof.
  rewrite seedOne_eq. cbv zeta. destruct (profiled env url); [|done].
  unfold track. by rewrite saveResearchedURL_ledger.
Qed.

Lemma foldl_seedOne_ledger (urls : list string) (s : State) :
  researchedURLs (foldl (seedOne env) s urls)
  = foldl (λ acc u, Js.push_unique u acc) (researchedURLs s)
      (filter (λ u, profiled env u = true) urls).
Proof.
  revert s. induction urls as [|u urls IH]; intros s; simpl; [done|].
  rewrite IH, seedOne_ledger.
  destruct (profiled env u) eqn:Hp.
  - by rewrite filter_cons_True.
  - rewrite filter_cons_False by congruence. done.
Qed.

Lemma profileSeedURLs_ledger (urls : list string) (s : State) :
  researchedURLs (profileSeedURLs env urls s)
  = foldl (λ acc u, Js.push_unique u acc) (researchedURLs s)
      (filter (λ u, profiled env u = true)
         (filter (λ u, Js.includes u (researchedURLs s) = false) urls)).
Proof.
  unfold profileSeedURLs. simpl.
  destruct (filter (λ u, Js.includes u (researchedURLs s) = false) urls)
    as [|u new] eqn:Hnew; [done|].
  change (researchedURLs (saveAll ?x)) with (researchedURLs x).
  by rewrite foldl_seedOne_ledger.
Qed.

Lemma seedOne_seed_urls (s : State) (url : string) :
  is_Some (seed_urls (profile s)) →
  is_Some (seed_urls (profile (seedOne env s url))).
Proof.
  intros Hs. rewrite seedOne_eq. cbv zeta.
  destruct (profiled env url); [|done].
  unfold track, saveResearchedURL. simpl.
  by destruct (Js.includes url _).
Qed.

Lemma profileSeedURLs_seed_urls (urls : list string) (s : State) :
  is_Some (seed_urls (profile (profileSeedURLs env urls s))).
Proof.
  unfold profileSeedURLs.
  destruct (filter _ urls) as [|u new]; [done|].
  change (profile (saveAll ?x)) with (profile x).
  generalize (u :: new). intros l.
  assert (is_Some (seed_urls (profile (ensureSeedUrls s)))) as H by done.
  revert H. generalize (ensureSeedUrls s).
  induction l as [|v l IH]; intros s0 H0; simpl; [done|].
  apply IH. by apply seedOne_seed_urls.
Qed.

(** A run over URLs that are all in the ledger returns the state. *)
Lemma profileSeedURLs_skip (urls : list string) (s : State) :
  (∀ u, u ∈ urls → u ∈ researchedURLs s) →
  is_Some (seed_urls (profile s)) →
  profileSeedURLs env urls s = s.
Proof.
  intros Hall [l Hl]. unfold profileSeedURLs.
  change (researchedURLs (ensureSeedUrls s)) with (researchedURLs s).
  rewrite (filter_researched_nil _ urls) by exact Hall.
  destruct s as [w [su infra dna] r rf wf pf net].
  simpl in *. by subst su.
Qed.

End ResearchFacts.

(** X13. The ledger after [profileSeedURLs]: the old ledger is kept as a
    prefix, and a URL is in the new ledger exactly when it was in the old
    one or it is one of the given URLs and its fingerprinting reported no
    error. A URL whose fingerprinting fails is therefore not recorded, and
    the next run tries it again. *)
Theorem profileSeedURLs_ledger_contents
    (env : Scraper.Env) (urls : list string) (s : Research.State) :
  Research.researchedURLs s
    `prefix_of` Research.researchedURLs (Research.profileSeedURLs env urls s)
  ∧ ∀ u, u ∈ Research.researchedURLs (Research.profileSeedURLs env urls s)
         ↔ u ∈ Research.researchedURLs s
           ∨ (u ∈ urls ∧ Research.profiled env u = true).
Proof.
  rewrite profileSeedURLs_ledger. split; [apply foldl_push_unique_prefix|].
  intros u. rewrite elem_of_foldl_push_unique, !list_elem_of_filter.
  rewrite includes_false. split.
  - intros [?|(Hp & _ & Hu)]; [by left|by right].
  - intros [?|[Hu Hp]]; [by left|].
    destruct (decide (u ∈ Research.researchedURLs s)); [by left|by right].
Qed.

(** X14. Re-seeding is idempotent when nothing fails: if every given URL
    is already in the ledger or fingerprints without an error, running
    [profileSeedURLs] a second time with the same URLs returns the state of
    the first run: nothing is fetched, appended or written again. *)
Theorem profileSeedURLs_idempotent
    (env : Scraper.Env) (urls : list string) (s : Research.State) :
  Forall (λ u, u ∈ Research.researchedURLs s
               ∨ Research.profiled env u = true) urls →
  Research.profileSeedURLs env urls (Research.profileSeedURLs env urls s)
  = Research.profileSeedURLs env urls s.
Proof.
  intros Hall. apply profileSeedURLs_skip.
  - intros u Hu. rewrite profileSeedURLs_ledger.
    apply elem_of_foldl_push_unique.
    destruct (proj1 (Forall_forall _ _) Hall u Hu) as [Hin|Hp]; [by left|].
    destruct (decide (u ∈ Research.researchedURLs s)) as [Hin|Hin]; [by left|].
    right. rewrite !list_elem_of_filter, includes_false. done.
  - apply profileSeedURLs_seed_urls.
Qed.

Lemma profileSeedURLs_idempotent_witness :
  Research.profileSeedURLs (ScraperScenario.env false true false)
    ScraperScenario.seeds
    (Research.profileSeedURLs (ScraperScenario.env false true false)
       ScraperScenario.seeds ScraperScenario.fresh)
  = Research.profileSeedURLs (ScraperScenario.env false true false)
      ScraperScenario.seeds ScraperScenario.fresh.
Proof.
  apply (profileSeedURLs_idempotent (ScraperScenario.env false true false)
           ScraperScenario.seeds ScraperScenario.fresh).
  repeat constructor; by right.
Defined.

Section ResearchInvariants.

Import Research.

Variable env : Scraper.Env.

Lemma setLike_mergeDna (entry : DnaEntry) (t : bool) (s : State) :
  setLike s → setLike (set_deep_dna (mergeDna entry t (deep_dna (profile s))) s).
Proof.
  unfold setLike. simpl.
  intros (H1 & H2 & H3 & H4 & H5 & H6 & H7 & H8 & H9 & H10 & H11 & H12 & H13).
  split_and!; try done.
  - destruct (issuerKey (e_ssl_info entry)); [by apply NoDup_push_unique|done].
  - by apply NoDup_foldl_push_unique.
  - by apply NoDup_foldl_push_unique.
  - destruct (Js.truthy (e_dom_hash entry)); [by apply NoDup_push_unique|done].
  - by apply NoDup_foldl_push_unique.
  - by apply NoDup_foldl_push_unique.
  - destruct t; [by apply NoDup_push_unique|done].
Qed.

Lemma setLike_track (url : string) (entry : DnaEntry) (s : State) :
  setLike s → setLike (track url entry s).
Proof.
  unfold setLike, track, saveResearchedURL. simpl.
  intros (H1 & H2 & H3 & H4 & H5 & H6 & H7 & H8 & H9 & H10 & H11 & H12 & H13).
  destruct (Js.includes url (researchedURLs s)) eqn:Hin; simpl;
    split_and!; try done;
    try (by apply NoDup_push_truthy); try (by apply NoDup_push_unique).
  apply includes_false in Hin.
  apply NoDup_app. split_and!; [done| |apply NoDup_singleton].
  intros y Hy Hyx. apply list_elem_of_singleton in Hyx. by subst.
Qed.

Lemma setLike_seedOne (s : State) (url : string) :
  setLike s → setLike (seedOne env s url).
Proof.
  intros Hs. rewrite seedOne_eq. cbv zeta.
  destruct (profiled env url); [|done].
  apply setLike_track. by apply (setLike_mergeDna _ _ (add_network _ s)).
Qed.

Lemma setLike_foldl (urls : list string) (s : State) :
  setLike s → setLike (foldl (seedOne env) s urls).
Proof.
  revert s. induction urls as [|u urls IH]; intros s Hs; simpl; [done|].
  apply IH. by apply setLike_seedOne.
Qed.

(** The watchlist through one seed. *)
Lemma seedOne_watchlist (s : State) (url : string) :
  watchlist (seedOne env s url)
  = if profiled env url
    then {| ips := push_truthy (e_ip (dnaEntryOf env url)) (ips (watchlist s));
            subnets := push_truthy (e_subnet (dnaEntryOf env url))
                         (subnets (watchlist s));
            fingerprints := fingerprints (watchlist s) ++ [dnaEntryOf env url] |}
    else watchlist s.
Proof.
  rewrite seedOne_eq. cbv zeta. destruct (profiled env url); [|done].
  unfold track, saveResearchedURL. simpl.
  by destruct (Js.includes url _).
Qed.

Lemma covered_seedOne (s : State) (url : string) :
  covered (watchlist s) → covered (watchlist (seedOne env s url)).
Proof.
  intros Hc. rewrite seedOne_watchlist.
  destruct (profiled env url); [|done].
  intros e He. simpl in *. apply elem_of_app in He as [He|He].
  - destruct (Hc e He) as [Hi Hs]. split.
    + intros a Ha Hne. apply elem_of_push_truthy. left. by apply Hi.
    + intros sn Hsn Hne. apply elem_of_push_truthy. left. by apply Hs.
  - apply list_elem_of_singleton in He as ->. split.
    + intros a Ha Hne. apply elem_of_push_truthy. by right.
    + intros sn Hsn Hne. apply elem_of_push_truthy. by right.
Qed.

Lemma covered_foldl (urls : list string) (s : State) :
  covered (watchlist s) → covered (watchlist (foldl (seedOne env) s urls)).
Proof.
  revert s. induction urls as [|u urls IH]; intros s Hs; simpl; [done|].
  apply IH. by apply covered_seedOne.
Qed.

(** What one seed leaves in the watchlist stays there. *)
Lemma foldl_seedOne_keeps (urls : list string) (s : State) :
  (∀ a, a ∈ ips (watchlist s) →
        a ∈ ips (watchlist (foldl (seedOne env) s urls)))
  ∧ (∀ sn, sn ∈ subnets (watchlist s) →
           sn ∈ subnets (watchlist (foldl (seedOne env) s urls))).
Proof.
  revert s. induction urls as [|u urls IH]; intros s; simpl; [done|].
  destruct (IH (seedOne env s u)) as [Hi Hs].
  split.
  - intros a Ha. apply Hi. rewrite seedOne_watchlist.
    destruct (profiled env u); [|done]. simpl.
    apply elem_of_push_truthy. by left.
  - intros sn Hsn. apply Hs. rewrite seedOne_watchlist.
    destruct (profiled env u); [|done]. simpl.
    apply elem_of_push_truthy. by left.
Qed.

(** A new URL that fingerprints without error leaves its address and its
    subnet in the watchlist, and the watchlist in the file. *)
Lemma profileSeedURLs_adds (urls : list string) (s : State) (u : string) :
  u ∈ urls → u ∉ researchedURLs s → profiled env u = true →
  watchlistFile (profileSeedURLs env urls s)
  = Some (watchlist (profileSeedURLs env urls s))
  ∧ profileFile (profileSeedURLs env urls s)
    = Some (profile (profileSeedURLs env urls s))
  ∧ (∀ a, e_ip (dnaEntryOf env u) = Some a → a ≠ "" →
          a ∈ ips (watchlist (profileSeedURLs env urls s)))
  ∧ (∀ sn, e_subnet (dnaEntryOf env u) = Some sn → sn ≠ "" →
           sn ∈ subnets (watchlist (profileSeedURLs env urls s))).
Proof.
  intros Hu Hnew Hp. unfold profileSeedURLs.
  change (researchedURLs (ensureSeedUrls s)) with (researchedURLs s).
  assert (u ∈ filter (λ url, Js.includes url (researchedURLs s) = false) urls)
    as Hin.
  { apply list_elem_of_filter. split; [|done]. by apply includes_false. }
  destruct (filter _ urls) as [|v new] eqn:Hf.
  { by apply elem_of_nil in Hin. }
  split; [done|]. split; [done|].
  change (watchlist (saveAll ?x)) with (watchlist x).
  revert Hin. generalize (v :: new). generalize (ensureSeedUrls s).
  clear Hf. intros s0 l. revert s0.
  induction l as [|w l IH]; intros s0 Hin; [by apply elem_of_nil in Hin|].
  simpl. apply elem_of_cons in Hin as [<-|Hin]; [|by apply IH].
  destruct (foldl_seedOne_keeps l (seedOne env s0 u)) as [Hi Hs].
  split.
  - intros a Ha Hne. apply Hi. rewrite seedOne_watchlist, Hp. simpl.
    apply elem_of_push_truthy. by right.
  - intros sn Hsn Hne. apply Hs. rewrite seedOne_watchlist, Hp. simpl.
    apply elem_of_push_truthy. by right.
Qed.

End ResearchInvariants.

(** X15. The arrays that research mode keeps as sets stay duplicate-free:
    if the watchlist's [ips] and [subnets], the ledger, the profile's
    [seed_urls], its infrastructure lists and the seven lists of its deep
    DNA hold no value twice, the same is true after [profileSeedURLs]. *)
Theorem profileSeedURLs_keeps_sets
    (env : Scraper.Env) (urls : list string) (s : Research.State) :
  Research.setLike s →
  Research.setLike (Research.profileSeedURLs env urls s).
Proof.
  intros Hs. unfold Research.profileSeedURLs.
  assert (Research.setLike (Research.ensureSeedUrls s)) as Hs0.
  { unfold Research.setLike in *. simpl.
    by destruct (Research.seed_urls (Research.profile s)). }
  destruct (filter _ urls) as [|u new]; [done|].
  assert (∀ x, Research.setLike x → Research.setLike (Research.saveAll x))
    as Hsave by done.
  apply Hsave. by apply setLike_foldl.
Qed.

Lemma profileSeedURLs_keeps_sets_witness :
  Research.setLike
    (Research.profileSeedURLs (ScraperScenario.env true false false)
       ["https://thewhitecat.fun"; "https://thewhitecat.fun"]
       ScraperScenario.fresh).
Proof.
  apply (profileSeedURLs_keeps_sets (ScraperScenario.env true false false)
           ["https://thewhitecat.fun"; "https://thewhitecat.fun"]
           ScraperScenario.fresh).
  unfold Research.setLike. simpl. split_and!; constructor.
Defined.

(** X16. Every fingerprint of the watchlist keeps its address and its
    subnet in the watchlist: if each entry of [watchlist.fingerprints] has
    its non-empty [ip] in [watchlist.ips] and its non-empty [subnet] in
    [watchlist.subnets], the same holds after [profileSeedURLs], for the
    appended entries too. *)
Theorem profileSeedURLs_keeps_covered
    (env : Scraper.Env) (urls : list string) (s : Research.State) :
  Research.covered (Research.watchlist s) →
  Research.covered (Research.watchlist (Research.profileSeedURLs env urls s)).
Proof.
  intros Hc. unfold Research.profileSeedURLs.
  destruct (filter _ urls) as [|u new]; [done|].
  change (Research.watchlist (Research.saveAll ?x)) with (Research.watchlist x).
  by apply covered_foldl.
Qed.

Lemma profileSeedURLs_keeps_covered_witness :
  Research.covered
    (Research.watchlist
       (Research.profileSeedURLs (ScraperScenario.env true false false)
          ScraperScenario.seeds ScraperScenario.fresh)).
Proof.
  apply (profileSeedURLs_keeps_covered (ScraperScenario.env true false false)
           ScraperScenario.seeds ScraperScenario.fresh).
  intros e He. by apply elem_of_nil in He.
Defined.

(** ** The ledger file *)

Section Ledger.

Lemma split_join_lines (urls : list string) :
  Forall (λ u, Js.free_of Js.LF u = true) urls → urls ≠ [] →
  Js.split Js.LF (Research.ledgerText urls) = urls.
Proof.
  unfold Js.split, Research.ledgerText.
  induction urls as [|x [|y rest] IH]; intros Hall Hne; [done|..].
  - simpl. apply Forall_cons in Hall as [Hx _].
    by rewrite split_go_last.
  - apply Forall_cons in Hall as [Hx Hrest].
    change (Js.join (String Js.LF "") (x :: y :: rest))
      with (x +:+ String Js.LF (Js.join (String Js.LF "") (y :: rest))).
    rewrite split_go_part by done. rewrite append_nil_l.
    f_equal. by apply IH.
Qed.

Lemma clean_line_facts (u : string) :
  Js.clean_line u = true →
  u ≠ "" ∧ Js.free_of Js.LF u = true ∧ Js.trim u = u.
Proof.
  unfold Js.clean_line. intros H.
  apply andb_true_iff in H as [H Ht]. apply andb_true_iff in H as [Hn Hf].
  apply negb_true_iff, bool_decide_eq_false in Hn.
  by apply bool_decide_eq_true in Ht.
Qed.

End Ledger.

(** X17. The ledger file reads back as it was written: for URLs that are
    not empty, hold no line feed, have no white space at either end and do
    not start with [#], [loadResearchedURLs] applied to the text that
    [saveResearchedURL] writes ([join] with line feeds) returns the same
    list; a missing file and the empty text give the empty ledger. *)
Theorem ledger_round_trip (urls : list string) :
  Forall (λ u, Js.clean_line u = true ∧ Js.startsWith "#" u = false) urls →
  Research.loadResearchedURLs (Some (Research.ledgerText urls)) = urls
  ∧ Research.loadResearchedURLs None = []
  ∧ Research.loadResearchedURLs (Some "") = [].
Proof.
  intros Hall. split; [|split; reflexivity].
  destruct urls as [|x rest]; [reflexivity|].
  unfold Research.loadResearchedURLs.
  rewrite split_join_lines; [| |done].
  2:{ eapply Forall_impl; [exact Hall|].
      intros u [Hc _]. apply clean_line_facts in Hc as (_ & Hf & _).
      exact Hf. }
  generalize (x :: rest) Hall. clear.
  induction l as [|u l IH]; intros Hall; [done|].
  apply Forall_cons in Hall as [[Hc Hh] Hall].
  apply clean_line_facts in Hc as (Hne & _ & Ht).
  simpl. rewrite Ht, filter_cons_True.
  - f_equal. by apply IH.
  - split; [|done]. by destruct u.
Qed.

Lemma ledger_round_trip_witness :
  Research.loadResearchedURLs
    (Some (Research.ledgerText ScraperScenario.seeds))
  = ScraperScenario.seeds.
Proof.
  apply (ledger_round_trip ScraperScenario.seeds).
  repeat constructor.
Defined.

(** ** [matchFingerprints] *)

Section MatchFingerprints.

Import Research.

Lemma firstMatch_sound (h : option string) (vars : list (string * string))
    (knowns : list DnaEntry) (r : MatchResult) :
  firstMatch h vars knowns = Some r →
  ∃ known, known ∈ knowns ∧ matchKnown h vars known = Some r.
Proof.
  induction knowns as [|k knowns IH]; simpl; [done|].
  destruct (matchKnown h vars k) as [r'|] eqn:Hk.
  - intros [= <-]. exists k. split; [by left|done].
  - intros H. destruct (IH H) as (known & Hin & Hm).
    exists known. split; [by right|done].
Qed.

(** When all layers failed, the fields are the empty ones. *)
Lemma fingerprintSite_dns_ssl_only (env : Scraper.Env) (url : string) :
  Scraper.fp_extracted_via (Scraper.fingerprintSite env url).1
  = Some "DNS_SSL_ONLY" →
  Scraper.fp_fields (Scraper.fingerprintSite env url).1
  = Some Scraper.dnsSslOnly
  ∧ Scraper.fp_error (Scraper.fingerprintSite env url).1 = None.
Proof.
  unfold Scraper.fingerprintSite.
  destruct (Scraper.hostnameOf env url) as [h|msg]; [|done].
  destruct (Scraper.resolve4 env h) as [addresses|msg]; [|done].
  unfold Scraper.layers, Scraper.cascade,
    Scraper.extractUsingHTMLParser, Scraper.extractUsingRemoteBrowser,
    Scraper.extractUsingLocalBrowser.
  destruct (Scraper.htmlParser env url); [done|]. simpl.
  destruct (Scraper.remoteBrowserEndpoint env) as [ep|].
  - destruct (Scraper.remoteBrowser env ep url); [done|]. simpl.
    by destruct (Scraper.localBrowser env url).
  - simpl. by destruct (Scraper.localBrowser env url).
Qed.

End MatchFingerprints.

(** X18. A result of [matchFingerprints] always refers to an entry of the
    watchlist: the site fingerprinted without error, and either the entry
    has the same [dom_hash] ([dom_match], confidence [high]) or the site
    declares at least one CSS variable for which the entry holds a
    non-empty value ([css_match], confidence [medium], the shared names
    listed). With an empty watchlist, or when fingerprinting reports an
    error, the result is null. *)
Theorem matchFingerprints_sound
    (env : Scraper.Env) (newDomain : string) (w : Research.Watchlist) :
  let url := "https://" +:+ newDomain in
  let f := default Scraper.dnsSslOnly
             (Scraper.fp_fields (Scraper.fingerprintSite env url).1) in
  (∀ r, (Research.matchFingerprints env newDomain w).1 = Some r →
     Research.profiled env url = true
     ∧ ∃ known,
         known ∈ Research.fingerprints w
         ∧ Research.knownURL r = Research.e_url known
         ∧ ((Research.m_type r = "dom_match"
             ∧ Research.m_confidence r = "high"
             ∧ Research.e_dom_hash known = Scraper.dom_hash f)
            ∨ (Research.m_type r = "css_match"
               ∧ Research.m_confidence r = "medium"
               ∧ Research.sharedVars r ≠ []
               ∧ ∀ v, v ∈ Research.sharedVars r →
                      v ∈ map fst (Scraper.css_vars f)
                      ∧ ∃ val, Research.property v (Research.e_css_vars known)
                               = Some val ∧ val ≠ "")))
  ∧ (Research.fingerprints w = [] →
     (Research.matchFingerprints env newDomain w).1 = None)
  ∧ (Research.profiled env url = false →
     (Research.matchFingerprints env newDomain w).1 = None)
  ∧ (Research.matchFingerprints env newDomain w).2
    = (Scraper.fingerprintSite env url).2.
Proof.
  intros url f. subst url f.
  unfold Research.matchFingerprints, Research.profiled.
  destruct (Scraper.fingerprintSite env ("https://" +:+ newDomain))
    as [fp calls]. simpl.
  destruct (Js.truthy (Scraper.fp_error fp)); simpl.
  { split_and!; done. }
  split_and!; try done; [|by intros ->].
  intros r Hr. split; [done|].
  apply firstMatch_sound in Hr as (known & Hin & Hm).
  exists known. split; [done|].
  unfold Research.matchKnown in Hm.
  destruct (decide (Research.e_dom_hash known = _)) as [Heq|Hne].
  { injection Hm as <-. simpl. split; [done|]. by left. }
  destruct (filter _ (map fst _)) as [|v shared] eqn:Hf; [done|].
  injection Hm as <-. simpl. split; [done|]. right.
  split_and!; try done.
  intros x Hx. rewrite <- Hf in Hx.
  apply list_elem_of_filter in Hx as [Ht Hx]. split; [done|].
  destruct (Research.property x (Research.e_css_vars known)) as [[|c val]|];
    try done.
  by eexists.
Qed.

(** X19. Two sites whose structural extraction failed count as the same
    site: when fingerprinting fell back to [DNS_SSL_ONLY] (null
    [dom_hash]) and the first entry of the watchlist has a null [dom_hash]
    too, [matchFingerprints] reports a [dom_match] with that entry, with
    confidence [high]. *)
Theorem matchFingerprints_null_hashes_match
    (env : Scraper.Env) (newDomain : string) (w : Research.Watchlist)
    (known : Research.DnaEntry) (rest : list Research.DnaEntry) :
  Scraper.fp_extracted_via
    (Scraper.fingerprintSite env ("https://" +:+ newDomain)).1
  = Some "DNS_SSL_ONLY" →
  Research.fingerprints w = known :: rest →
  Research.e_dom_hash known = None →
  (Research.matchFingerprints env newDomain w).1
  = Some {| Research.m_type := "dom_match";
            Research.knownURL := Research.e_url known;
            Research.sharedVars := [];
            Research.m_confidence := "high" |}.
Proof.
  intros Hvia Hw Hnull.
  apply fingerprintSite_dns_ssl_only in Hvia as [Hf He].
  unfold Research.matchFingerprints.
  destruct (Scraper.fingerprintSite env ("https://" +:+ newDomain))
    as [fp calls]. simpl in *.
  rewrite He, Hf, Hw. simpl.
  unfold Research.matchKnown. rewrite Hnull. simpl.
  first [done | by rewrite decide_True].
Qed.

Lemma matchFingerprints_null_hashes_match_witness :
  let w := Research.watchlist
             (Research.profileSeedURLs (ScraperScenario.env false false false)
                ["https://thewhitecat.fun"] ScraperScenario.fresh) in
  ∃ known rest,
    Research.fingerprints w = known :: rest
    ∧ (Research.matchFingerprints (ScraperScenario.env false false false)
         "example.com" w).1
      = Some {| Research.m_type := "dom_match";
                Research.knownURL := "https://thewhitecat.fun";
                Research.sharedVars := [];
                Research.m_confidence := "high" |}.
Proof.
  intros w. eexists _, _. split; [reflexivity|].
  exact (matchFingerprints_null_hashes_match
           (ScraperScenario.env false false false) "example.com" w _ _
           eq_refl eq_refl eq_refl).
Defined.

(** ** The shape of a fingerprint *)

(** X20. [fingerprintSite] returns for every URL a record for that URL
    which has either an [error] or the structural fields together with
    [extracted_via], never both and never neither. A URL that does not
    parse causes no network call; otherwise the TLS probe and the DNS
    lookup of the URL's host come first, once each, followed only by layer
    calls for that URL, and the [ssl] field is set. *)
Theorem fingerprintSite_shape (env : Scraper.Env) (url : string) :
  let fp := (Scraper.fingerprintSite env url).1 in
  let calls := (Scraper.fingerprintSite env url).2 in
  Scraper.fp_url fp = url
  ∧ (Scraper.fp_error fp = None ↔ is_Some (Scraper.fp_fields fp))
  ∧ (is_Some (Scraper.fp_fields fp) ↔ is_Some (Scraper.fp_extracted_via fp))
  ∧ (∀ msg, Scraper.hostnameOf env url = Scraper.Throws msg →
       calls = [] ∧ Scraper.fp_error fp = Some msg)
  ∧ (∀ h, Scraper.hostnameOf env url = Scraper.Returns h →
       is_Some (Scraper.fp_ssl fp)
       ∧ ∃ tiers, calls = Scraper.SslProbe h :: Scraper.DnsResolve h
                          :: map (λ t, Scraper.Layer t url) tiers).
Proof.
  unfold Scraper.fingerprintSite.
  destruct (Scraper.hostnameOf env url) as [h|msg] eqn:Hh.
  2:{ simpl. split_and!;
        first [ done
              | by split; [|intros [? ?]]
              | by split; intros [? ?]
              | by intros m [= <-] ]. }
  destruct (Scraper.resolve4 env h) as [addresses|msg] eqn:Hr.
  2:{ simpl. split_and!;
        first [ done
              | by split; [|intros [? ?]]
              | by split; intros [? ?]
              | intros h' [= <-]; split; [done|]; by exists [] ]. }
  destruct (Scraper.cascade (Scraper.layers env url) None)
    as [res invoked] eqn:Hc.
  destruct res as [[|e via]|]; simpl; split_and!;
    first [ done
          | by split; [|intros _; eexists]
          | by split; intros _; eexists
          | intros h' [= <-]; split; [done|]; by exists invoked ].
Qed.

(** ** The bot *)

Section BotFacts.

Lemma listener_agrees (w : Research.Watchlist) (cfg : Listener.Config)
    (addr : string) :
  Listener.watchlist cfg = Some (Bot.listenerWatchlist w) →
  Listener.isIPWatched cfg addr = Research.isIPWatched w addr.
Proof.
  intros Hw. unfold Listener.isIPWatched, Research.isIPWatched.
  rewrite Hw. simpl.
  destruct (Js.includes addr (Research.ips w)); [done|].
  by destruct (Js.split "." addr) as [|p0 [|p1 [|p2 [|p3 [|? ?]]]]].
Qed.

Lemma runDNALockPhase_Some (s : Research.State) (cfg cfg' : Listener.Config) :
  Bot.runDNALockPhase s cfg = Some cfg' →
  Listener.watchlist cfg'
  = Some (Bot.listenerWatchlist (Research.loadWatchlist s))
  ∧ Listener.profile cfg'
    = Some (Bot.listenerProfile (Research.loadProfile s))
  ∧ Listener.domainPatterns cfg' = Listener.domainPatterns cfg
  ∧ Listener.resolve4 cfg' = Listener.resolve4 cfg.
Proof.
  unfold Bot.runDNALockPhase.
  destruct (Research.ips (Research.loadWatchlist s)); [done|].
  by intros [= <-].
Qed.

End BotFacts.

(** X21. The DNA lock hands the listener the watchlist of research mode
    unchanged in meaning: it fails exactly when the saved watchlist has no
    IP, and after it the listener's [isIPWatched] answers every address as
    research mode's own [isIPWatched] does on the saved watchlist; the
    naming patterns are untouched. *)
Theorem dna_lock_agrees
    (s : Research.State) (cfg : Listener.Config) :
  (Bot.runDNALockPhase s cfg = None
   ↔ Research.ips (Research.loadWatchlist s) = [])
  ∧ ∀ cfg', Bot.runDNALockPhase s cfg = Some cfg' →
      Listener.domainPatterns cfg' = Listener.domainPatterns cfg
      ∧ ∀ addr, Listener.isIPWatched cfg' addr
                = Research.isIPWatched (Research.loadWatchlist s) addr.
Proof.
  split.
  - unfold Bot.runDNALockPhase.
    by destruct (Research.ips (Research.loadWatchlist s)).
  - intros cfg' Hlock.
    apply runDNALockPhase_Some in Hlock as (Hw & _ & Hp & _).
    split; [done|]. intros addr. by apply listener_agrees.
Qed.

(** X22. Research, then lock, then listen: when a seed URL that is not in
    the ledger fingerprints without error and its host resolved to
    [x.y.z.w], then after [profileSeedURLs] the DNA lock succeeds and the
    listener watches every address of the /24 [x.y.z.*]. *)
Theorem seeded_subnet_is_watched
    (env : Scraper.Env) (urls : list string) (s : Research.State)
    (cfg : Listener.Config) (u x y z w : string) :
  u ∈ urls → u ∉ Research.researchedURLs s →
  Research.profiled env u = true →
  Scraper.fp_ip (Scraper.fingerprintSite env u).1
  = Some (x +:+ "." +:+ y +:+ "." +:+ z +:+ "." +:+ w) →
  Js.free_of "." x = true → Js.free_of "." y = true →
  Js.free_of "." z = true → Js.free_of "." w = true →
  ∃ cfg',
    Bot.runDNALockPhase (Research.profileSeedURLs env urls s) cfg = Some cfg'
    ∧ ∀ w', Js.free_of "." w' = true →
        Listener.isIPWatched cfg'
          (x +:+ "." +:+ y +:+ "." +:+ z +:+ "." +:+ w') = true.
Proof.
  intros Hu Hnew Hp Hip Hx Hy Hz Hw.
  destruct (profileSeedURLs_adds env urls s u Hu Hnew Hp)
    as (Hfile & _ & Hips & Hsubs).
  assert (Research.e_ip (Research.dnaEntryOf env u)
          = Some (x +:+ "." +:+ y +:+ "." +:+ z +:+ "." +:+ w)) as Hea
    by exact Hip.
  assert (Research.e_subnet (Research.dnaEntryOf env u)
          = Some (x +:+ "." +:+ y +:+ "." +:+ z +:+ ".0/24")) as Hes.
  { unfold Research.dnaEntryOf. simpl. rewrite Hip, truthy_dotted. simpl.
    unfold Research.extractSubnet. by rewrite split_dotted_quad. }
  apply Hips in Hea; [|by destruct x].
  apply Hsubs in Hes; [|by destruct x].
  unfold Bot.runDNALockPhase, Research.loadWatchlist. rewrite Hfile. simpl.
  destruct (Research.ips (Research.watchlist
              (Research.profileSeedURLs env urls s))) as [|a l] eqn:Hl.
  { by apply elem_of_nil in Hea. }
  eexists. split; [reflexivity|].
  intros w' Hw'.
  eapply isIPWatched_subnet; try done.
Qed.

Lemma seeded_subnet_is_watched_witness :
  ∃ cfg',
    Bot.runDNALockPhase
      (Research.profileSeedURLs (ScraperScenario.env true false false)
         ScraperScenario.seeds ScraperScenario.fresh) Scenario.bare
    = Some cfg'
    ∧ ∀ w', Js.free_of "." w' = true →
        Listener.isIPWatched cfg' ("159" +:+ "." +:+ "198" +:+ "." +:+ "65"
                                   +:+ "." +:+ w') = true.
Proof.
  apply (seeded_subnet_is_watched (ScraperScenario.env true false false)
           ScraperScenario.seeds ScraperScenario.fresh Scenario.bare
           "https://thewhitecat.fun" "159" "198" "65" "253");
    try reflexivity.
  - by left.
  - apply not_elem_of_nil.
Defined.

(** X23. The bot acts on [IP_MATCH] and [PATTERN_MATCH] only: for every
    alert that [processDomains] emits, [handleCabalDetection] either
    appends exactly one line to the detection log, or the alert is an
    [SSL_ISSUER_MATCH] and the handler does nothing at all: no
    verification, no log line, no Telegram message. *)
Theorem bot_ignores_issuer_matches
    (env : Scraper.Env) (configured : bool)
    (cfg : Listener.Config) (domains : list string)
    (certData : Listener.CertData) (s : Listener.State) :
  ∃ new,
    Listener.alerts (Listener.processDomains cfg domains certData s)
    = Listener.alerts s ++ new
    ∧ Forall (λ a, ∀ st,
        (Listener.matchType a = "SSL_ISSUER_MATCH"
         ∧ Bot.handleCabalDetection env configured a st = st)
        ∨ (Listener.matchType a ≠ "SSL_ISSUER_MATCH"
           ∧ ∃ line,
               Bot.detections (Bot.handleCabalDetection env configured a st)
               = Bot.detections st ++ [line]
               ∧ Bot.det_domain line = Listener.domain a
               ∧ Bot.det_matchType line = Listener.matchType a)) new.
Proof.
  destruct (processDomains_alerts cfg certData domains s)
    as (new & Hnew & Hcl & _).
  exists new. split; [done|].
  eapply Forall_impl; [exact Hcl|].
  intros a Hclass st. unfold Bot.handleCabalDetection.
  destruct Hclass as [[Ht _]|[[Ht _]|[Ht _]]]; rewrite Ht; simpl.
  - right. split; [done|].
    destruct (Scraper.fingerprintSite env _) as [fp calls1].
    destruct (Research.matchFingerprints env _ _) as [m calls2].
    simpl. by eexists.
  - by left.
  - right. split; [done|]. by eexists.
Qed.

(** X24. The verification of an [IP_MATCH] fingerprints the site twice:
    for an alert whose domain does not start with [http], the handler's
    network calls are the calls of [fingerprintSite] on
    [https://<domain>] followed by the same calls again (made by
    [matchFingerprints]), and the logged line carries the result of
    [matchFingerprints]. *)
Theorem ip_match_verification_fetches_twice
    (env : Scraper.Env) (configured : bool) (a : Listener.Alert)
    (st : Bot.State) :
  Listener.matchType a = "IP_MATCH" →
  Js.startsWith "http" (Listener.domain a) = false →
  let calls :=
    (Scraper.fingerprintSite env ("https://" +:+ Listener.domain a)).2 in
  let st' := Bot.handleCabalDetection env configured a st in
  Bot.network st' = Bot.network st ++ calls ++ calls
  ∧ ∃ line,
      Bot.detections st' = Bot.detections st ++ [line]
      ∧ Bot.det_fingerprintMatch line
        = (Research.matchFingerprints env (Listener.domain a)
             (Research.watchlist (Bot.research st))).1.
Proof.
  intros Ht Hs calls st'. subst calls st'.
  unfold Bot.handleCabalDetection. rewrite Ht, Hs. simpl.
  unfold Research.matchFingerprints.
  destruct (Scraper.fingerprintSite env ("https://" +:+ Listener.domain a))
    as [fp calls]. simpl.
  destruct (Js.truthy (Scraper.fp_error fp)); simpl; split; try done;
    by eexists.
Qed.

Lemma ip_match_verification_fetches_twice_witness :
  let a := Listener.mkAlert "whitecat.fun" (Some "159.198.65.100")
             (Scenario.cert "whitecat.fun" "Sectigo" 0 1)
             "IP_MATCH" "CRITICAL" None None in
  let st := {| Bot.research := ScraperScenario.seeded; Bot.detections := [];
               Bot.telegrams := []; Bot.network := [] |} in
  length (Bot.network
            (Bot.handleCabalDetection (ScraperScenario.env true false false)
               true a st)) = 6%nat.
Proof.
  intros a st.
  destruct (ip_match_verification_fetches_twice
              (ScraperScenario.env true false false) true a st
              eq_refl eq_refl) as [H _].
  rewrite H. reflexivity.
Defined.

(** ** The store bridge *)

Section BridgeFacts.

Import Bridge.

Variable cfg : Listener.Config.

Local Instance byIndex_trans : Transitive byIndex.
Proof. intros r1 r2 r3. unfold byIndex. lia. Qed.

Local Instance byIndex_total : Total byIndex.
Proof. intros r1 r2. unfold byIndex. lia. Qed.

(** What [getUnprocessedCertificates] returns. *)
Lemma batch_selected (st : State) (r : Row) :
  r ∈ getUnprocessedCertificates st →
  r ∈ db st ∧ lastProcessedCertIndex st < cert_index r ∧ processed r = false.
Proof.
  unfold getUnprocessedCertificates. intros Hr.
  apply subseteq_take in Hr.
  rewrite merge_sort_Permutation in Hr.
  apply list_elem_of_filter in Hr as [Hsel Hin].
  unfold selected in Hsel. apply andb_true_iff in Hsel as [Hlt Hp].
  apply Z.ltb_lt in Hlt. apply negb_true_iff in Hp. done.
Qed.

Lemma batch_sorted (st : State) :
  StronglySorted byIndex (getUnprocessedCertificates st).
Proof.
  unfold getUnprocessedCertificates.
  set (l := merge_sort byIndex _).
  assert (StronglySorted byIndex l) as Hs
    by apply (StronglySorted_merge_sort byIndex).
  rewrite <- (take_drop 100 l) in Hs.
  by apply StronglySorted_app_1_l in Hs.
Qed.

(** The index after a batch is the old one or that of a delivered row. *)
Lemma foldl_deliver_last (l : list Row) (st : State) :
  lastProcessedCertIndex (foldl (deliver cfg) st l) = lastProcessedCertIndex st
  ∨ ∃ r, r ∈ l ∧ is_Some (domains r)
         ∧ lastProcessedCertIndex (foldl (deliver cfg) st l) = cert_index r.
Proof.
  revert st. induction l as [|r l IH]; intros st; simpl; [by left|].
  destruct (IH (deliver cfg st r)) as [Heq|(r' & Hin & Hd & Heq)].
  - rewrite Heq. unfold deliver.
    destruct (domains r) as [ds|] eqn:Hds; [|by left].
    right. exists r. split_and!; [by left|by rewrite Hds|done].
  - right. exists r'. split_and!; [by right|done|done].
Qed.

(** In a batch sorted by index, the index ends at least as high as every
    delivered row. *)
Lemma foldl_deliver_last_ge (l : list Row) (st : State) (r : Row) :
  StronglySorted byIndex l →
  r ∈ l → is_Some (domains r) →
  cert_index r ≤ lastProcessedCertIndex (foldl (deliver cfg) st l).
Proof.
  revert st. induction l as [|r0 l IH]; intros st Hs Hin Hd.
  { by apply elem_of_nil in Hin. }
  apply StronglySorted_inv in Hs as [Hs Hall].
  simpl. apply elem_of_cons in Hin as [->|Hin]; [|by apply IH].
  destruct (foldl_deliver_last l (deliver cfg st r0))
    as [Heq|(r' & Hin' & _ & Heq)]; rewrite Heq.
  - unfold deliver. destruct Hd as [ds ->]. simpl. lia.
  - by apply (proj1 (Forall_forall _ _) Hall).
Qed.

(** Marking never clears a flag, and marks every row of the index. *)
Lemma mark_keeps (i j : Z) (rows : list Row) :
  (∀ r, r ∈ rows → cert_index r = i → processed r = true) →
  ∀ r, r ∈ markCertificateProcessed j rows → cert_index r = i →
       processed r = true.
Proof.
  intros H r Hr Hi. unfold markCertificateProcessed in Hr.
  apply list_elem_of_fmap in Hr as (r0 & -> & Hin).
  destruct (decide (cert_index r0 = j)); [done|]. by apply H.
Qed.

Lemma mark_sets (i : Z) (rows : list Row) :
  ∀ r, r ∈ markCertificateProcessed i rows → cert_index r = i →
       processed r = true.
Proof.
  intros r Hr Hi. unfold markCertificateProcessed in Hr.
  apply list_elem_of_fmap in Hr as (r0 & -> & Hin).
  destruct (decide (cert_index r0 = i)) as [|Hne]; [done|].
  by destruct Hne.
Qed.

Lemma foldl_deliver_keeps (i : Z) (l : list Row) (st : State) :
  (∀ r, r ∈ db st → cert_index r = i → processed r = true) →
  ∀ r, r ∈ db (foldl (deliver cfg) st l) → cert_index r = i →
       processed r = true.
Proof.
  revert st. induction l as [|r0 l IH]; intros st H; simpl; [done|].
  apply IH. unfold deliver. destruct (domains r0); [|done].
  simpl. by apply mark_keeps.
Qed.

Lemma foldl_deliver_marks (l : list Row) (st : State) (r0 : Row) :
  r0 ∈ l → is_Some (domains r0) →
  ∀ r, r ∈ db (foldl (deliver cfg) st l) → cert_index r = cert_index r0 →
       processed r = true.
Proof.
  revert st. induction l as [|r1 l IH]; intros st Hin Hd.
  { by apply elem_of_nil in Hin. }
  simpl. apply elem_of_cons in Hin as [->|Hin]; [|by apply IH].
  apply foldl_deliver_keeps. unfold deliver. destruct Hd as [ds ->].
  simpl. apply mark_sets.
Qed.

(** A message built by the bridge carries no issuer organisation. *)
Lemma bridge_alerts (ds : list string) (s : Listener.State) :
  ∃ new,
    Listener.alerts
      (Listener.handleCertificateMessage cfg (bridgeMessage ds) s)
    = Listener.alerts s ++ new
    ∧ Forall (λ a,
        (Listener.matchType a = "IP_MATCH"
         ∨ Listener.matchType a = "PATTERN_MATCH")
        ∧ Listener.alert_issuer a = None) new.
Proof.
  unfold bridgeMessage. simpl.
  match goal with
  | |- context [Listener.processDomains cfg ?l ?cd ?s0] =>
      destruct (processDomains_effects cfg cd l s0) as (new & Ha & Ho & _)
  end.
  exists new. split; [done|].
  eapply Forall_impl; [exact Ho|].
  intros a [_ Horig].
  destruct (Listener.watchedByIP cfg (Listener.domain a)).
  - rewrite Horig. simpl. split; [by left|done].
  - destruct Horig as [_ Horig]. rewrite Horig.
    unfold Listener.gatedAlert, Listener.performDeepDNAMatch,
      Listener.patternResult. simpl.
    destruct (Listener.profile cfg) as [p|]; [|split; [by right|done]].
    destruct (Listener.deep_dna p); [|split; [by right|done]].
    destruct (Listener.matchesAny cfg (Listener.domain a));
      split; try done; by right.
Qed.

Lemma foldl_deliver_alerts (l : list Row) (st : State) :
  ∃ new,
    Listener.alerts (listener (foldl (deliver cfg) st l))
    = Listener.alerts (listener st) ++ new
    ∧ Forall (λ a,
        (Listener.matchType a = "IP_MATCH"
         ∨ Listener.matchType a = "PATTERN_MATCH")
        ∧ Listener.alert_issuer a = None) new.
Proof.
  revert st. induction l as [|r l IH]; intros st; simpl.
  { exists []. by rewrite app_nil_r. }
  destruct (IH (deliver cfg st r)) as (new2 & Ha2 & Hf2).
  destruct (domains r) as [ds|] eqn:Hds.
  - assert (listener (deliver cfg st r)
            = Listener.handleCertificateMessage cfg (bridgeMessage ds)
                (listener st)) as Hl.
    { unfold deliver. by rewrite Hds. }
    rewrite Hl in Ha2.
    destruct (bridge_alerts ds (listener st)) as (new1 & Ha1 & Hf1).
    exists (new1 ++ new2). rewrite Ha2, Ha1, <- (assoc_L (++)).
    split; [done|]. by apply Forall_app.
  - assert (deliver cfg st r = st) as Hst.
    { unfold deliver. by rewrite Hds. }
    rewrite Hst in Ha2. rewrite Hst. by exists new2.
Qed.

End BridgeFacts.

(** X25. No alert raised through the store bridge is an
    [SSL_ISSUER_MATCH]: the message the bridge builds has an issuer with a
    [CN] only, so every alert raised during [poll] is an [IP_MATCH] or a
    [PATTERN_MATCH], and its [issuer] field is undefined. *)
Theorem bridge_never_matches_issuer
    (cfg : Listener.Config) (st : Bridge.State) :
  ∃ new,
    Listener.alerts (Bridge.listener (Bridge.poll cfg st))
    = Listener.alerts (Bridge.listener st) ++ new
    ∧ Forall (λ a,
        (Listener.matchType a = "IP_MATCH"
         ∨ Listener.matchType a = "PATTERN_MATCH")
        ∧ Listener.alert_issuer a = None) new.
Proof. apply foldl_deliver_alerts. Qed.

(** X26. A round of [poll] never moves [lastProcessedCertIndex] back, and
    it delivers a row at most once: after the round every row with the
    index of a delivered row is marked processed, and every row that the
    next [getUnprocessedCertificates] returns has a larger index. *)
Theorem poll_delivers_once (cfg : Listener.Config) (st : Bridge.State) :
  Bridge.lastProcessedCertIndex st
  ≤ Bridge.lastProcessedCertIndex (Bridge.poll cfg st)
  ∧ ∀ r, r ∈ Bridge.getUnprocessedCertificates st →
         is_Some (Bridge.domains r) →
         (∀ r', r' ∈ Bridge.db (Bridge.poll cfg st) →
                Bridge.cert_index r' = Bridge.cert_index r →
                Bridge.processed r' = true)
         ∧ (∀ r', r' ∈ Bridge.getUnprocessedCertificates (Bridge.poll cfg st) →
                  Bridge.cert_index r < Bridge.cert_index r').
Proof.
  unfold Bridge.poll. split.
  - destruct (foldl_deliver_last cfg (Bridge.getUnprocessedCertificates st) st)
      as [->|(r & Hin & _ & ->)]; [lia|].
    apply batch_selected in Hin as (_ & Hlt & _). lia.
  - intros r Hin Hd. split.
    + by apply foldl_deliver_marks.
    + intros r' Hr'. apply batch_selected in Hr' as (_ & Hlt & _).
      pose proof (foldl_deliver_last_ge cfg _ st r (batch_sorted st) Hin Hd).
      lia.
Qed.

(** X27. A row whose [domains] do not parse is never delivered, and it is
    skipped for good as soon as a later row of the same batch is
    delivered: no row with its index is returned again. If no row of the
    batch parses, the round changes nothing, so the same batch is returned
    at every later round. *)
Theorem poll_skips_unparseable
    (cfg : Listener.Config) (st : Bridge.State) :
  (∀ r r2,
     r ∈ Bridge.getUnprocessedCertificates st →
     r2 ∈ Bridge.getUnprocessedCertificates st →
     Bridge.domains r = None → is_Some (Bridge.domains r2) →
     Bridge.cert_index r < Bridge.cert_index r2 →
     ∀ r', r' ∈ Bridge.getUnprocessedCertificates (Bridge.poll cfg st) →
           Bridge.cert_index r' ≠ Bridge.cert_index r)
  ∧ (Forall (λ r, Bridge.domains r = None)
       (Bridge.getUnprocessedCertificates st) →
     Bridge.poll cfg st = st).
Proof.
  unfold Bridge.poll. split.
  - intros r r2 Hr Hr2 Hnone Hsome Hlt r' Hr'.
    apply batch_selected in Hr' as (_ & Hlast & _).
    pose proof (foldl_deliver_last_ge cfg _ st r2 (batch_sorted st) Hr2 Hsome).
    lia.
  - generalize (Bridge.getUnprocessedCertificates st).
    induction l as [|r l IH]; intros Hall; [done|].
    apply Forall_cons in Hall as [Hr Hall].
    simpl. unfold Bridge.deliver at 2. rewrite Hr. by apply IH.
Qed.

(** X28. The state file of the bridge reads back the index that was saved,
    except index 0, which reads back as -1; a missing file gives -1. *)
Theorem bridge_state_round_trip (st : Bridge.State) :
  Bridge.loadProcessedState (Bridge.stateFile (Bridge.saveProcessedState st))
  = (if Bridge.lastProcessedCertIndex st =? 0 then -1
     else Bridge.lastProcessedCertIndex st)
  ∧ (Bridge.lastProcessedCertIndex st ≠ 0 →
     Bridge.loadProcessedState
       (Bridge.stateFile (Bridge.saveProcessedState st))
     = Bridge.lastProcessedCertIndex st)
  ∧ Bridge.loadProcessedState None = -1.
Proof.
  simpl. split_and!; try done.
  intros Hne. by rewrite (proj2 (Z.eqb_neq _ _) Hne).
Qed.

Example bridge_round :
  let s := Bridge.poll Scenario.cfg BridgeScenario.start in
  map Bridge.cert_index
    (Bridge.getUnprocessedCertificates BridgeScenario.start) = [3; 5; 7; 9]
  ∧ Bridge.lastProcessedCertIndex s = 7
  ∧ map (λ a, (Listener.domain a, Listener.matchType a))
      (Listener.alerts (Bridge.listener s))
    = [("whitecat.fun", "IP_MATCH"); ("thebigdog.xyz", "PATTERN_MATCH")]
  ∧ map Bridge.cert_index (Bridge.getUnprocessedCertificates s) = [9].
Proof. vm_compute. repeat split. Qed.

(** ** The file of known domains *)

Lemma elem_of_foldl_add (d : string) (l : list string) (K : gset string) :
  d ∈ foldl (λ known x, {[x]} ∪ known) K l ↔ d ∈ K ∨ d ∈ l.
Proof.
  revert K. induction l as [|x l IH]; intros K; simpl.
  - rewrite elem_of_nil. tauto.
  - rewrite IH, elem_of_union, elem_of_singleton, elem_of_cons. tauto.
Qed.

(** X29. A domain that stands on a line of its own in the file read by
    [loadKnownDomains] (the line not being blank) is in the seen-set
    afterwards, together with everything that was in it, and from then on
    raises no alert unless it resolves to a watched address. *)
Theorem known_domains_file_blocks_alerts
    (cfg : Listener.Config) (certData : Listener.CertData)
    (text : string) (s : Listener.State) (d : string) :
  d ∈ Js.split Js.LF text →
  Js.trim d ≠ "" →
  let s' := Listener.loadKnownDomains (Some text) s in
  Listener.knownCabalDomains s ⊆ Listener.knownCabalDomains s'
  ∧ d ∈ Listener.knownCabalDomains s'
  ∧ (Listener.watchedByIP cfg d = false →
     Listener.alerts (Listener.processDomains cfg [d] certData s')
     = Listener.alerts s).
Proof.
  intros Hd Ht s'. subst s'.
  assert (d ∈ Listener.knownCabalDomains
                (Listener.loadKnownDomains (Some text) s)) as Hin.
  { simpl. apply elem_of_foldl_add. right.
    apply list_elem_of_filter. done. }
  split_and!; [|done|].
  - intros x Hx. simpl. apply elem_of_foldl_add. by left.
  - intros Hip. unfold Listener.processDomains. simpl foldl.
    destruct (Listener.skipped d) eqn:Hskip.
    + unfold Listener.processDomain. by rewrite Hskip.
    + by rewrite seen_blocks_without_ip_match.
Qed.

Lemma known_domains_file_blocks_alerts_witness :
  Listener.alerts
    (Listener.processDomains Scenario.bare ["thebigdog.xyz"]
       (Scenario.cert "thebigdog.xyz" "Sectigo" 0 1)
       (Listener.loadKnownDomains
          (Some (Research.ledgerText ["thewhitecat.fun"; "thebigdog.xyz"]))
          (Listener.initial [])))
  = [].
Proof.
  refine (proj2 (proj2 (known_domains_file_blocks_alerts Scenario.bare
            (Scenario.cert "thebigdog.xyz" "Sectigo" 0 1)
            (Research.ledgerText ["thewhitecat.fun"; "thebigdog.xyz"])
            (Listener.initial []) "thebigdog.xyz" _ _)) eq_refl).
  - vm_compute. right. left.
  - vm_compute. discriminate.
Defined.
